(** * QuickNews backend: the engagement controller and its real-time events

    A shallow embedding of [controllers/engagementController.js] together
    with the Mongoose schemas it writes through ([likeModel.js],
    [commentModel.js], [followModel.js], the [stats] block of [userModel.js]),
    the error helper [utils/errorMessage.js], the Express error middleware
    and the room helpers of [utils/socketEvents.js].

    Conventions of the embedding.
    - An ObjectId is the string [toString()] gives for it.  The handlers
      of the first part take the ids of a request already in that form;
      [Module Http] has the same handlers on the strings as they are sent,
      with Mongoose's casts.
    - A collection is a finite map keyed by what identifies a row: the
      [_id] for comments and users, and the declared unique index for likes
      ([user], [content]) and follows ([follower], [following]); a like row
      then holds its [contentType] and a follow row its [status].
    - Numbers that are only ever incremented and decremented by one are
      integers.
    - Every [await] of a handler is one step of the [Async] monad below; an
      exception is a [Thrown] completion, caught by the handler's
      [try]/[catch].  Storage outages and timestamps are not modelled. *)

From Stdlib Require Import ZArith Ascii String List Lia Bool.
From stdpp Require Import gmap strings list fin_maps.

Abbreviation ObjectId := string (only parsing).

(** ** JavaScript strings *)

Module Js.

(** Strings are sequences of code units below 256.  The code units
    [String.prototype.trim] strips in that range: TAB, LF, VT, FF, CR,
    SPACE and NBSP. *)
Definition isWhiteSpace (c : ascii) : bool :=
  let n := nat_of_ascii c in
  (n =? 9)%nat || (n =? 10)%nat || (n =? 11)%nat || (n =? 12)%nat
  || (n =? 13)%nat || (n =? 32)%nat || (n =? 160)%nat.

Fixpoint trimStart (s : string) : string :=
  match s with
  | EmptyString => EmptyString
  | String c r => if isWhiteSpace c then trimStart r else s
  end.

Fixpoint trimEnd (s : string) : string :=
  match s with
  | EmptyString => EmptyString
  | String c r =>
      match trimEnd r with
      | EmptyString => if isWhiteSpace c then EmptyString else String c EmptyString
      | r' => String c r'
      end
  end.

Definition trim (s : string) : string := trimEnd (trimStart s).

(** [Array.prototype.join] on strings. *)
Fixpoint join (sep : string) (l : list string) : string :=
  match l with
  | [] => ""
  | [x] => x
  | x :: r => x +:+ sep +:+ join sep r
  end.

(** A string made of [n] copies of one code unit. *)
Fixpoint repeat (c : ascii) (n : nat) : string :=
  match n with
  | O => EmptyString
  | S k => String c (repeat c k)
  end.

End Js.

(** ** Documents and collections *)

Record UserStats := mkStats {
  followers : Z;
  following : Z;
  totalViews : Z;
  totalLikes : Z
}.

Record UserDoc := mkUser {
  name : string;
  stats : UserStats
}.

Record CommentDoc := mkComment {
  c_user : ObjectId;
  c_content : ObjectId;
  c_contentType : string;
  c_text : string;
  c_parentComment : option ObjectId;
  c_likesCount : Z;
  c_repliesCount : Z;
  c_isEdited : bool;
  c_active : bool
}.

Record LikeDoc := mkLike {
  l_user : ObjectId;
  l_content : ObjectId;
  l_contentType : string
}.

Record FollowDoc := mkFollow {
  f_follower : ObjectId;
  f_following : ObjectId;
  f_status : string
}.

Record Db := mkDb {
  users : gmap string UserDoc;
  videos : gset string;
  articles : gset string;
  comments : gmap string CommentDoc;
  likes : gmap (string * string) string;
  follows : gmap (string * string) string
}.

(** ** utils/socketEvents.js *)

(** What one [emit] call puts on the wire: the room it is restricted to
    ([None] for [io.emit], which reaches every connected socket), the event
    name and the payload. *)
Inductive Payload :=
| LikePayload (type : string) (userId contentId : ObjectId)
| CommentPayload (type : string) (comment : option (CommentDoc * option string))
| CommentIdPayload (type : string) (commentId : ObjectId)
| FollowPayload (type : string) (userId targetUserId : ObjectId).

Record Emit := mkEmit {
  ev_room : option string;
  ev_name : string;
  ev_data : Payload
}.

Module SocketEvents.


Definition emitToUser (userId : ObjectId) (eventName : string) (data : Payload) : Emit :=
  mkEmit (Some ("user:" +:+ userId)) eventName data.

Definition getContentRoomId (contentType : string) (contentId : ObjectId) : string :=
  contentType +:+ ":" +:+ contentId.

Definition getUserRoomId (userId : ObjectId) : string :=
  "user:" +:+ userId.

End SocketEvents.

(** The database together with the events sent so far, oldest first. *)
Record World := mkWorld {
  db : Db;
  wire : list Emit
}.

(** ** Exceptions and the handler monad *)

Inductive Exn :=
| MongoServerError (msg : string)
| ValidationError (model : string) (errors : list (string * string))
| Error (msg : string)
| TypeError (msg : string).

(** [error.message].  A Mongoose validation error renders as the model
    name followed by one [path: message] entry per failing path. *)
Definition message (e : Exn) : string :=
  match e with
  | MongoServerError msg => msg
  | ValidationError model errors =>
      model +:+ " validation failed: "
        +:+ Js.join ", " (map (fun pe => fst pe +:+ ": " +:+ snd pe) errors)
  | Error msg => msg
  | TypeError msg => msg
  end.

Inductive Completion (A : Type) :=
| Normal (a : A)
| Thrown (e : Exn).
Arguments Normal {A} a.
Arguments Thrown {A} e.

Definition Async (A : Type) : Type := World -> Completion A * World.

#[global] Instance async_ret : MRet Async :=
  fun A (a : A) w => (Normal a, w).

#[global] Instance async_bind : MBind Async :=
  fun A B (k : A -> Async B) (m : Async A) w =>
    match m w with
    | (Normal a, w') => k a w'
    | (Thrown e, w') => (Thrown e, w')
    end.

Definition throw {A} (e : Exn) : Async A := fun w => (Thrown e, w).

Definition tryCatch {A} (m : Async A) (h : Exn -> Async A) : Async A :=
  fun w =>
    match m w with
    | (Normal a, w') => (Normal a, w')
    | (Thrown e, w') => h e w'
    end.

Definition getDb : Async Db := fun w => (Normal (db w), w).
Definition setDb (d : Db) : Async unit := fun w => (Normal tt, mkWorld d (wire w)).
Definition when (b : bool) (m : Async unit) : Async unit := if b then m else mret tt.

(** [io.emit(eventName, data)]: no room, every connected socket. *)
Definition io_emit (eventName : string) (data : Payload) : Async unit :=
  fun w => (Normal tt, mkWorld (db w) (wire w ++ [mkEmit None eventName data])).

(** [req.io.emit(...)] written without the [if (req.io)] guard: reading
    [emit] of [undefined] throws. *)
Definition req_io_emit (io : bool) (eventName : string) (data : Payload) : Async unit :=
  if io then io_emit eventName data
  else throw (TypeError "Cannot read properties of undefined (reading 'emit')").

(** The server's duplicate-key error.  The message keeps the collection and
    the index; the database name and the dump of the key are left out. *)
Definition E11000 (collection index : string) : Exn :=
  MongoServerError
    ("E11000 duplicate key error collection: " +:+ collection +:+ " index: " +:+ index).

Definition with_users (f : gmap string UserDoc -> gmap string UserDoc) (d : Db) : Db :=
  mkDb (f (users d)) (videos d) (articles d) (comments d) (likes d) (follows d).

Definition with_comments (f : gmap string CommentDoc -> gmap string CommentDoc) (d : Db) : Db :=
  mkDb (users d) (videos d) (articles d) (f (comments d)) (likes d) (follows d).

Definition with_likes
    (f : gmap (string * string) string -> gmap (string * string) string) (d : Db) : Db :=
  mkDb (users d) (videos d) (articles d) (comments d) (f (likes d)) (follows d).

Definition with_follows
    (f : gmap (string * string) string -> gmap (string * string) string) (d : Db) : Db :=
  mkDb (users d) (videos d) (articles d) (comments d) (likes d) (f (follows d)).

Definition modifyDb (f : Db -> Db) : Async unit :=
  d ← getDb; setDb (f d).

(** ** models/videoModel.js, models/articleModel.js (existence only) *)

(** [Model.exists({ _id })] and the other queries of this part take the
    [_id] as an ObjectId: the cast of the string a request carries, which
    can fail, comes before them and is [Http.cast] below. *)

Module Video.
Definition exists_ (_id : ObjectId) : Async bool :=
  d ← getDb; mret (bool_decide (_id ∈ videos d)).
End Video.

Module Article.
Definition exists_ (_id : ObjectId) : Async bool :=
  d ← getDb; mret (bool_decide (_id ∈ articles d)).
End Article.

(** ** models/userModel.js (the [stats] counters) *)

Module User.
Definition exists_ (_id : ObjectId) : Async bool :=
  d ← getDb; mret (bool_decide (is_Some (users d !! _id))).

Definition inc_followers (n : Z) (u : UserDoc) : UserDoc :=
  mkUser (name u)
    (mkStats (followers (stats u) + n) (following (stats u))
             (totalViews (stats u)) (totalLikes (stats u))).

Definition inc_following (n : Z) (u : UserDoc) : UserDoc :=
  mkUser (name u)
    (mkStats (followers (stats u)) (following (stats u) + n)
             (totalViews (stats u)) (totalLikes (stats u))).

(** [User.updateOne({ _id }, { $inc: ... })]: nothing happens when no
    document has that id. *)
Definition updateOne (_id : ObjectId) (update : UserDoc -> UserDoc) : Async unit :=
  modifyDb (with_users (alter update _id)).
End User.

(** ** models/likeModel.js *)

Module Like.
Definition contentType_enum : list string := ["Video"; "Comment"; "Article"].

Definition validate (contentType : string) : list (string * string) :=
  if existsb (String.eqb contentType) contentType_enum then []
  else [("contentType",
         "`" +:+ contentType +:+ "` is not a valid enum value for path `contentType`.")].

Definition findOne (user content : ObjectId) (contentType : string) : Async (option LikeDoc) :=
  d ← getDb;
  mret (match likes d !! (user, content) with
        | Some ct =>
            if String.eqb ct contentType then Some (mkLike user content ct) else None
        | None => None
        end).

(** [Like.deleteOne({ _id: existingLike._id })]. *)
Definition deleteOne (l : LikeDoc) : Async unit :=
  modifyDb (with_likes (delete (l_user l, l_content l))).

(** [Like.create]: schema validation, then the insert, which the unique
    index on ([user], [content]) refuses when a row with that pair exists. *)
Definition create (user content : ObjectId) (contentType : string) : Async LikeDoc :=
  match validate contentType with
  | [] =>
      d ← getDb;
      match likes d !! (user, content) with
      | Some _ => throw (E11000 "likes" "user_1_content_1")
      | None =>
          setDb (with_likes (insert (user, content) contentType) d);;
          mret (mkLike user content contentType)
      end
  | errors => throw (ValidationError "Like" errors)
  end.
End Like.

(** ** models/commentModel.js *)

Module Comment.
Definition contentType_enum : list string := ["Video"; "Article"].

(** [trim: true] is a setter: it runs when [text] is assigned, before any
    validator sees the value. *)
Definition setText (text : option string) : option string := Js.trim <$> text.

(** The validators of the schema, in schema order, run on the stored
    values; for one path the first failing validator reports. *)
Definition validate (contentType : string) (text : option string) : list (string * string) :=
  (if existsb (String.eqb contentType) contentType_enum then []
   else [("contentType",
          "`" +:+ contentType +:+ "` is not a valid enum value for path `contentType`.")])
  ++
  match text with
  | None => [("text", "Comment text is required")]
  | Some t =>
      if (String.length t =? 0)%nat then [("text", "Comment text is required")]
      else if (1000 <? String.length t)%nat
           then [("text", "Comment cannot be longer than 1000 characters")]
           else []
  end.

Definition exists_ (_id : ObjectId) : Async bool :=
  d ← getDb; mret (bool_decide (is_Some (comments d !! _id))).

Definition findById (_id : ObjectId) : Async (option CommentDoc) :=
  d ← getDb; mret (comments d !! _id).

(** [findById(...).populate('user', 'name profilePicture')]: the document
    with the name of its author, when that user still exists. *)
Definition findById_populated (_id : ObjectId)
  : Async (option (CommentDoc * option string)) :=
  d ← getDb;
  mret ((fun c => (c, name <$> users d !! c_user c)) <$> comments d !! _id).

Definition inc_repliesCount (n : Z) (c : CommentDoc) : CommentDoc :=
  mkComment (c_user c) (c_content c) (c_contentType c) (c_text c)
    (c_parentComment c) (c_likesCount c) (c_repliesCount c + n)
    (c_isEdited c) (c_active c).

(** [Comment.findByIdAndUpdate(id, { $inc: ... })]: nothing happens when no
    document has that id. *)
Definition findByIdAndUpdate (_id : ObjectId) (update : CommentDoc -> CommentDoc)
  : Async unit :=
  modifyDb (with_comments (alter update _id)).

(** [Comment.create]: defaults, setters, validation, then the insert under
    the [_id] the driver generated, which the [_id] index refuses when it
    is already taken. *)
Definition create (_id user content : ObjectId) (contentType : string)
    (text : option string) (parentComment : option ObjectId)
  : Async (ObjectId * CommentDoc) :=
  let text' := setText text in
  match validate contentType text' with
  | [] =>
      d ← getDb;
      match comments d !! _id with
      | Some _ => throw (E11000 "comments" "_id_")
      | None =>
          let c := mkComment user content contentType (default "" text')
                     parentComment 0 0 false true in
          setDb (with_comments (insert _id c) d);; mret (_id, c)
      end
  | errors => throw (ValidationError "Comment" errors)
  end.

Definition set_text_isEdited (text : string) (c : CommentDoc) : CommentDoc :=
  mkComment (c_user c) (c_content c) (c_contentType c) text
    (c_parentComment c) (c_likesCount c) (c_repliesCount c)
    true (c_active c).

(** [comment.text = text; comment.isEdited = true; await comment.save()] on
    the document [c] loaded under [_id]: the setter, the validators, then
    the write of the two modified paths. *)
Definition save_text_isEdited (_id : ObjectId) (c : CommentDoc) (text : option string)
  : Async unit :=
  let text' := setText text in
  match validate (c_contentType c) text' with
  | [] => modifyDb (with_comments (alter (set_text_isEdited (default "" text')) _id))
  | errors => throw (ValidationError "Comment" errors)
  end.

(** [comment.deleteOne()]: the row is removed. *)
Definition deleteOne (_id : ObjectId) : Async unit :=
  modifyDb (with_comments (delete _id)).
End Comment.

(** ** models/followModel.js *)

Module Follow.
Definition findOne (follower following : ObjectId) : Async (option FollowDoc) :=
  d ← getDb; mret (mkFollow follower following <$> follows d !! (follower, following)).

Definition deleteOne (f : FollowDoc) : Async unit :=
  modifyDb (with_follows (delete (f_follower f, f_following f))).

(** The [pre('save')] hook.  It calls [next(err)] and, lacking a [return],
    [next()] after it; the hook runner honours only the first call. *)
Definition preSave (f : FollowDoc) : Async unit :=
  if String.eqb (f_follower f) (f_following f)
  then throw (Error "Users cannot follow themselves")
  else mret tt.

(** [Follow.create]: default status, the hook, then the insert, which the
    unique index on ([follower], [following]) refuses for an existing pair. *)
Definition create (follower following : ObjectId) : Async FollowDoc :=
  let f := mkFollow follower following "active" in
  preSave f;;
  d ← getDb;
  match follows d !! (follower, following) with
  | Some _ => throw (E11000 "follows" "follower_1_following_1")
  | None => setDb (with_follows (insert (follower, following) (f_status f)) d);; mret f
  end.
End Follow.

(** ** utils/errorMessage.js and middleware/errorMiddleware.js *)

Record HttpError := mkHttpError {
  statusCode : nat;
  err_message : string
}.

Definition createError (statusCode : nat) (message : string) : HttpError :=
  mkHttpError statusCode message.

Inductive Body :=
| MessageBody (message : string)
| LikeBody (l : LikeDoc)
| CommentBody (populatedComment : option (CommentDoc * option string))
| FollowBody (f : FollowDoc).

(** How a handler ends: [res.status(status).json(body)] or [next(err)]. *)
Inductive Reply :=
| json (status : nat) (body : Body)
| next (err : HttpError).

(** [errorHandler]: the status of the error when it has one, else 500 for
    a response still at its default 200. *)
Definition errorHandler (err : HttpError) (resStatusCode : nat) : nat :=
  if (statusCode err =? 0)%nat
  then (if (resStatusCode =? 200)%nat then 500 else resStatusCode)
  else statusCode err.

(** The HTTP status the client sees. *)
Definition http_status (r : Reply) : nat :=
  match r with
  | json status _ => status
  | next err => errorHandler err 200
  end.

(** ** controllers/engagementController.js *)

(** Every handler is wrapped in
    [try { ... } catch (error) { next(createError(500, error.message)); }]. *)
Definition catch500 (m : Async Reply) : Async Reply :=
  tryCatch m (fun error => mret (next (createError 500 (message error)))).

(** The content-exists check of [toggleLike]. *)
Definition likeContentExists (contentType : string) (contentId : ObjectId) : Async bool :=
  if String.eqb contentType "Video" then Video.exists_ contentId
  else if String.eqb contentType "Article" then Article.exists_ contentId
  else if String.eqb contentType "Comment" then Comment.exists_ contentId
  else mret false.

(** [toggleLike] from the point where [Like.findOne] has answered. *)
Definition toggleLike_write (io : bool) (userId contentId : ObjectId)
    (contentType : string) (existingLike : option LikeDoc) : Async Reply :=
  match existingLike with
  | Some l =>
      Like.deleteOne l;;
      when io (io_emit ("like:" +:+ contentId) (LikePayload "unlike" userId contentId));;
      mret (json 200 (MessageBody "Like removed successfully"))
  | None =>
      newLike ← Like.create userId contentId contentType;
      when io (io_emit ("like:" +:+ contentId) (LikePayload "like" userId contentId));;
      mret (json 201 (LikeBody newLike))
  end.

Definition toggleLike (io : bool) (userId contentId : ObjectId) (contentType : string)
  : Async Reply :=
  catch500 (
    contentExists ← likeContentExists contentType contentId;
    if negb contentExists
    then mret (next (createError 404 (contentType +:+ " not found")))
    else
      existingLike ← Like.findOne userId contentId contentType;
      toggleLike_write io userId contentId contentType existingLike).

(** The content-exists check of [createComment]. *)
Definition commentContentExists (contentType : string) (contentId : ObjectId) : Async bool :=
  if String.eqb contentType "Video" then Video.exists_ contentId
  else if String.eqb contentType "Article" then Article.exists_ contentId
  else mret false.

(** [newId] is the [_id] the driver generates for the created document;
    [parentComment] is the ObjectId of the parent the request names, [None]
    when it names none.  [Http.createComment] has the handler on the
    strings of the request. *)
Definition createComment (io : bool) (userId contentId : ObjectId) (contentType : string)
    (text : option string) (parentComment : option ObjectId) (newId : ObjectId)
  : Async Reply :=
  catch500 (
    contentExists ← commentContentExists contentType contentId;
    if negb contentExists
    then mret (next (createError 404 (contentType +:+ " not found")))
    else
      commentExists ← match parentComment with
                      | Some p => Comment.exists_ p
                      | None => mret true
                      end;
      if negb commentExists
      then mret (next (createError 404 "Parent comment not found"))
      else
        comment ← Comment.create newId userId contentId contentType text parentComment;
        match parentComment with
        | Some p => Comment.findByIdAndUpdate p (Comment.inc_repliesCount 1)
        | None => mret tt
        end;;
        populatedComment ← Comment.findById_populated (fst comment);
        when io (io_emit ("comment:" +:+ contentId) (CommentPayload "new" populatedComment));;
        mret (json 201 (CommentBody populatedComment))).

Definition updateComment (io : bool) (userId commentId : ObjectId) (text : option string)
  : Async Reply :=
  catch500 (
    comment ← Comment.findById commentId;
    match comment with
    | None => mret (next (createError 404 "Comment not found"))
    | Some c =>
        if negb (String.eqb (c_user c) userId)
        then mret (next (createError 403 "Not authorized to update this comment"))
        else
          Comment.save_text_isEdited commentId c text;;
          populatedComment ← Comment.findById_populated commentId;
          req_io_emit io ("comment:" +:+ c_content c) (CommentPayload "update" populatedComment);;
          mret (json 200 (CommentBody populatedComment))
    end).

Definition deleteComment (io : bool) (userId commentId : ObjectId) : Async Reply :=
  catch500 (
    comment ← Comment.findById commentId;
    match comment with
    | None => mret (next (createError 404 "Comment not found"))
    | Some c =>
        if negb (String.eqb (c_user c) userId)
        then mret (next (createError 403 "Not authorized to delete this comment"))
        else
          match c_parentComment c with
          | Some p => Comment.findByIdAndUpdate p (Comment.inc_repliesCount (-1))
          | None => mret tt
          end;;
          Comment.deleteOne commentId;;
          req_io_emit io ("comment:" +:+ c_content c) (CommentIdPayload "delete" commentId);;
          mret (json 200 (MessageBody "Comment deleted successfully"))
    end).

(** [toggleFollow] for a target given as an ObjectId in canonical form, for
    which [targetUserId === userId.toString()] compares the two ids.
    [Http.toggleFollow] has the handler on the string of the URL. *)
Definition toggleFollow (io : bool) (userId targetUserId : ObjectId) : Async Reply :=
  catch500 (
    if String.eqb targetUserId userId
    then mret (next (createError 400 "Users cannot follow themselves"))
    else
      targetUserExists ← User.exists_ targetUserId;
      if negb targetUserExists
      then mret (next (createError 404 "Target user not found"))
      else
        existingFollow ← Follow.findOne userId targetUserId;
        match existingFollow with
        | Some f =>
            Follow.deleteOne f;;
            User.updateOne targetUserId (User.inc_followers (-1));;
            User.updateOne userId (User.inc_following (-1));;
            when io (io_emit ("follow:" +:+ targetUserId)
                       (FollowPayload "unfollow" userId targetUserId));;
            mret (json 200 (MessageBody "Unfollowed successfully"))
        | None =>
            newFollow ← Follow.create userId targetUserId;
            User.updateOne targetUserId (User.inc_followers 1);;
            User.updateOne userId (User.inc_following 1);;
            when io (io_emit ("follow:" +:+ targetUserId)
                       (FollowPayload "follow" userId targetUserId));;
            mret (json 201 (FollowBody newFollow))
        end).

(** ** Requests and runs *)

Inductive Call :=
| ToggleLike (io : bool) (userId contentId : ObjectId) (contentType : string)
| CreateComment (io : bool) (userId contentId : ObjectId) (contentType : string)
    (text : option string) (parentComment : option ObjectId) (newId : ObjectId)
| UpdateComment (io : bool) (userId commentId : ObjectId) (text : option string)
| DeleteComment (io : bool) (userId commentId : ObjectId)
| ToggleFollow (io : bool) (userId targetUserId : ObjectId).

Definition handle (c : Call) : Async Reply :=
  match c with
  | ToggleLike io u cid ct => toggleLike io u cid ct
  | CreateComment io u cid ct t p n => createComment io u cid ct t p n
  | UpdateComment io u cm t => updateComment io u cm t
  | DeleteComment io u cm => deleteComment io u cm
  | ToggleFollow io u t => toggleFollow io u t
  end.

(** A handler started on database [d] with a silent wire. *)
Definition call (c : Call) (d : Db) : Completion Reply * World :=
  handle c (mkWorld d []).

Definition reply_of (r : Completion Reply * World) : option Reply :=
  match fst r with
  | Normal a => Some a
  | Thrown _ => None
  end.

Definition db_after (c : Call) (d : Db) : Db := db (snd (call c d)).
Definition reply_to (c : Call) (d : Db) : option Reply := reply_of (call c d).
Definition emitted (c : Call) (d : Db) : list Emit := wire (snd (call c d)).

(** Requests served one after the other. *)
Fixpoint run (cs : list Call) (d : Db) : Db :=
  match cs with
  | [] => d
  | c :: rest => run rest (db_after c d)
  end.

Definition emptyDb : Db := mkDb ∅ ∅ ∅ ∅ ∅ ∅.

(** A small database used by the examples: two users and one video. *)
Definition db0 : Db :=
  mkDb {[ "u1" := mkUser "Ann" (mkStats 0 0 0 0); "u2" := mkUser "Bob" (mkStats 0 0 0 0) ]}
       {[ "v1" ]} ∅ ∅ ∅ ∅.

(** ** Vocabulary of the statements *)

(** The content a like may point to: a video, an article or a comment that
    exists under the given type. *)
Definition engageable (d : Db) (contentType : string) (contentId : ObjectId) : Prop :=
  (contentType = "Video" ∧ contentId ∈ videos d)
  ∨ (contentType = "Article" ∧ contentId ∈ articles d)
  ∨ (contentType = "Comment" ∧ is_Some (comments d !! contentId)).

(** The event a like toggle sends when a socket server is attached. *)
Definition like_wire (io : bool) (type : string) (userId contentId : ObjectId) : list Emit :=
  if io then [mkEmit None ("like:" +:+ contentId) (LikePayload type userId contentId)]
  else [].

(** [db0] in which user u1 already likes video v1. *)
Definition db0_liked : Db := with_likes (insert ("u1", "v1") "Video") db0.

(** ** toggleLike suspended between its read and its write *)

(** What the requests served while this one waits at an [await] do to the
    database. *)
Definition interfere (others : Db -> Db) : Async unit := modifyDb others.

(** [toggleLike] with the other requests' writes landing after
    [Like.findOne] has answered and before [Like.deleteOne] or
    [Like.create] runs.  With [others] the identity this is [toggleLike]. *)
Definition toggleLike_racing (others : Db -> Db)
    (io : bool) (userId contentId : ObjectId) (contentType : string) : Async Reply :=
  catch500 (
    contentExists ← likeContentExists contentType contentId;
    if negb contentExists
    then mret (next (createError 404 (contentType +:+ " not found")))
    else
      existingLike ← Like.findOne userId contentId contentType;
      interfere others;;
      toggleLike_write io userId contentId contentType existingLike).

(** The event a follow toggle sends when a socket server is attached. *)
Definition follow_wire (io : bool) (type : string) (userId targetUserId : ObjectId)
  : list Emit :=
  if io then [mkEmit None ("follow:" +:+ targetUserId)
                (FollowPayload type userId targetUserId)]
  else [].

(** [user.stats.followers] and [user.stats.following] of the user stored
    under an id. *)
Definition stats_followers (d : Db) (userId : ObjectId) : option Z :=
  (λ u, followers (stats u)) <$> users d !! userId.

Definition stats_following (d : Db) (userId : ObjectId) : option Z :=
  (λ u, following (stats u)) <$> users d !! userId.

(** The databases the service can be in: it starts with no engagement
    rows; engagement requests are served one after the other; the other
    controllers add, change and remove users, videos and articles. *)
Inductive reachable : Db → Prop :=
| reach_start (us : gmap string UserDoc) (vs ars : gset string) :
    reachable (mkDb us vs ars ∅ ∅ ∅)
| reach_call (c : Call) (d : Db) :
    reachable d → reachable (db_after c d)
| reach_registry (us : gmap string UserDoc) (vs ars : gset string) (d : Db) :
    reachable d → reachable (mkDb us vs ars (comments d) (likes d) (follows d)).

(** A computation keeps a property of the world, whether it completes or
    throws. *)
Definition preserves {A} (I : World → Prop) (m : Async A) : Prop :=
  ∀ w, I w → I (snd (m w)).

(** A property of the database alone, and one of every event sent. *)
Definition on_db (J : Db → Prop) : World → Prop := λ w, J (db w).
Definition on_wire (ok : Emit → Prop) : World → Prop := λ w, Forall ok (wire w).

(** No follow row has the same user on both ends. *)
Definition no_self_follow (d : Db) : Prop :=
  ∀ userId : ObjectId, follows d !! (userId, userId) = None.

(** Whether a call, served on database [d], is answered with the given
    HTTP status. *)
Definition answered (status : nat) (c : Call) (d : Db) : bool :=
  match reply_to c d with
  | Some r => (http_status r =? status)%nat
  | None => false
  end.

(** [parent.repliesCount] of the comment stored under an id. *)
Definition repliesCount (d : Db) (commentId : ObjectId) : option Z :=
  c_repliesCount <$> comments d !! commentId.

(** A [createComment] call with [parentComment = P] that is answered 201. *)
Definition creates_reply_to (P : ObjectId) (c : Call) (d : Db) : bool :=
  match c with
  | CreateComment _ _ _ _ _ (Some q) _ => String.eqb q P && answered 201 c d
  | _ => false
  end.

(** A [deleteComment] call on an existing reply to [P], made by the
    reply's author. *)
Definition deletes_reply_to (P : ObjectId) (c : Call) (d : Db) : bool :=
  match c with
  | DeleteComment _ userId commentId =>
      match comments d !! commentId with
      | Some r => bool_decide (c_parentComment r = Some P) && String.eqb (c_user r) userId
      | None => false
      end
  | _ => false
  end.

(** How many calls of a run satisfy [f], each judged on the database it is
    served on. *)
Fixpoint count_along (f : Call → Db → bool) (cs : list Call) (d : Db) : nat :=
  match cs with
  | [] => 0
  | c :: rest => (if f c d then 1 else 0) + count_along f rest (db_after c d)
  end.

(** The call does not delete comment [P] itself. *)
Definition spares (P : ObjectId) (c : Call) : Prop :=
  match c with
  | DeleteComment _ _ commentId => commentId ≠ P
  | _ => True
  end.

(** [db0] after user u1 commented "hello" on video v1 (comment c1) and user
    u2 replied "hi" to it (comment c2). *)
Definition db0_thread : Db :=
  run [CreateComment true "u1" "v1" "Video" (Some "hello") None "c1";
       CreateComment true "u2" "v1" "Video" (Some "hi") (Some "c1") "c2"] db0.

(** The comment collection is exactly [m0]. *)
Definition comments_are (m0 : gmap string CommentDoc) (d : Db) : Prop :=
  comments d = m0.

(** A string that is empty or made of white space only. *)
Definition blank (s : string) : bool :=
  forallb Js.isWhiteSpace (list_ascii_of_string s).

(** The content a comment may be posted on: a video or an article that
    exists under the given type. *)
Definition commentable (d : Db) (contentType : string) (contentId : ObjectId) : Prop :=
  (contentType = "Video" ∧ contentId ∈ videos d)
  ∨ (contentType = "Article" ∧ contentId ∈ articles d).

(** No parent was given, or the one given exists. *)
Definition parent_ok (d : Db) (parentComment : option ObjectId) : Prop :=
  match parentComment with
  | Some p => is_Some (comments d !! p)
  | None => True
  end.

(** [db0] after user u1 commented "hello" on video v1 (comment c1). *)
Definition db0_comment : Db :=
  db_after (CreateComment true "u1" "v1" "Video" (Some "hello") None "c1") db0.

(** A letter followed by a thousand spaces: 1001 code units. *)
Definition padded_text : string := String "a" (Js.repeat " " 1000).


(** ** Vocabulary of the further properties *)

(** Whether the request carries the socket server ([req.io]). *)
Definition call_io (c : Call) : bool :=
  match c with
  | ToggleLike io _ _ _ => io
  | CreateComment io _ _ _ _ _ _ => io
  | UpdateComment io _ _ _ => io
  | DeleteComment io _ _ => io
  | ToggleFollow io _ _ => io
  end.

(** The HTTP status a call is answered with, if it is answered. *)
Definition status_of (c : Call) (d : Db) : option nat :=
  http_status <$> reply_to c d.

(** A comment text as the schema lets it be stored: trimmed, not empty,
    at most 1000 code units. *)
Definition stored_text (s : string) : Prop :=
  Js.trim s = s ∧ (1 ≤ String.length s ≤ 1000)%nat.

(** What the schema and the controller keep true of every comment row. *)
Definition comment_ok (c : CommentDoc) : Prop :=
  c_active c = true
  ∧ c_likesCount c = 0%Z
  ∧ c_contentType c ∈ Comment.contentType_enum
  ∧ stored_text (c_text c).

Definition comments_ok (d : Db) : Prop :=
  ∀ id c, comments d !! id = Some c → comment_ok c.

(** What the schemas and the controller keep true of like and follow rows. *)
Definition ledger_ok (d : Db) : Prop :=
  (∀ k contentType, likes d !! k = Some contentType →
     contentType ∈ Like.contentType_enum)
  ∧ (∀ k status, follows d !! k = Some status → status = "active").

(** [Follow.countDocuments({ following: userId })] and
    [Follow.countDocuments({ follower: userId })]. *)
Definition followers_count (d : Db) (userId : ObjectId) : nat :=
  size (filter (λ kv : (string * string) * string, kv.1.2 = userId) (follows d)).

Definition following_count (d : Db) (userId : ObjectId) : nat :=
  size (filter (λ kv : (string * string) * string, kv.1.1 = userId) (follows d)).

(** The statuses each handler can answer a request with that it refuses
    before writing, and those it answers a request with that it carries
    out. *)
Definition refusal_statuses (c : Call) : list nat :=
  match c with
  | ToggleLike _ _ _ _ => [404; 500]
  | CreateComment _ _ _ _ _ _ _ => [404; 500]
  | UpdateComment _ _ _ _ => [404; 403; 500]
  | DeleteComment _ _ _ => [404; 403]
  | ToggleFollow _ _ _ => [400; 404]
  end.

Definition success_statuses (c : Call) : list nat :=
  match c with
  | ToggleLike _ _ _ _ => [200; 201]
  | CreateComment _ _ _ _ _ _ _ => [201]
  | UpdateComment _ _ _ _ => [200]
  | DeleteComment _ _ _ => [200]
  | ToggleFollow _ _ _ => [200; 201]
  end.

(** The two handlers that call [req.io.emit] without the guard. *)
Definition emits_unguarded (c : Call) : bool :=
  match c with
  | UpdateComment _ _ _ _ | DeleteComment _ _ _ => true
  | _ => false
  end.

(** The three ways a call can end: refused with nothing written or sent;
    carried out, with one event when a socket server is attached; or
    written and then failed at the unguarded emit. *)
Inductive Ending (c : Call) (d : Db) : Completion Reply * World → Prop :=
| Refused (err : HttpError) :
    statusCode err ∈ refusal_statuses c →
    Ending c d (Normal (next err), mkWorld d [])
| Done (status : nat) (body : Body) (d' : Db) (e : Emit) :
    status ∈ success_statuses c →
    (emits_unguarded c = true → call_io c = true) →
    Ending c d (Normal (json status body), mkWorld d' (if call_io c then [e] else []))
| Written_then_failed (d' : Db) :
    call_io c = false →
    emits_unguarded c = true →
    Ending c d
      (Normal (next (createError 500
         "Cannot read properties of undefined (reading 'emit')")), mkWorld d' []).

(** The two counters of a user say what the Follow rows say. *)
Definition counters_agree (d : Db) (userId : ObjectId) : Prop :=
  stats_followers d userId = Some (Z.of_nat (followers_count d userId))
  ∧ stats_following d userId = Some (Z.of_nat (following_count d userId)).

(** ** Numbers read from strings ([parseInt], [Math.ceil]) *)

Module JsNumber.

(** The value of a digit in radixes up to 36. *)
Definition digit_value (c : ascii) : option Z :=
  let n := Z.of_nat (nat_of_ascii c) in
  if (48 <=? n)%Z && (n <=? 57)%Z then Some (n - 48)%Z
  else if (97 <=? n)%Z && (n <=? 122)%Z then Some (n - 87)%Z
  else if (65 <=? n)%Z && (n <=? 90)%Z then Some (n - 55)%Z
  else None.

(** The longest prefix of digits of the radix, read as a number; [acc] is
    [None] until a digit has been read. *)
Fixpoint parse_digits (radix : Z) (s : string) (acc : option Z) : option Z :=
  match s with
  | EmptyString => acc
  | String c r =>
      match digit_value c with
      | Some v =>
          if (v <? radix)%Z
          then parse_digits radix r (Some (radix * default 0%Z acc + v)%Z)
          else acc
      | None => acc
      end
  end.

(** [parseInt(string, radix)], [None] standing for NaN and for an
    undefined argument: leading white space is skipped, a sign is read,
    with no radix (or radix 16) a "0x" prefix selects radix 16, and the
    digits that follow are read up to the first character that is not
    one.  Numbers are exact integers (the code reads page numbers, page
    sizes and byte offsets, far below 2^53); -0 is 0. *)
Definition parseInt (string : option string) (radix : option Z) : option Z :=
  match string with
  | None => None
  | Some s =>
      let s1 := Js.trimStart s in
      let '(sign, s2) :=
        match s1 with
        | String "-" r => ((-1)%Z, r)
        | String "+" r => (1%Z, r)
        | _ => (1%Z, s1)
        end in
      let R := match radix with
               | None => 0%Z
               | Some r => r
               end in
      if negb (R =? 0)%Z && ((R <? 2)%Z || (36 <? R)%Z) then None
      else
        let stripPrefix := (R =? 0)%Z || (R =? 16)%Z in
        let R := if (R =? 0)%Z then 10%Z else R in
        let '(R, s3) :=
          if stripPrefix
          then match s2 with
               | String "0" (String "x" r) => (16%Z, r)
               | String "0" (String "X" r) => (16%Z, r)
               | _ => (R, s2)
               end
          else (R, s2) in
        (λ n, (sign * n)%Z) <$> parse_digits R s3 None
  end.

(** [a || b] on numbers: [b] when [a] is NaN or 0. *)
Definition or_default (a : option Z) (b : Z) : Z :=
  match a with
  | Some n => if (n =? 0)%Z then b else n
  | None => b
  end.

(** [Math.ceil(a / b)] for a divisor that is not 0. *)
Definition ceil_div (a b : Z) : Z := (- ((- a) / b))%Z.

End JsNumber.

(** ** The query layer: sort, skip, limit *)

Module Cursor.

(** [sort({ createdAt: -1 })]: newest first.  Rows with equal time stamps
    come in an order the database does not promise; here they keep the
    order they were found in. *)
Fixpoint insert_desc {A} (key : A → Z) (x : A) (l : list A) : list A :=
  match l with
  | [] => [x]
  | y :: r => if (key y <? key x)%Z then x :: l else y :: insert_desc key x r
  end.

Definition sort_desc {A} (key : A → Z) (l : list A) : list A :=
  foldr (insert_desc key) [] l.

(** [skip(skip).limit(limit)] for a skip that is not negative and a limit
    of at least one.  What the driver does with other values is not
    modelled: the result is [None]. *)
Definition skip_limit {A} (skip limit : Z) (l : list A) : option (list A) :=
  if (0 <=? skip)%Z && (1 <=? limit)%Z
  then Some (take (Z.to_nat limit) (drop (Z.to_nat skip) l))
  else None.

End Cursor.

(** ** The read handlers of controllers/engagementController.js *)

Record Pagination := mkPagination {
  pg_current : Z;
  pg_pages : Z;
  pg_total : Z
}.

(** A 200 answer of a read handler: the documents of the page and the
    [pagination] object. *)
Record Page (A : Type) := mkPage {
  page_items : list A;
  page_pagination : Pagination
}.
Arguments mkPage {A} _ _.
Arguments page_items {A} _.
Arguments page_pagination {A} _.

(** A comment as [getComments] returns it: with the name of its author and
    with its direct replies (the [replies] virtual), each with the name of
    its author. *)
Record CommentItem := mkCommentItem {
  item_id : ObjectId;
  item_doc : CommentDoc;
  item_user : option string;
  item_replies : list (ObjectId * CommentDoc * option string)
}.

(** The filter [{ content, contentType, parentComment, active: true }]. *)
Definition comment_filter (contentId : ObjectId) (contentType : string)
    (parentComment : option ObjectId) (kv : string * CommentDoc) : Prop :=
  c_content kv.2 = contentId
  ∧ c_contentType kv.2 = contentType
  ∧ c_parentComment kv.2 = parentComment
  ∧ c_active kv.2 = true.

(** The filters [{ following: userId, status: 'active' }] and
    [{ follower: userId, status: 'active' }]. *)
Definition followers_filter (userId : ObjectId) (kv : (string * string) * string) : Prop :=
  kv.1.2 = userId ∧ kv.2 = "active".

Definition following_filter (userId : ObjectId) (kv : (string * string) * string) : Prop :=
  kv.1.1 = userId ∧ kv.2 = "active".

Section Reads.
(** The [createdAt] time stamps of the rows, which the documents of this
    embedding do not carry. *)
Context (commentedAt : ObjectId → Z) (followedAt : ObjectId * ObjectId → Z).

(** The documents of [Comment.find(filter).sort({ createdAt: -1 })]. *)
Definition find_comments (contentId : ObjectId) (contentType : string)
    (parentComment : option ObjectId) (d : Db) : list (ObjectId * CommentDoc) :=
  Cursor.sort_desc (λ kv, commentedAt kv.1)
    (map_to_list (filter (comment_filter contentId contentType parentComment) (comments d))).

(** The two [populate] calls of [getComments]. *)
Definition populate_comment (d : Db) (kv : ObjectId * CommentDoc) : CommentItem :=
  mkCommentItem kv.1 kv.2 (name <$> users d !! c_user kv.2)
    ((λ r : ObjectId * CommentDoc, (r.1, r.2, name <$> users d !! c_user r.2))
       <$> map_to_list (filter (λ r : string * CommentDoc, c_parentComment r.2 = Some kv.1)
                          (comments d))).

Definition getComments (contentId : ObjectId) (contentType : string)
    (parentComment : option ObjectId) (page limit : option string) (d : Db)
  : option (Page CommentItem) :=
  let page := JsNumber.or_default (JsNumber.parseInt page None) 1 in
  let limit := JsNumber.or_default (JsNumber.parseInt limit None) 10 in
  let skip := ((page - 1) * limit)%Z in
  found ← Cursor.skip_limit skip limit
            (find_comments contentId contentType parentComment d);
  let total :=
    Z.of_nat (size (filter (comment_filter contentId contentType parentComment)
                      (comments d))) in
  Some (mkPage (populate_comment d <$> found)
          (mkPagination page (JsNumber.ceil_div total limit) total)).

(** The documents of [Follow.find(filter).sort({ createdAt: -1 })]. *)
Definition find_follows (Q : (string * string) * string → Prop) `{!∀ kv, Decision (Q kv)}
    (d : Db) : list ((string * string) * string) :=
  Cursor.sort_desc (λ kv, followedAt kv.1) (map_to_list (filter Q (follows d))).

(** [getFollowers] answers with the populated [follower] of each row:
    the user document, or null when the user is gone. *)
Definition getFollowers (userId : ObjectId) (page limit : option string) (d : Db)
  : option (Page (option UserDoc)) :=
  let page := JsNumber.or_default (JsNumber.parseInt page None) 1 in
  let limit := JsNumber.or_default (JsNumber.parseInt limit None) 20 in
  let skip := ((page - 1) * limit)%Z in
  found ← Cursor.skip_limit skip limit (find_follows (followers_filter userId) d);
  let total := Z.of_nat (size (filter (followers_filter userId) (follows d))) in
  Some (mkPage ((λ kv : (string * string) * string, users d !! kv.1.1) <$> found)
          (mkPagination page (JsNumber.ceil_div total limit) total)).

Definition getFollowing (userId : ObjectId) (page limit : option string) (d : Db)
  : option (Page (option UserDoc)) :=
  let page := JsNumber.or_default (JsNumber.parseInt page None) 1 in
  let limit := JsNumber.or_default (JsNumber.parseInt limit None) 20 in
  let skip := ((page - 1) * limit)%Z in
  found ← Cursor.skip_limit skip limit (find_follows (following_filter userId) d);
  let total := Z.of_nat (size (filter (following_filter userId) (follows d))) in
  Some (mkPage ((λ kv : (string * string) * string, users d !! kv.1.2) <$> found)
          (mkPagination page (JsNumber.ceil_div total limit) total)).

End Reads.

(** [db0] after three top-level comments on video v1, c1 the oldest. *)
Definition db0_three : Db :=
  run [CreateComment true "u1" "v1" "Video" (Some "first") None "c1";
       CreateComment true "u2" "v1" "Video" (Some "second") None "c2";
       CreateComment true "u1" "v1" "Video" (Some "third") None "c3"] db0.

Definition db0_three_at (id : ObjectId) : Z :=
  if String.eqb id "c1" then 1%Z else if String.eqb id "c2" then 2%Z else 3%Z.



(** Two versions of a comment row that differ at most in [repliesCount]. *)
Definition same_comment (a b : CommentDoc) : Prop :=
  c_user a = c_user b
  ∧ c_content a = c_content b
  ∧ c_contentType a = c_contentType b
  ∧ c_text a = c_text b
  ∧ c_parentComment a = c_parentComment b
  ∧ c_likesCount a = c_likesCount b
  ∧ c_isEdited a = c_isEdited b
  ∧ c_active a = c_active b.


(** ** Rooms and socket authentication *)

(** Whether a character occurs in a string. *)
Fixpoint occurs (c : ascii) (s : string) : bool :=
  match s with
  | EmptyString => false
  | String a r => Ascii.eqb a c || occurs c r
  end.

(** What the middleware has done to a socket: the user it attached and the
    rooms it joined. *)
Record Socket := mkSocket {
  socket_user : option (ObjectId * UserDoc);
  socket_rooms : list string
}.

Section SocketAuth.
(** [jwt.verify(token, process.env.JWT_SECRET)]: the error it throws, or the
    [id] of the payload ([None] for a payload without one). *)
Context (jwt_verify : string → Exn + option ObjectId).

(** middleware/socketAuthMiddleware.js: the socket as the middleware
    leaves it, and the error passed to [next], if any.
    [User.findById(undefined)] finds nothing. *)
Definition socketAuthMiddleware (token : option string) (d : Db)
  : Socket * option Exn :=
  match token with
  | None => (mkSocket None [], Some (Error "Authentication error: Token missing"))
  | Some token =>
      if String.eqb token ""
      then (mkSocket None [], Some (Error "Authentication error: Token missing"))
      else
        match jwt_verify token with
        | inl error =>
            (mkSocket None [],
             Some (Error ("Authentication error: " +:+ message error)))
        | inr decoded_id =>
            match decoded_id ≫= (λ _id, (λ u, (_id, u)) <$> users d !! _id) with
            | None =>
                (mkSocket None [], Some (Error "Authentication error: User not found"))
            | Some user => (mkSocket (Some user) ["user:" +:+ user.1], None)
            end
        end
  end.

End SocketAuth.

(** A verifier for the examples: the token "t1" is user u1's, the token
    "old" has expired, anything else is malformed. *)
Definition jwt_verify0 (token : string) : Exn + option ObjectId :=
  if String.eqb token "t1" then inr (Some "u1")
  else if String.eqb token "old" then inl (Error "jwt expired")
  else inl (Error "jwt malformed").


(** ** middleware/authMiddleware.js, config/passport.js and the routes *)

(** The fields of a user document the guards look at. *)
Record Account := mkAccount {
  acc_id : ObjectId;
  acc_active : bool;
  acc_role : string
}.

(** What [passport.authenticate] hands to its callback: an error, [false]
    for a user, or the user. *)
Inductive Authenticated :=
| AuthError (err : Exn)
| AuthFail
| AuthUser (user : Account).




(** What a middleware does with a request: it calls [next()], having set
    [req.user] or not, it answers itself, or it calls [next(err)]. *)
Inductive Guard :=
| Next (req_user : option Account)
| Respond (status : nat) (message : string)
| NextErr (err : Exn).

Definition protect (a : Authenticated) : Guard :=
  match a with
  | AuthError err => NextErr err
  | AuthFail => Respond 401 "Not authorized, no token or invalid token"
  | AuthUser user =>
      if negb (acc_active user)
      then Respond 403 "User account is deactivated"
      else Next (Some user)
  end.

Definition authorize (roles : list string) (req_user : option Account) : Guard :=
  match req_user with
  | None => Respond 401 "Not authorized, no user found"
  | Some user =>
      if negb (existsb (String.eqb (acc_role user)) roles)
      then Respond 403 ("User role " +:+ acc_role user
                          +:+ " is not authorized to access this route")
      else Next req_user
  end.

Definition restrictTo (roles : list string) : option Account → Guard := authorize roles.
Definition admin : option Account → Guard := authorize ["admin"].
Definition creator : option Account → Guard := authorize ["creator"; "admin"].

(** Two middlewares in a row, as in [router.put(path, protect,
    restrictTo('admin'), handler)]: the second runs when the first calls
    [next()]. *)
Definition and_then (g : Guard) (k : option Account → Guard) : Guard :=
  match g with
  | Next req_user => k req_user
  | other => other
  end.

(** The routes of routes/engagementRoutes.js that sit behind [protect],
    with what each handler reads from [req.body] and [req.params]. *)
Inductive Route :=
| PostLikesToggle (contentId : ObjectId) (contentType : string)
| PostComments (contentId : ObjectId) (contentType : string) (text : option string)
    (parentComment : option ObjectId)
| PutComment (commentId : ObjectId) (text : option string)
| DeleteCommentRoute (commentId : ObjectId)
| PostFollow (targetUserId : ObjectId).

(** The handler call of a route for [req.user._id = userId]. *)
Definition route_call (io : bool) (userId newId : ObjectId) (r : Route) : Call :=
  match r with
  | PostLikesToggle contentId contentType => ToggleLike io userId contentId contentType
  | PostComments contentId contentType text parentComment =>
      CreateComment io userId contentId contentType text parentComment newId
  | PutComment commentId text => UpdateComment io userId commentId text
  | DeleteCommentRoute commentId => DeleteComment io userId commentId
  | PostFollow targetUserId => ToggleFollow io userId targetUserId
  end.





(** ** utils/videoStream.js *)

Module JsString.

(** [s.startsWith(p)] and what follows the prefix. *)
Fixpoint strip_prefix (p s : string) : option string :=
  match p, s with
  | EmptyString, _ => Some s
  | String a p', String b s' => if Ascii.eqb a b then strip_prefix p' s' else None
  | String _ _, EmptyString => None
  end.

(** [s.replace(/p/, '')] for a pattern [p] without special characters:
    the first occurrence of [p] is taken out. *)
Fixpoint remove_first (p s : string) : string :=
  match strip_prefix p s with
  | Some rest => rest
  | None =>
      match s with
      | EmptyString => EmptyString
      | String c r => String c (remove_first p r)
      end
  end.

(** [s.split(sep)] for a separator of one code unit. *)
Fixpoint split (sep : ascii) (s : string) : list string :=
  match s with
  | EmptyString => [EmptyString]
  | String c r =>
      if Ascii.eqb c sep then EmptyString :: split sep r
      else match split sep r with
           | x :: xs => String c x :: xs
           | [] => [String c EmptyString]
           end
  end.

(** [s.replace(/\s+/g, '')]. *)
Fixpoint remove_whitespace (s : string) : string :=
  match s with
  | EmptyString => EmptyString
  | String c r =>
      if Js.isWhiteSpace c then remove_whitespace r else String c (remove_whitespace r)
  end.

Fixpoint endsWith (s suffix : string) : bool :=
  String.eqb s suffix
  || match s with
     | EmptyString => false
     | String _ r => endsWith r suffix
     end.

(** [toLowerCase] on code units below 256: A to Z and the capital letters
    of Latin-1. *)
Definition lower (c : ascii) : ascii :=
  let n := nat_of_ascii c in
  if ((65 <=? n) && (n <=? 90) || (192 <=? n) && (n <=? 222) && negb (n =? 215))%nat
  then ascii_of_nat (n + 32)
  else c.

Fixpoint toLowerCase (s : string) : string :=
  match s with
  | EmptyString => EmptyString
  | String c r => String (lower c) (toLowerCase r)
  end.

End JsString.

(** What [streamVideo] does to the response. *)
Inductive VideoResponse :=
| VideoNotFound
    (* res.status(404).json({ message: 'Video file not found' }) *)
| RangeNotSatisfiable (range : string) (fileSize : Z)
    (* res.status(416).send({ message, range, fileSize }) *)
| PartialContent (start end_ fileSize contentLength : Z) (contentType : string)
    (* res.writeHead(206, ...) with Content-Range bytes start-end/fileSize *)
| WholeFile (contentLength : Z) (contentType : string)
    (* res.writeHead(200, ...) *)
| StreamError.
    (* res.status(500).json({ message: 'Error streaming video', error }) *)

Section VideoStream.
(** The parts of the environment the function reads: [path.extname],
    [path.join(VIDEOS_DIR, name)], and the size of the file at a path
    ([fs.existsSync], [fs.statSync(path).size]). *)
Context (extname : string → string)
        (join_videos_dir : string → string)
        (file_size : string → option Z).

Definition sanitizeVideoFilename (filename : string) : string :=
  let cleanName := JsString.remove_whitespace filename in
  let cleanName :=
    if JsString.endsWith cleanName ".mp" then cleanName +:+ "4" else cleanName in
  if String.eqb (extname cleanName) "" then cleanName +:+ ".mp4" else cleanName.

Definition getContentType (filename : string) : string :=
  let ext := JsString.toLowerCase (extname filename) in
  if String.eqb ext ".mp4" then "video/mp4"
  else if String.eqb ext ".webm" then "video/webm"
  else if String.eqb ext ".ogg" then "video/ogg"
  else if String.eqb ext ".mov" then "video/quicktime"
  else "video/mp4".

Definition maxChunk : Z := 1024 * 1024 * 10.

(** [range.replace(/bytes=/, '').split('-')]. *)
Definition range_parts (range : string) : list string :=
  JsString.split "-" (JsString.remove_first "bytes=" range).

(** [parts[1] ? parseInt(parts[1], 10) : fileSize - 1], [None] for NaN. *)
Definition range_end (parts : list string) (fileSize : Z) : option Z :=
  match parts !! 1 with
  | Some p1 =>
      if String.eqb p1 "" then Some (fileSize - 1)%Z
      else JsNumber.parseInt (Some p1) (Some 10%Z)
  | None => Some (fileSize - 1)%Z
  end.

(** [streamVideo(req, res, filename)] for [req.headers.range = range].
    [fs.createReadStream(path, { start, end })] throws unless both are
    integers with 0 <= start <= end; the [catch] answers 500, no header
    having been sent. *)
Definition streamVideo (range : option string) (filename : string) : VideoResponse :=
  let cleanFilename := sanitizeVideoFilename filename in
  let videoPath := join_videos_dir cleanFilename in
  match file_size videoPath with
  | None => VideoNotFound
  | Some fileSize =>
      match range with
      | Some (String c r as range) =>
          let parts := range_parts range in
          let start := JsNumber.parseInt (parts !! 0) (Some 10%Z) in
          let end_ := range_end parts fileSize in
          match start with
          | None => RangeNotSatisfiable range fileSize
          | Some start =>
              if (fileSize <=? start)%Z then RangeNotSatisfiable range fileSize
              else
                let end_ :=
                  match end_ with
                  | Some e => if (maxChunk <? e - start)%Z then Some (start + maxChunk)%Z
                              else Some e
                  | None => None
                  end in
                match end_ with
                | Some e =>
                    if (0 <=? start)%Z && (start <=? e)%Z
                    then PartialContent start e fileSize (e - start + 1)
                           (getContentType videoPath)
                    else StreamError
                | None => StreamError
                end
          end
      | _ => WholeFile fileSize (getContentType videoPath)
      end
  end.

End VideoStream.

(** An environment for the examples: one file of 100 bytes, clip.mp4. *)
Definition extname0 (p : string) : string :=
  if JsString.endsWith p ".mp4" then ".mp4" else "".

Definition file_size0 (p : string) : option Z :=
  if String.eqb p "videos/clip.mp4" then Some 100%Z else None.


Definition join_videos_dir0 (name : string) : string := "videos/" +:+ name.


(** ** Replies and [repliesCount] *)

(** The number of rows the [replies] virtual of comment [P] finds. *)
Definition count_replies (m : gmap string CommentDoc) (P : ObjectId) : nat :=
  size (filter (λ r : string * CommentDoc, c_parentComment r.2 = Some P) m).

(** Every stored comment has an id in [used], a parent in [used] if it has
    one, and a [repliesCount] equal to the number of its replies. *)
Definition replies_counted (used : gset ObjectId) (d : Db) : Prop :=
  ∀ id row, comments d !! id = Some row →
    id ∈ used
    ∧ (∀ p, c_parentComment row = Some p → p ∈ used)
    ∧ c_repliesCount row = Z.of_nat (count_replies (comments d) id).

(** The ids handed to the new comments of a run are new: none is in [used]
    and none is handed out twice. *)
Fixpoint ids_fresh (used : gset ObjectId) (cs : list Call) : Prop :=
  match cs with
  | [] => True
  | CreateComment _ _ _ _ _ _ newId :: rest =>
      (newId ∉ used) ∧ ids_fresh ({[newId]} ∪ used) rest
  | _ :: rest => ids_fresh used rest
  end.


(** * The handlers on the raw request *)

(** The handlers above take their ids as ObjectIds, in canonical string
    form.  A request carries strings: [req.params.commentId],
    [req.params.targetUserId], [req.body.contentId] and
    [req.body.parentComment] reach Mongoose as they were sent, and each
    query and each new document casts them to ObjectId.  [req.user._id] is
    an ObjectId already.  The handlers of [Module Http] are the handlers
    on these strings: the cast can fail, the comparison of
    [toggleFollow] and the [if (parentComment)] of [createComment] look at
    the string, and the events carry it.  On a request that spells its ids
    as ObjectIds print, the two agree. *)

Module Mongoose.

Definition isHexDigit (c : ascii) : bool :=
  let n := nat_of_ascii c in
  ((48 <=? n) && (n <=? 57) || (65 <=? n) && (n <=? 70) || (97 <=? n) && (n <=? 102))%nat.

Fixpoint all_hex (s : string) : bool :=
  match s with
  | EmptyString => true
  | String c r => isHexDigit c && all_hex r
  end.

(** The cast of a string to ObjectId for the strings every release of the
    driver treats alike: 24 hexadecimal digits, in either case, give the
    ObjectId with those digits; the empty string and strings of other
    lengths do not cast.  (Older releases also read a string of 12
    characters as 12 bytes; the handlers below are written for any cast.) *)
Definition castObjectId (value : string) : option ObjectId :=
  if (String.length value =? 24)%nat && all_hex value
  then Some (JsString.toLowerCase value)
  else None.

(** The double quote. *)
Definition quote : string := String "034" EmptyString.

(** The error of a failed cast; of its message the value and the path are
    kept. *)
Definition CastError (value path : string) : Exn :=
  Error ("Cast to ObjectId failed for value " +:+ quote +:+ value +:+ quote
           +:+ " (type string) at path " +:+ quote +:+ path +:+ quote).

End Mongoose.

Module Http.
Section Handlers.
(** Mongoose's cast of a string to ObjectId ([None] when it fails) and the
    [CastError] it then throws for a value at a path. *)
Context (castObjectId : string → option ObjectId) (CastError : string → string → Exn).

(** The cast a query makes of a condition on an ObjectId path. *)
Definition cast (value path : string) : Async ObjectId :=
  match castObjectId value with
  | Some _id => mret _id
  | None => throw (CastError value path)
  end.

(** [if (parentComment)]: absent, null and the empty string are falsy. *)
Definition truthy (value : option string) : bool :=
  match value with
  | Some (String _ _) => true
  | _ => false
  end.

(** The cast a new document makes of a value set on an ObjectId path: a
    failure is kept as the validation error of the path. *)
Definition castErrors (path : string) (value : option string) : list (string * string) :=
  match value with
  | Some v =>
      match castObjectId v with
      | Some _ => []
      | None => [(path, message (CastError v path))]
      end
  | None => []
  end.

(** [Comment.create({ user, content: contentId, contentType, text,
    parentComment })] on the strings of the request: the casts of the
    document, then [Comment.create] as above.  Cast errors are reported
    with the validators' errors, before them. *)
Definition Comment_create (_id user : ObjectId) (content contentType : string)
    (text : option string) (parentComment : option string)
  : Async (ObjectId * CommentDoc) :=
  match castObjectId content, castErrors "parentComment" parentComment with
  | Some content', [] =>
      Comment.create _id user content' contentType text (parentComment ≫= castObjectId)
  | _, errors =>
      throw (ValidationError "Comment"
               (castErrors "content" (Some content) ++ errors
                ++ Comment.validate contentType (Comment.setText text)))
  end.

Definition likeContentExists (contentType contentId : string) : Async bool :=
  if String.eqb contentType "Video"
  then _id ← cast contentId "_id"; Video.exists_ _id
  else if String.eqb contentType "Article"
  then _id ← cast contentId "_id"; Article.exists_ _id
  else if String.eqb contentType "Comment"
  then _id ← cast contentId "_id"; Comment.exists_ _id
  else mret false.

Definition toggleLike (io : bool) (userId : ObjectId) (contentId contentType : string)
  : Async Reply :=
  catch500 (
    contentExists ← likeContentExists contentType contentId;
    if negb contentExists
    then mret (next (createError 404 (contentType +:+ " not found")))
    else
      content ← cast contentId "content";
      existingLike ← Like.findOne userId content contentType;
      match existingLike with
      | Some l =>
          Like.deleteOne l;;
          when io (io_emit ("like:" +:+ contentId) (LikePayload "unlike" userId contentId));;
          mret (json 200 (MessageBody "Like removed successfully"))
      | None =>
          newLike ← Like.create userId content contentType;
          when io (io_emit ("like:" +:+ contentId) (LikePayload "like" userId contentId));;
          mret (json 201 (LikeBody newLike))
      end).

Definition commentContentExists (contentType contentId : string) : Async bool :=
  if String.eqb contentType "Video"
  then _id ← cast contentId "_id"; Video.exists_ _id
  else if String.eqb contentType "Article"
  then _id ← cast contentId "_id"; Article.exists_ _id
  else mret false.

Definition createComment (io : bool) (userId : ObjectId) (contentId contentType : string)
    (text : option string) (parentComment : option string) (newId : ObjectId)
  : Async Reply :=
  catch500 (
    contentExists ← commentContentExists contentType contentId;
    if negb contentExists
    then mret (next (createError 404 (contentType +:+ " not found")))
    else
      commentExists ← (if truthy parentComment
                       then _id ← cast (default "" parentComment) "_id"; Comment.exists_ _id
                       else mret true);
      if negb commentExists
      then mret (next (createError 404 "Parent comment not found"))
      else
        comment ← Comment_create newId userId contentId contentType text parentComment;
        (if truthy parentComment
         then _id ← cast (default "" parentComment) "_id";
              Comment.findByIdAndUpdate _id (Comment.inc_repliesCount 1)
         else mret tt);;
        populatedComment ← Comment.findById_populated (fst comment);
        when io (io_emit ("comment:" +:+ contentId) (CommentPayload "new" populatedComment));;
        mret (json 201 (CommentBody populatedComment))).

Definition updateComment (io : bool) (userId : ObjectId) (commentId : string)
    (text : option string) : Async Reply :=
  catch500 (
    _id ← cast commentId "_id";
    comment ← Comment.findById _id;
    match comment with
    | None => mret (next (createError 404 "Comment not found"))
    | Some c =>
        if negb (String.eqb (c_user c) userId)
        then mret (next (createError 403 "Not authorized to update this comment"))
        else
          Comment.save_text_isEdited _id c text;;
          populatedComment ← Comment.findById_populated _id;
          req_io_emit io ("comment:" +:+ c_content c) (CommentPayload "update" populatedComment);;
          mret (json 200 (CommentBody populatedComment))
    end).

Definition deleteComment (io : bool) (userId : ObjectId) (commentId : string)
  : Async Reply :=
  catch500 (
    _id ← cast commentId "_id";
    comment ← Comment.findById _id;
    match comment with
    | None => mret (next (createError 404 "Comment not found"))
    | Some c =>
        if negb (String.eqb (c_user c) userId)
        then mret (next (createError 403 "Not authorized to delete this comment"))
        else
          match c_parentComment c with
          | Some p => Comment.findByIdAndUpdate p (Comment.inc_repliesCount (-1))
          | None => mret tt
          end;;
          Comment.deleteOne _id;;
          req_io_emit io ("comment:" +:+ c_content c) (CommentIdPayload "delete" commentId);;
          mret (json 200 (MessageBody "Comment deleted successfully"))
    end).

(** [targetUserId === userId.toString()] compares the string of the URL
    with the canonical string of the caller's id. *)
Definition toggleFollow (io : bool) (userId : ObjectId) (targetUserId : string)
  : Async Reply :=
  catch500 (
    if String.eqb targetUserId userId
    then mret (next (createError 400 "Users cannot follow themselves"))
    else
      targetUserExists ← (_id ← cast targetUserId "_id"; User.exists_ _id);
      if negb targetUserExists
      then mret (next (createError 404 "Target user not found"))
      else
        following ← cast targetUserId "following";
        existingFollow ← Follow.findOne userId following;
        match existingFollow with
        | Some f =>
            Follow.deleteOne f;;
            (_id ← cast targetUserId "_id"; User.updateOne _id (User.inc_followers (-1)));;
            User.updateOne userId (User.inc_following (-1));;
            when io (io_emit ("follow:" +:+ targetUserId)
                       (FollowPayload "unfollow" userId targetUserId));;
            mret (json 200 (MessageBody "Unfollowed successfully"))
        | None =>
            newFollow ← Follow.create userId following;
            (_id ← cast targetUserId "_id"; User.updateOne _id (User.inc_followers 1));;
            User.updateOne userId (User.inc_following 1);;
            when io (io_emit ("follow:" +:+ targetUserId)
                       (FollowPayload "follow" userId targetUserId));;
            mret (json 201 (FollowBody newFollow))
        end).

(** The handler of a route for the authenticated user [userId]. *)
Definition handle (io : bool) (userId newId : ObjectId) (r : Route) : Async Reply :=
  match r with
  | PostLikesToggle contentId contentType => toggleLike io userId contentId contentType
  | PostComments contentId contentType text parentComment =>
      createComment io userId contentId contentType text parentComment newId
  | PutComment commentId text => updateComment io userId commentId text
  | DeleteCommentRoute commentId => deleteComment io userId commentId
  | PostFollow targetUserId => toggleFollow io userId targetUserId
  end.

(** A handler started on database [d] with a silent wire. *)
Definition call (io : bool) (userId newId : ObjectId) (r : Route) (d : Db)
  : Completion Reply * World :=
  handle io userId newId r (mkWorld d []).

(** The HTTP status the client sees, if the handler answers. *)
Definition status_of (io : bool) (userId newId : ObjectId) (r : Route) (d : Db)
  : option nat :=
  match fst (call io userId newId r d) with
  | Normal reply => Some (http_status reply)
  | Thrown _ => None
  end.

(** The databases the service can be in when requests arrive as strings. *)
Inductive reachable : Db → Prop :=
| reach_start (us : gmap string UserDoc) (vs ars : gset string) :
    reachable (mkDb us vs ars ∅ ∅ ∅)
| reach_request (io : bool) (userId newId : ObjectId) (r : Route) (d : Db) :
    reachable d → reachable (db (snd (call io userId newId r d)))
| reach_registry (us : gmap string UserDoc) (vs ars : gset string) (d : Db) :
    reachable d → reachable (mkDb us vs ars (comments d) (likes d) (follows d)).

End Handlers.
End Http.

(** A computation answers only with replies that satisfy [Q], when it
    answers. *)
Definition returns {A} (Q : A → Prop) (m : Async A) : Prop :=
  ∀ w, match fst (m w) with
       | Normal a => Q a
       | Thrown _ => True
       end.

(** Ids for the examples, as the driver writes them. *)
Definition ann : ObjectId := "64b000000000000000000001".
Definition bob : ObjectId := "64b000000000000000000002".
Definition clip : ObjectId := "64b0000000000000000000a1".

(** Two users and one video, no engagement rows. *)
Definition db1 : Db :=
  mkDb {[ ann := mkUser "Ann" (mkStats 0 0 0 0); bob := mkUser "Bob" (mkStats 0 0 0 0) ]}
       {[ clip ]} ∅ ∅ ∅ ∅.

(** ** Safe integers *)

Module JsSafe.
(** [Number.MAX_SAFE_INTEGER]: up to it the integers are numbers of the
    language, and sums and products that stay below it are exact. *)
Definition MAX_SAFE_INTEGER : Z := 2 ^ 53 - 1.
End JsSafe.


(** The parent check of [createComment] lets the request through: no
    parent is given (or the empty string, which [if (parentComment)] takes
    for none), or the one given casts to the id of a stored comment. *)
Definition parent_passes (castObjectId : string → option ObjectId) (d : Db)
    (parentComment : option string) : Prop :=
  match parentComment with
  | Some (String a r) =>
      ∃ _id, castObjectId (String a r) = Some _id ∧ is_Some (comments d !! _id)
  | _ => True
  end.

(** More ids for the examples. *)
Definition note : ObjectId := "64b0000000000000000000c1".
Definition reply1 : ObjectId := "64b0000000000000000000c2".

(** [db1] after Ann commented "hello" on the video. *)
Definition db1_comment : Db :=
  db (snd (Http.call Mongoose.castObjectId Mongoose.CastError true ann note
             (PostComments clip "Video" (Some "hello") None) db1)).


(** The ids of a request are spelled as ObjectIds print: each casts to
    itself, and a parent that is given is not the empty string. *)
Definition canonical (castObjectId : string → option ObjectId) (r : Route) : Prop :=
  match r with
  | PostLikesToggle contentId _ => castObjectId contentId = Some contentId
  | PostComments contentId _ _ parentComment =>
      castObjectId contentId = Some contentId
      ∧ match parentComment with
        | Some p => p ≠ "" ∧ castObjectId p = Some p
        | None => True
        end
  | PutComment commentId _ => castObjectId commentId = Some commentId
  | DeleteCommentRoute commentId => castObjectId commentId = Some commentId
  | PostFollow targetUserId => castObjectId targetUserId = Some targetUserId
  end.


(** * Properties *)

Arguments Comment.validate : simpl never.
Arguments Like.validate : simpl never.
Arguments Js.trim : simpl never.

(** Unfolds one handler call down to the database operations. *)
Ltac step_async :=
  unfold reply_to, db_after, emitted, reply_of, call, handle in *;
  unfold toggleLike, toggleLike_write, createComment, updateComment, deleteComment,
    toggleFollow, catch500, tryCatch, likeContentExists, commentContentExists,
    Like.findOne, Like.deleteOne, Like.create,
    Comment.exists_, Comment.findById, Comment.findById_populated,
    Comment.findByIdAndUpdate, Comment.create, Comment.save_text_isEdited,
    Comment.deleteOne, Follow.findOne, Follow.deleteOne, Follow.create,
    Follow.preSave, User.exists_, User.updateOne, Video.exists_, Article.exists_,
    req_io_emit, io_emit, when, modifyDb, getDb, setDb, throw,
    mbind, async_bind, mret, async_ret in *.

Lemma eqb_false_of_ne (a b : string) : a ≠ b → String.eqb a b = false.
Proof. intros H. by apply String.eqb_neq. Qed.

(** ** The controller on small runs *)

(** User u1 likes video v1 (201, the row exists), then toggles again (200,
    the row is gone). *)
Example scenario_like_unlike :
  reply_to (ToggleLike true "u1" "v1" "Video") db0
    = Some (json 201 (LikeBody (mkLike "u1" "v1" "Video")))
  ∧ likes (db_after (ToggleLike true "u1" "v1" "Video") db0) !! ("u1", "v1") = Some "Video"
  ∧ reply_to (ToggleLike true "u1" "v1" "Video")
      (db_after (ToggleLike true "u1" "v1" "Video") db0)
    = Some (json 200 (MessageBody "Like removed successfully"))
  ∧ likes (run [ToggleLike true "u1" "v1" "Video"; ToggleLike true "u1" "v1" "Video"] db0)
      !! ("u1", "v1") = None.
Proof. repeat split; vm_compute; reflexivity. Qed.

(** User u1 comments on video v1, user u2 replies, then deletes the reply:
    the comment's [repliesCount] goes 0, 1, 0. *)
Example scenario_threaded_comment :
  repliesCount db0_comment "c1" = Some 0%Z
  ∧ repliesCount db0_thread "c1" = Some 1%Z
  ∧ repliesCount (db_after (DeleteComment true "u2" "c2") db0_thread) "c1" = Some 0%Z.
Proof. repeat split; vm_compute; reflexivity. Qed.

(** Without a socket server attached, [deleteComment] has already removed
    the row when its unguarded [req.io.emit] throws: the answer is 500. *)
Example scenario_delete_without_io :
  reply_to (DeleteComment false "u2" "c2") db0_thread
    = Some (next (createError 500 "Cannot read properties of undefined (reading 'emit')"))
  ∧ comments (db_after (DeleteComment false "u2" "c2") db0_thread) !! "c2" = None.
Proof. repeat split; vm_compute; reflexivity. Qed.

(** ** toggleLike on a content type the controller does not know *)

(** C9. With a [contentType] other than Video, Article and Comment the
    existence flag stays false: [toggleLike] answers through
    [next(createError(404, contentType + " not found"))], which the client
    sees as status 404 (not 400), nothing is emitted and the database, its
    Like rows included, is left as it was. *)
Theorem toggleLike_unknown_contentType
    (io : bool) (userId contentId : ObjectId) (contentType : string) (d : Db) :
  contentType ≠ "Video" → contentType ≠ "Article" → contentType ≠ "Comment" →
  reply_to (ToggleLike io userId contentId contentType) d
    = Some (next (createError 404 (contentType +:+ " not found")))
  ∧ http_status (next (createError 404 (contentType +:+ " not found"))) = 404
  ∧ emitted (ToggleLike io userId contentId contentType) d = []
  ∧ db_after (ToggleLike io userId contentId contentType) d = d
  ∧ likes (db_after (ToggleLike io userId contentId contentType) d) = likes d.
Proof.
  intros HV HA HC.
  assert (Hcall : call (ToggleLike io userId contentId contentType) d
                  = (Normal (next (createError 404 (contentType +:+ " not found"))),
                     mkWorld d [])).
  { step_async.
    rewrite (eqb_false_of_ne _ _ HV), (eqb_false_of_ne _ _ HA), (eqb_false_of_ne _ _ HC).
    reflexivity. }
  unfold reply_to, emitted, db_after, reply_of. rewrite Hcall. cbn.
  repeat split; reflexivity.
Qed.

Lemma toggleLike_unknown_contentType_witness :
  reply_to (ToggleLike true "u1" "v1" "Podcast") db0
    = Some (next (createError 404 "Podcast not found"))
  ∧ db_after (ToggleLike true "u1" "v1" "Podcast") db0 = db0.
Proof.
  pose proof (toggleLike_unknown_contentType true "u1" "v1" "Podcast" db0) as H.
  destruct H as (Hr & _ & _ & Hd & _); [discriminate | discriminate | discriminate |].
  split; [exact Hr | exact Hd].
Defined.

(** ** createComment on a comment *)

Lemma createComment_unknown_contentType
    (io : bool) (userId contentId : ObjectId) (contentType : string)
    (text : option string) (parentComment : option ObjectId) (newId : ObjectId) (d : Db) :
  contentType ≠ "Video" → contentType ≠ "Article" →
  call (CreateComment io userId contentId contentType text parentComment newId) d
    = (Normal (next (createError 404 (contentType +:+ " not found"))), mkWorld d []).
Proof.
  intros HV HA. step_async.
  rewrite (eqb_false_of_ne _ _ HV), (eqb_false_of_ne _ _ HA). reflexivity.
Qed.

Lemma toggleLike_Comment_accepted
    (io : bool) (userId contentId : ObjectId) (d : Db) :
  is_Some (comments d !! contentId) → likes d !! (userId, contentId) = None →
  reply_to (ToggleLike io userId contentId "Comment") d
    = Some (json 201 (LikeBody (mkLike userId contentId "Comment")))
  ∧ likes (db_after (ToggleLike io userId contentId "Comment") d) !! (userId, contentId)
    = Some "Comment".
Proof.
  intros Hc Hl. step_async. unfold Like.validate. cbn.
  rewrite bool_decide_eq_true_2 by done. cbn. rewrite Hl. cbn. rewrite Hl.
  destruct io; cbn; by rewrite lookup_insert_eq.
Qed.

(** C10. [createComment] with [contentType = "Comment"] always answers 404
    "Comment not found" and leaves the database and the wire untouched,
    whatever the other arguments; a 201 from [createComment] is only ever
    given for Video or Article.  The Comment schema's [contentType] enum
    does not list "Comment", the Like schema's does, and [toggleLike] does
    accept "Comment" for an existing comment not yet liked. *)
Theorem createComment_on_Comment_rejected :
  (∀ io userId contentId text parentComment newId d,
     reply_to (CreateComment io userId contentId "Comment" text parentComment newId) d
       = Some (next (createError 404 "Comment not found"))
     ∧ http_status (next (createError 404 "Comment not found")) = 404
     ∧ emitted (CreateComment io userId contentId "Comment" text parentComment newId) d = []
     ∧ db_after (CreateComment io userId contentId "Comment" text parentComment newId) d = d)
  ∧ (∀ io userId contentId contentType text parentComment newId d body,
       reply_to (CreateComment io userId contentId contentType text parentComment newId) d
         = Some (json 201 body) →
       (contentType = "Video" ∨ contentType = "Article"))
  ∧ ("Comment" ∉ Comment.contentType_enum)
  ∧ ("Comment" ∈ Like.contentType_enum)
  ∧ (∀ io userId contentId d,
       is_Some (comments d !! contentId) → likes d !! (userId, contentId) = None →
       reply_to (ToggleLike io userId contentId "Comment") d
         = Some (json 201 (LikeBody (mkLike userId contentId "Comment")))).
Proof.
  split; [| split; [| split; [| split]]].
  - intros. unfold reply_to, emitted, db_after, reply_of.
    rewrite createComment_unknown_contentType by discriminate. cbn. done.
  - intros io u c ct t p n d body H.
    destruct (decide (ct = "Video")) as [|HV]; [by left|].
    destruct (decide (ct = "Article")) as [|HA]; [by right|].
    unfold reply_to, reply_of in H.
    rewrite createComment_unknown_contentType in H by done. cbn in H. discriminate.
  - unfold Comment.contentType_enum. intros H.
    repeat (apply elem_of_cons in H as [H|H]; [discriminate|]).
    by apply elem_of_nil in H.
  - unfold Like.contentType_enum. apply elem_of_cons. right. apply elem_of_cons. by left.
  - intros io u c d Hc Hl. by apply toggleLike_Comment_accepted.
Qed.

Lemma createComment_on_Comment_rejected_witness :
  is_Some (comments (db_after (CreateComment true "u1" "v1" "Video" (Some "hello") None "c1") db0)
             !! "c1")
  ∧ reply_to (ToggleLike true "u2" "c1" "Comment")
      (db_after (CreateComment true "u1" "v1" "Video" (Some "hello") None "c1") db0)
    = Some (json 201 (LikeBody (mkLike "u2" "c1" "Comment")))
  ∧ reply_to (CreateComment true "u2" "c1" "Comment" (Some "hi") None "c2")
      (db_after (CreateComment true "u1" "v1" "Video" (Some "hello") None "c1") db0)
    = Some (next (createError 404 "Comment not found")).
Proof.
  destruct createComment_on_Comment_rejected as (Hreject & _ & _ & _ & Hlike).
  split; [vm_compute; eauto |].
  split.
  - apply Hlike; [vm_compute; eauto | vm_compute; reflexivity].
  - apply Hreject.
Defined.

(** ** toggleLike as a toggle *)

Lemma likeContentExists_spec (contentType : string) (contentId : ObjectId) (w : World) :
  ∃ b, likeContentExists contentType contentId w = (Normal b, w)
       ∧ (b = true ↔ engageable (db w) contentType contentId).
Proof.
  unfold likeContentExists, engageable.
  destruct (String.eqb_spec contentType "Video") as [->|HV].
  { eexists. split; [reflexivity|]. rewrite bool_decide_eq_true.
    split; [by left | by intros [[_ ?]|[[? _]|[? _]]]]. }
  destruct (String.eqb_spec contentType "Article") as [->|HA].
  { eexists. split; [reflexivity|]. rewrite bool_decide_eq_true.
    split; [by right; left | by intros [[? _]|[[_ ?]|[? _]]]]. }
  destruct (String.eqb_spec contentType "Comment") as [->|HC].
  { eexists. split; [reflexivity|]. rewrite bool_decide_eq_true.
    split; [by right; right | by intros [[? _]|[[? _]|[_ ?]]]]. }
  exists false. split; [reflexivity|].
  split; [discriminate | by intros [[? _]|[[? _]|[? _]]]].
Qed.

Lemma engageable_with_likes d f contentType contentId :
  engageable (with_likes f d) contentType contentId ↔ engageable d contentType contentId.
Proof. reflexivity. Qed.

Lemma toggleLike_missing_content io userId contentId contentType d :
  ¬ engageable d contentType contentId →
  call (ToggleLike io userId contentId contentType) d
    = (Normal (next (createError 404 (contentType +:+ " not found"))), mkWorld d []).
Proof.
  intros Hne. unfold call, handle, toggleLike, catch500, tryCatch, mbind, async_bind.
  destruct (likeContentExists_spec contentType contentId (mkWorld d [])) as (b & -> & Hb).
  destruct b; [exfalso; apply Hne; by apply Hb | reflexivity].
Qed.

Lemma toggleLike_creates io userId contentId contentType d :
  engageable d contentType contentId →
  likes d !! (userId, contentId) = None →
  call (ToggleLike io userId contentId contentType) d
    = (Normal (json 201 (LikeBody (mkLike userId contentId contentType))),
       mkWorld (with_likes (insert (userId, contentId) contentType) d)
               (like_wire io "like" userId contentId)).
Proof.
  intros He Hl. unfold call, handle, toggleLike, catch500, tryCatch, mbind, async_bind.
  destruct (likeContentExists_spec contentType contentId (mkWorld d [])) as (b & -> & Hb).
  destruct b; [| apply Hb in He; discriminate].
  assert (Hv : Like.validate contentType = []).
  { unfold Like.validate, Like.contentType_enum.
    destruct He as [[-> _]|[[-> _]|[-> _]]]; reflexivity. }
  step_async. cbn. rewrite ?Hv, ?Hl. cbn. rewrite ?Hv, ?Hl. cbn. rewrite ?Hl.
  by destruct io.
Qed.

Lemma toggleLike_removes io userId contentId contentType d :
  engageable d contentType contentId →
  likes d !! (userId, contentId) = Some contentType →
  call (ToggleLike io userId contentId contentType) d
    = (Normal (json 200 (MessageBody "Like removed successfully")),
       mkWorld (with_likes (delete (userId, contentId)) d)
               (like_wire io "unlike" userId contentId)).
Proof.
  intros He Hl. unfold call, handle, toggleLike, catch500, tryCatch, mbind, async_bind.
  destruct (likeContentExists_spec contentType contentId (mkWorld d [])) as (b & -> & Hb).
  destruct b; [| apply Hb in He; discriminate].
  step_async. cbn. rewrite Hl, String.eqb_refl. by destruct io.
Qed.

(** A row for the pair under another content type: [findOne] misses it and
    the insert trips over the unique index. *)
Lemma toggleLike_conflict io userId contentId contentType ct' d :
  engageable d contentType contentId →
  likes d !! (userId, contentId) = Some ct' → ct' ≠ contentType →
  call (ToggleLike io userId contentId contentType) d
    = (Normal (next (createError 500 (message (E11000 "likes" "user_1_content_1")))),
       mkWorld d []).
Proof.
  intros He Hl Hne. unfold call, handle, toggleLike, catch500, tryCatch, mbind, async_bind.
  destruct (likeContentExists_spec contentType contentId (mkWorld d [])) as (b & -> & Hb).
  destruct b; [| apply Hb in He; discriminate].
  assert (Hv : Like.validate contentType = []).
  { unfold Like.validate, Like.contentType_enum.
    destruct He as [[-> _]|[[-> _]|[-> _]]]; reflexivity. }
  step_async. cbn. rewrite ?Hv, ?Hl, ?(eqb_false_of_ne _ _ Hne). cbn.
  rewrite ?Hv, ?Hl. cbn. rewrite ?Hl. reflexivity.
Qed.

Lemma toggleLike_twice_db io1 io2 userId contentId contentType d :
  run [ToggleLike io1 userId contentId contentType;
       ToggleLike io2 userId contentId contentType] d = d.
Proof.
  cbn [run]. unfold db_after.
  destruct (decide (engageable d contentType contentId)) as [He|Hne]; last first.
  { rewrite (toggleLike_missing_content io1) by done. cbn [snd db].
    by rewrite (toggleLike_missing_content io2). }
  destruct (likes d !! (userId, contentId)) as [ct'|] eqn:Hl.
  - destruct (decide (ct' = contentType)) as [->|Hct].
    + rewrite (toggleLike_removes io1) by done. cbn [snd db].
      rewrite (toggleLike_creates io2); [| done | apply lookup_delete_eq]. cbn [snd db].
      destruct d; unfold with_likes; cbn in *. f_equal.
      rewrite insert_delete_eq. by apply insert_id.
    + rewrite (toggleLike_conflict io1 _ _ _ ct') by done. cbn [snd db].
      by rewrite (toggleLike_conflict io2 _ _ _ ct').
  - rewrite (toggleLike_creates io1) by done. cbn [snd db].
    rewrite (toggleLike_removes io2); [| done | apply lookup_insert_eq]. cbn [snd db].
    destruct d; unfold with_likes; cbn in *. f_equal.
    by rewrite delete_insert_eq, delete_id.
Qed.

Lemma toggleLike_parity_gen io userId contentId contentType n : ∀ d,
  engageable d contentType contentId →
  (likes d !! (userId, contentId) = None →
   likes (run (replicate n (ToggleLike io userId contentId contentType)) d)
     !! (userId, contentId) = if Nat.odd n then Some contentType else None)
  ∧ (likes d !! (userId, contentId) = Some contentType →
     likes (run (replicate n (ToggleLike io userId contentId contentType)) d)
       !! (userId, contentId) = if Nat.odd n then None else Some contentType).
Proof.
  induction n as [|n IH]; intros d He.
  { cbn. done. }
  rewrite Nat.odd_succ, <- Nat.negb_odd. cbn [replicate run]. unfold db_after.
  split; intros Hl.
  - rewrite toggleLike_creates by done. cbn [snd db].
    destruct (IH (with_likes (insert (userId, contentId) contentType) d)) as [_ IHp];
      [by apply engageable_with_likes |].
    rewrite IHp by apply lookup_insert_eq. by destruct (Nat.odd n).
  - rewrite toggleLike_removes by done. cbn [snd db].
    destruct (IH (with_likes (delete (userId, contentId)) d)) as [IHa _];
      [by apply engageable_with_likes |].
    rewrite IHa by apply lookup_delete_eq. by destruct (Nat.odd n).
Qed.

(** C5, as the code has it.  Two [toggleLike] calls in a row for the same
    user, content and content type give back the database they started
    from, so a like that was present is present again and one that was
    absent is absent again.  Starting from the not-liked state of an
    existing content, [n] calls in a row leave the Like row present exactly
    when [n] is odd. *)
Theorem toggleLike_twice_restores_and_parity :
  (∀ io1 io2 userId contentId contentType d,
     run [ToggleLike io1 userId contentId contentType;
          ToggleLike io2 userId contentId contentType] d = d)
  ∧ (∀ io userId contentId contentType d n,
       engageable d contentType contentId →
       likes d !! (userId, contentId) = None →
       likes (run (replicate n (ToggleLike io userId contentId contentType)) d)
         !! (userId, contentId) = if Nat.odd n then Some contentType else None).
Proof.
  split.
  - intros. apply toggleLike_twice_db.
  - intros io u c ct d n He Hl. by apply toggleLike_parity_gen.
Qed.

Lemma toggleLike_twice_restores_and_parity_witness :
  engageable db0 "Video" "v1"
  ∧ likes db0 !! ("u1", "v1") = None
  ∧ likes (run (replicate 3 (ToggleLike true "u1" "v1" "Video")) db0) !! ("u1", "v1")
    = Some "Video"
  ∧ likes (run (replicate 4 (ToggleLike true "u1" "v1" "Video")) db0) !! ("u1", "v1")
    = None.
Proof.
  assert (He : engageable db0 "Video" "v1").
  { left. split; [reflexivity | vm_compute; reflexivity]. }
  assert (Hl : likes db0 !! ("u1", "v1") = None) by (vm_compute; reflexivity).
  destruct toggleLike_twice_restores_and_parity as [_ Hpar].
  split; [exact He |]. split; [exact Hl |]. split.
  - exact (Hpar true "u1" "v1" "Video" db0 3 He Hl).
  - exact (Hpar true "u1" "v1" "Video" db0 4 He Hl).
Defined.

(** C5 as stated fails from the liked state: with the Like row present,
    two toggles remove it and put it back. *)
Lemma toggleLike_twice_from_liked :
  engageable db0_liked "Video" "v1"
  ∧ likes db0_liked !! ("u1", "v1") = Some "Video"
  ∧ reply_to (ToggleLike true "u1" "v1" "Video") db0_liked
    = Some (json 200 (MessageBody "Like removed successfully"))
  ∧ likes (run [ToggleLike true "u1" "v1" "Video"; ToggleLike true "u1" "v1" "Video"]
             db0_liked) !! ("u1", "v1")
    = Some "Video".
Proof.
  split; [left; split; [reflexivity | vm_compute; reflexivity] |].
  repeat split; vm_compute; reflexivity.
Qed.

(** ** toggleLike against the unique index *)

Lemma toggleLike_racing_alone io userId contentId contentType (w : World) :
  toggleLike_racing (λ d, d) io userId contentId contentType w
    = toggleLike io userId contentId contentType w.
Proof.
  unfold toggleLike_racing, toggleLike, catch500, tryCatch, mbind, async_bind.
  destruct (likeContentExists_spec contentType contentId w) as (b & -> & _).
  destruct b; [| reflexivity]. cbn.
  unfold interfere, Like.findOne, modifyDb, getDb, setDb, mbind, async_bind, mret, async_ret.
  cbn. destruct w as [d ws]; reflexivity.
Qed.

(** C3, as the code has it.  When [Like.findOne] saw no row for the user
    and the content but a row for that pair is in the collection by the time
    [Like.create] runs (a concurrent toggle inserted it), the unique index
    refuses the insert and the handler's [catch] turns the server's
    duplicate-key error into [next(createError(500, error.message))]: the
    client sees status 500 with the E11000 message, the Like rows stay as
    the other request left them and nothing is emitted. *)
Theorem toggleLike_duplicate_key_is_500
    (others : Db → Db) (io : bool) (userId contentId : ObjectId)
    (contentType : string) (d : Db) :
  engageable d contentType contentId →
  likes d !! (userId, contentId) = None →
  is_Some (likes (others d) !! (userId, contentId)) →
  toggleLike_racing others io userId contentId contentType (mkWorld d [])
    = (Normal (next (createError 500
         (message (E11000 "likes" "user_1_content_1")))),
       mkWorld (others d) [])
  ∧ http_status (next (createError 500
         (message (E11000 "likes" "user_1_content_1")))) = 500.
Proof.
  intros He Hl [ct' Hl']. split; [| reflexivity].
  unfold toggleLike_racing, catch500, tryCatch, mbind, async_bind.
  destruct (likeContentExists_spec contentType contentId (mkWorld d [])) as (b & -> & Hb).
  destruct b; [| apply Hb in He; discriminate].
  assert (Hv : Like.validate contentType = []).
  { unfold Like.validate, Like.contentType_enum.
    destruct He as [[-> _]|[[-> _]|[-> _]]]; reflexivity. }
  unfold interfere. step_async. cbn. rewrite ?Hv, ?Hl. cbn. rewrite ?Hv, ?Hl'. cbn.
  rewrite ?Hl'. reflexivity.
Qed.

Lemma toggleLike_duplicate_key_is_500_witness :
  engageable db0 "Video" "v1"
  ∧ likes db0 !! ("u1", "v1") = None
  ∧ db_after (ToggleLike false "u1" "v1" "Video") db0 = db0_liked
  ∧ toggleLike_racing (db_after (ToggleLike false "u1" "v1" "Video"))
      true "u1" "v1" "Video" (mkWorld db0 [])
    = (Normal (next (createError 500
         (message (E11000 "likes" "user_1_content_1")))),
       mkWorld db0_liked []).
Proof.
  assert (He : engageable db0 "Video" "v1").
  { left. split; [reflexivity | vm_compute; reflexivity]. }
  assert (Hl : likes db0 !! ("u1", "v1") = None) by (vm_compute; reflexivity).
  assert (Hd : db_after (ToggleLike false "u1" "v1" "Video") db0 = db0_liked).
  { unfold db_after. by rewrite toggleLike_creates. }
  split; [exact He |]. split; [exact Hl |]. split; [exact Hd |].
  rewrite <- Hd.
  apply (toggleLike_duplicate_key_is_500
           (db_after (ToggleLike false "u1" "v1" "Video")) true "u1" "v1" "Video" db0 He).
  - exact Hl.
  - rewrite Hd. vm_compute. eauto.
Defined.

(** C3 as stated fails: the second of two toggles that both saw the like
    absent is answered with the raw duplicate-key error under status 500,
    neither the 200 nor the 201 an idempotent fallback would give. *)
Lemma toggleLike_race_propagates_conflict :
  fst (Like.findOne "u1" "v1" "Video" (mkWorld db0 [])) = Normal None
  ∧ fst (toggleLike_racing (db_after (ToggleLike false "u1" "v1" "Video"))
           true "u1" "v1" "Video" (mkWorld db0 []))
    = Normal (next (createError 500
        (message (E11000 "likes" "user_1_content_1"))))
  ∧ http_status (next (createError 500
        (message (E11000 "likes" "user_1_content_1")))) = 500.
Proof. repeat split; vm_compute; reflexivity. Qed.

(** ** toggleFollow and the follower counters *)

Lemma toggleFollow_self io userId d :
  call (ToggleFollow io userId userId) d
    = (Normal (next (createError 400 "Users cannot follow themselves")), mkWorld d []).
Proof. step_async. by rewrite String.eqb_refl. Qed.

Lemma toggleFollow_creates io userId targetUserId d :
  userId ≠ targetUserId →
  is_Some (users d !! targetUserId) →
  follows d !! (userId, targetUserId) = None →
  call (ToggleFollow io userId targetUserId) d
    = (Normal (json 201 (FollowBody (mkFollow userId targetUserId "active"))),
       mkWorld
         (with_users (alter (User.inc_following 1) userId)
            (with_users (alter (User.inc_followers 1) targetUserId)
               (with_follows (insert (userId, targetUserId) "active") d)))
         (follow_wire io "follow" userId targetUserId)).
Proof.
  intros Hne Hu Hf. step_async.
  rewrite (eqb_false_of_ne targetUserId userId) by done. cbn.
  rewrite bool_decide_eq_true_2 by done. cbn. rewrite Hf. cbn.
  rewrite (eqb_false_of_ne userId targetUserId) by done. cbn. rewrite Hf. cbn.
  by destruct io.
Qed.

Lemma toggleFollow_removes io userId targetUserId status d :
  userId ≠ targetUserId →
  is_Some (users d !! targetUserId) →
  follows d !! (userId, targetUserId) = Some status →
  call (ToggleFollow io userId targetUserId) d
    = (Normal (json 200 (MessageBody "Unfollowed successfully")),
       mkWorld
         (with_users (alter (User.inc_following (-1)) userId)
            (with_users (alter (User.inc_followers (-1)) targetUserId)
               (with_follows (delete (userId, targetUserId)) d)))
         (follow_wire io "unfollow" userId targetUserId)).
Proof.
  intros Hne Hu Hf. step_async.
  rewrite (eqb_false_of_ne targetUserId userId) by done. cbn.
  rewrite bool_decide_eq_true_2 by done. cbn. rewrite Hf. cbn.
  by destruct io.
Qed.

(** C6. For distinct existing users A and B with no Follow(A, B) row, the
    first [toggleFollow(A, B)] answers 201, creates the row and adds one to
    B's [stats.followers] and to A's [stats.following]; the second answers
    200, removes the row and takes one off both, so both counters are back
    at their initial values. *)
Theorem toggleFollow_round_trip
    (io1 io2 : bool) (A B : ObjectId) (a b : UserDoc) (d : Db) :
  A ≠ B →
  users d !! A = Some a →
  users d !! B = Some b →
  follows d !! (A, B) = None →
  let d1 := db_after (ToggleFollow io1 A B) d in
  let d2 := db_after (ToggleFollow io2 A B) d1 in
  reply_to (ToggleFollow io1 A B) d
    = Some (json 201 (FollowBody (mkFollow A B "active")))
  ∧ follows d1 !! (A, B) = Some "active"
  ∧ stats_followers d1 B = Some (followers (stats b) + 1)%Z
  ∧ stats_following d1 A = Some (following (stats a) + 1)%Z
  ∧ reply_to (ToggleFollow io2 A B) d1
    = Some (json 200 (MessageBody "Unfollowed successfully"))
  ∧ follows d2 !! (A, B) = None
  ∧ stats_followers d2 B = Some (followers (stats b))
  ∧ stats_following d2 A = Some (following (stats a))
  ∧ stats_followers d2 B = stats_followers d B
  ∧ stats_following d2 A = stats_following d A.
Proof.
  intros Hne Ha Hb Hf d1 d2.
  assert (H1 : call (ToggleFollow io1 A B) d = call (ToggleFollow io1 A B) d) by done.
  rewrite toggleFollow_creates in H1 at 2 by (rewrite ?Hb; eauto).
  assert (Hd1 : d1 = with_users (alter (User.inc_following 1) A)
                       (with_users (alter (User.inc_followers 1) B)
                          (with_follows (insert (A, B) "active") d))).
  { unfold d1, db_after. by rewrite H1. }
  assert (Hf1 : follows d1 !! (A, B) = Some "active").
  { rewrite Hd1. cbn. apply lookup_insert_eq. }
  assert (Hb1 : users d1 !! B = Some (User.inc_followers 1 b)).
  { rewrite Hd1. cbn. rewrite lookup_alter_ne by done.
    by rewrite lookup_alter_eq, Hb. }
  assert (Ha1 : users d1 !! A = Some (User.inc_following 1 a)).
  { rewrite Hd1. cbn. rewrite lookup_alter_eq, lookup_alter_ne by done. by rewrite Ha. }
  assert (H2 : call (ToggleFollow io2 A B) d1 = call (ToggleFollow io2 A B) d1) by done.
  rewrite (toggleFollow_removes io2 A B "active") in H2 at 2 by (rewrite ?Hb1; eauto).
  assert (Hd2 : d2 = with_users (alter (User.inc_following (-1)) A)
                       (with_users (alter (User.inc_followers (-1)) B)
                          (with_follows (delete (A, B)) d1))).
  { unfold d2, db_after. by rewrite H2. }
  assert (Hb2 : stats_followers d2 B = Some (followers (stats b))).
  { unfold stats_followers. rewrite Hd2. cbn. rewrite lookup_alter_ne by done.
    rewrite lookup_alter_eq, Hb1. cbn. f_equal. lia. }
  assert (Ha2 : stats_following d2 A = Some (following (stats a))).
  { unfold stats_following. rewrite Hd2. cbn.
    rewrite lookup_alter_eq, lookup_alter_ne by done. rewrite Ha1. cbn. f_equal. lia. }
  repeat split.
  - unfold reply_to, reply_of. by rewrite H1.
  - exact Hf1.
  - unfold stats_followers. by rewrite Hb1.
  - unfold stats_following. by rewrite Ha1.
  - unfold reply_to, reply_of. by rewrite H2.
  - rewrite Hd2. cbn. apply lookup_delete_eq.
  - exact Hb2.
  - exact Ha2.
  - rewrite Hb2. unfold stats_followers. by rewrite Hb.
  - rewrite Ha2. unfold stats_following. by rewrite Ha.
Qed.

Lemma toggleFollow_round_trip_witness :
  "u1" ≠ "u2"
  ∧ follows db0 !! ("u1", "u2") = None
  ∧ stats_followers (db_after (ToggleFollow true "u1" "u2") db0) "u2" = Some 1%Z
  ∧ stats_following (db_after (ToggleFollow true "u1" "u2") db0) "u1" = Some 1%Z
  ∧ stats_followers
      (db_after (ToggleFollow true "u1" "u2") (db_after (ToggleFollow true "u1" "u2") db0))
      "u2" = Some 0%Z
  ∧ stats_following
      (db_after (ToggleFollow true "u1" "u2") (db_after (ToggleFollow true "u1" "u2") db0))
      "u1" = Some 0%Z.
Proof.
  assert (Hne : "u1" ≠ "u2") by discriminate.
  assert (Hf : follows db0 !! ("u1", "u2") = None) by (vm_compute; reflexivity).
  pose proof (toggleFollow_round_trip true true "u1" "u2"
                (mkUser "Ann" (mkStats 0 0 0 0)) (mkUser "Bob" (mkStats 0 0 0 0)) db0
                Hne ltac:(vm_compute; reflexivity) ltac:(vm_compute; reflexivity) Hf) as H.
  cbv zeta in H. destruct H as (_ & _ & Hb1 & Ha1 & _ & _ & Hb2 & Ha2 & _).
  repeat split; assumption.
Defined.

(** ** Properties kept by every step of a handler *)

Section Preserves.
Context (I : World → Prop).

Lemma preserves_ret {A} (a : A) : preserves I (mret a).
Proof. intros w Hw. exact Hw. Qed.

Lemma preserves_throw {A} (e : Exn) : preserves I (@throw A e).
Proof. intros w Hw. exact Hw. Qed.

Lemma preserves_bind {A B} (m : Async A) (k : A → Async B) :
  preserves I m → (∀ a, preserves I (k a)) → preserves I (m ≫= k).
Proof.
  intros Hm Hk w Hw. unfold mbind, async_bind.
  specialize (Hm w Hw). destruct (m w) as [[a|e] w']; cbn in *.
  - by apply Hk.
  - exact Hm.
Qed.

Lemma preserves_tryCatch {A} (m : Async A) (h : Exn → Async A) :
  preserves I m → (∀ e, preserves I (h e)) → preserves I (tryCatch m h).
Proof.
  intros Hm Hh w Hw. unfold tryCatch.
  specialize (Hm w Hw). destruct (m w) as [[a|e] w']; cbn in *.
  - exact Hm.
  - by apply Hh.
Qed.

Lemma preserves_catch500 (m : Async Reply) : preserves I m → preserves I (catch500 m).
Proof. intros Hm. apply preserves_tryCatch; [exact Hm | intros e; apply preserves_ret]. Qed.

Lemma preserves_getDb : preserves I getDb.
Proof. intros w Hw. exact Hw. Qed.

Lemma preserves_when b (m : Async unit) : preserves I m → preserves I (when b m).
Proof. destruct b; [done | intros _; apply preserves_ret]. Qed.

Lemma preserves_req_io_emit io eventName data :
  preserves I (io_emit eventName data) → preserves I (req_io_emit io eventName data).
Proof. destruct io; [done | intros _; apply preserves_throw]. Qed.

End Preserves.

Section PreservesOnDb.
Context (J : Db → Prop).

Lemma preserves_db_io_emit eventName data : preserves (on_db J) (io_emit eventName data).
Proof. intros w Hw. exact Hw. Qed.

Lemma preserves_db_modifyDb (f : Db → Db) :
  (∀ d, J d → J (f d)) → preserves (on_db J) (modifyDb f).
Proof. intros Hf w Hw. by apply Hf. Qed.

End PreservesOnDb.

Section PreservesOnWire.
Context (ok : Emit → Prop).

Lemma preserves_wire_io_emit eventName data :
  ok (mkEmit None eventName data) → preserves (on_wire ok) (io_emit eventName data).
Proof.
  intros Hok w Hw. unfold on_wire in *. cbn.
  apply Forall_app. split; [exact Hw | by apply Forall_singleton].
Qed.

Lemma preserves_wire_modifyDb (f : Db → Db) : preserves (on_wire ok) (modifyDb f).
Proof. intros w Hw. exact Hw. Qed.

Lemma preserves_wire_setDb (d : Db) : preserves (on_wire ok) (setDb d).
Proof. intros w Hw. exact Hw. Qed.

End PreservesOnWire.

(** Splits a handler into its steps, leaving what the steps that write
    have to be shown to keep. *)
Create HintDb preserves_ops.

Ltac preserves_steps :=
  repeat first
    [ solve [auto 2 with preserves_ops nocore]
    | apply preserves_catch500
    | apply preserves_ret
    | apply preserves_throw
    | apply preserves_getDb
    | apply preserves_db_io_emit
    | apply preserves_wire_io_emit; [by split]
    | apply preserves_wire_modifyDb
    | apply preserves_wire_setDb
    | apply preserves_req_io_emit
    | apply preserves_when
    | apply preserves_bind; [| intros ?]
    | match goal with
      | |- preserves _ (if ?b then _ else _) => destruct b
      | |- preserves _ (match ?x with _ => _ end) => destruct x
      end ].

(** ** Self-follow *)

Lemma Follow_create_self userId (w : World) :
  Follow.create userId userId w = (Thrown (Error "Users cannot follow themselves"), w).
Proof.
  unfold Follow.create, Follow.preSave, mbind, async_bind, throw. cbn.
  by rewrite String.eqb_refl.
Qed.

Lemma nsf_Follow_create follower following :
  preserves (on_db no_self_follow) (Follow.create follower following).
Proof.
  intros w Hw. unfold Follow.create, Follow.preSave. step_async. cbn.
  destruct (String.eqb_spec follower following) as [->|Hne]; [exact Hw|]. cbn.
  destruct (follows (db w) !! (follower, following)); [exact Hw|]. cbn.
  intros u. cbn. rewrite lookup_insert_ne; [apply Hw | congruence].
Qed.

Lemma nsf_Follow_deleteOne f : preserves (on_db no_self_follow) (Follow.deleteOne f).
Proof.
  apply preserves_db_modifyDb. intros d Hd u. cbn.
  destruct (decide ((f_follower f, f_following f) = (u, u))) as [->|Hne].
  - apply lookup_delete_eq.
  - rewrite lookup_delete_ne by done. apply Hd.
Qed.

Lemma nsf_with_users f d : no_self_follow d → no_self_follow (with_users f d).
Proof. done. Qed.

Lemma nsf_with_comments f d : no_self_follow d → no_self_follow (with_comments f d).
Proof. done. Qed.

Lemma nsf_with_likes f d : no_self_follow d → no_self_follow (with_likes f d).
Proof. done. Qed.

Lemma nsf_User_updateOne _id update : preserves (on_db no_self_follow) (User.updateOne _id update).
Proof. apply preserves_db_modifyDb. intros d. apply nsf_with_users. Qed.

Lemma nsf_Like_deleteOne l : preserves (on_db no_self_follow) (Like.deleteOne l).
Proof. apply preserves_db_modifyDb. intros d. apply nsf_with_likes. Qed.

Lemma nsf_Like_create user content contentType :
  preserves (on_db no_self_follow) (Like.create user content contentType).
Proof.
  intros w Hw. unfold Like.create. step_async.
  destruct (Like.validate contentType); [| exact Hw]. cbn.
  destruct (likes (db w) !! (user, content)); exact Hw.
Qed.

Lemma nsf_Comment_findByIdAndUpdate _id update :
  preserves (on_db no_self_follow) (Comment.findByIdAndUpdate _id update).
Proof. apply preserves_db_modifyDb. intros d. apply nsf_with_comments. Qed.

Lemma nsf_Comment_deleteOne _id : preserves (on_db no_self_follow) (Comment.deleteOne _id).
Proof. apply preserves_db_modifyDb. intros d. apply nsf_with_comments. Qed.

Lemma nsf_Comment_create _id user content contentType text parentComment :
  preserves (on_db no_self_follow)
    (Comment.create _id user content contentType text parentComment).
Proof.
  intros w Hw. unfold Comment.create. step_async.
  destruct (Comment.validate contentType (Comment.setText text)); [| exact Hw]. cbn.
  destruct (comments (db w) !! _id); exact Hw.
Qed.

Lemma nsf_Comment_save _id c text :
  preserves (on_db no_self_follow) (Comment.save_text_isEdited _id c text).
Proof.
  unfold Comment.save_text_isEdited.
  destruct (Comment.validate (c_contentType c) (Comment.setText text)).
  - apply preserves_db_modifyDb. intros d. apply nsf_with_comments.
  - apply preserves_throw.
Qed.

#[local] Hint Resolve nsf_Follow_create nsf_Follow_deleteOne nsf_User_updateOne
  nsf_Like_deleteOne nsf_Like_create nsf_Comment_findByIdAndUpdate
  nsf_Comment_deleteOne nsf_Comment_create nsf_Comment_save : preserves_ops.

Lemma nsf_handle (c : Call) : preserves (on_db no_self_follow) (handle c).
Proof.
  destruct c; cbn [handle];
    unfold toggleLike, toggleLike_write, createComment, updateComment, deleteComment,
      toggleFollow, likeContentExists, commentContentExists, Video.exists_,
      Article.exists_, User.exists_, Comment.exists_, Comment.findById,
      Comment.findById_populated, Like.findOne, Follow.findOne;
    preserves_steps.
Qed.

Lemma reachable_no_self_follow (d : Db) : reachable d → no_self_follow d.
Proof.
  induction 1 as [us vs ars | c d _ IH | us vs ars d _ IH].
  - intros u. apply lookup_empty.
  - unfold db_after, call. by apply (nsf_handle c (mkWorld d [])).
  - exact IH.
Qed.

(** ** deleteComment *)

(** The database [deleteComment] leaves once the author check has passed:
    the parent's counter taken down by one, then the row removed. *)
Lemma deleteComment_call io userId commentId d :
  call (DeleteComment io userId commentId) d
  = match comments d !! commentId with
    | None => (Normal (next (createError 404 "Comment not found")), mkWorld d [])
    | Some c =>
        if String.eqb (c_user c) userId
        then
          let d' := with_comments (delete commentId)
                      match c_parentComment c with
                      | Some p => with_comments (alter (Comment.inc_repliesCount (-1)) p) d
                      | None => d
                      end in
          if io
          then (Normal (json 200 (MessageBody "Comment deleted successfully")),
                mkWorld d' [mkEmit None ("comment:" +:+ c_content c)
                              (CommentIdPayload "delete" commentId)])
          else (Normal (next (createError 500
                  "Cannot read properties of undefined (reading 'emit')")),
                mkWorld d' [])
        else (Normal (next (createError 403 "Not authorized to delete this comment")),
              mkWorld d [])
    end.
Proof.
  step_async. cbn.
  destruct (comments d !! commentId) as [c|]; [| reflexivity].
  destruct (String.eqb (c_user c) userId); cbn; [| reflexivity].
  destruct (c_parentComment c); destruct io; reflexivity.
Qed.

Lemma deleteComment_db io userId commentId c d :
  comments d !! commentId = Some c →
  String.eqb (c_user c) userId = true →
  db_after (DeleteComment io userId commentId) d
    = with_comments (delete commentId)
        match c_parentComment c with
        | Some p => with_comments (alter (Comment.inc_repliesCount (-1)) p) d
        | None => d
        end.
Proof.
  intros Hc Hu. unfold db_after. rewrite deleteComment_call, Hc, Hu. by destruct io.
Qed.

(** C2, as the code has it.  [deleteComment(C, U)] by the author of an
    existing comment, with the socket server attached, answers 200 and
    removes the row: no comment is stored under C afterwards, flagged or
    not.  Every other row is kept as it was, but for the parent of C, whose
    [repliesCount] is one lower; in particular the replies to C are still
    there, still active and still pointing to C. *)
Theorem deleteComment_removes_the_row
    (userId commentId : ObjectId) (c : CommentDoc) (d : Db) :
  comments d !! commentId = Some c →
  c_user c = userId →
  let d' := db_after (DeleteComment true userId commentId) d in
  reply_to (DeleteComment true userId commentId) d
    = Some (json 200 (MessageBody "Comment deleted successfully"))
  ∧ comments d' !! commentId = None
  ∧ (∀ id r, id ≠ commentId → comments d !! id = Some r →
       comments d' !! id
         = Some (if bool_decide (c_parentComment c = Some id)
                 then Comment.inc_repliesCount (-1) r else r))
  ∧ (∀ id r, id ≠ commentId → comments d !! id = Some r →
       c_parentComment r = Some commentId →
       ∃ r', comments d' !! id = Some r'
             ∧ c_active r' = c_active r
             ∧ c_parentComment r' = Some commentId).
Proof.
  intros Hc Hu d'.
  assert (Hd' : d' = with_comments (delete commentId)
                       match c_parentComment c with
                       | Some p => with_comments (alter (Comment.inc_repliesCount (-1)) p) d
                       | None => d
                       end).
  { apply (deleteComment_db true userId commentId c d Hc).
    rewrite Hu. apply String.eqb_refl. }
  assert (Hother : ∀ id r, id ≠ commentId → comments d !! id = Some r →
            comments d' !! id
              = Some (if bool_decide (c_parentComment c = Some id)
                      then Comment.inc_repliesCount (-1) r else r)).
  { intros id r Hne Hr. rewrite Hd'. cbn. rewrite lookup_delete_ne by done.
    destruct (c_parentComment c) as [p|]; cbn.
    - destruct (decide (p = id)) as [->|Hp].
      + rewrite lookup_alter_eq, Hr. by rewrite bool_decide_eq_true_2.
      + rewrite lookup_alter_ne, Hr by done.
        rewrite bool_decide_eq_false_2; [done | congruence].
    - by rewrite Hr. }
  split; [| split; [| split]].
  - unfold reply_to, reply_of. by rewrite deleteComment_call, Hc, Hu, String.eqb_refl.
  - rewrite Hd'. cbn. apply lookup_delete_eq.
  - exact Hother.
  - intros id r Hne Hr Hpar. rewrite (Hother id r Hne Hr).
    eexists. split; [reflexivity |]. by case_bool_decide.
Qed.

Lemma deleteComment_removes_the_row_witness :
  (∃ c, comments db0_thread !! "c1" = Some c ∧ c_user c = "u1")
  ∧ reply_to (DeleteComment true "u1" "c1") db0_thread
    = Some (json 200 (MessageBody "Comment deleted successfully"))
  ∧ comments (db_after (DeleteComment true "u1" "c1") db0_thread) !! "c1" = None
  ∧ (c_parentComment <$> comments (db_after (DeleteComment true "u1" "c1") db0_thread) !! "c2")
    = Some (Some "c1").
Proof.
  assert (Hc : comments db0_thread !! "c1"
               = Some (mkComment "u1" "v1" "Video" "hello" None 0 1 false true))
    by (vm_compute; reflexivity).
  pose proof (deleteComment_removes_the_row "u1" "c1" _ db0_thread Hc eq_refl) as H.
  cbv zeta in H. destruct H as (Hr & Hgone & Hother & _).
  split; [eexists; split; [exact Hc | reflexivity] |].
  split; [exact Hr |]. split; [exact Hgone |].
  rewrite (Hother "c2" (mkComment "u2" "v1" "Video" "hi" (Some "c1") 0 0 false true));
    [reflexivity | discriminate | vm_compute; reflexivity].
Defined.

(** C2 as stated fails: after a successful [deleteComment] by the author
    there is no row left under the comment's id, so none with
    [active = false] either. *)
Lemma deleteComment_is_a_hard_delete :
  (c_active <$> comments db0_thread !! "c1") = Some true
  ∧ reply_to (DeleteComment true "u1" "c1") db0_thread
    = Some (json 200 (MessageBody "Comment deleted successfully"))
  ∧ comments (db_after (DeleteComment true "u1" "c1") db0_thread) !! "c1" = None.
Proof. repeat split; vm_compute; reflexivity. Qed.

(** ** createComment and the reply counter *)

Lemma commentContentExists_pure contentType contentId (w : World) :
  ∃ b, commentContentExists contentType contentId w = (Normal b, w).
Proof.
  unfold commentContentExists.
  destruct (String.eqb contentType "Video"); [by eexists|].
  destruct (String.eqb contentType "Article"); by eexists.
Qed.

(** What a [createComment] call does to the database: nothing unless it is
    answered 201, and then one new row under a fresh id, with the parent's
    counter one up when a parent was given. *)
Lemma createComment_effect io userId contentId contentType text parentComment newId d :
  let c := CreateComment io userId contentId contentType text parentComment newId in
  (answered 201 c d = false ∧ db_after c d = d)
  ∨ (answered 201 c d = true
     ∧ comments d !! newId = None
     ∧ ∃ row, c_parentComment row = parentComment
         ∧ c_repliesCount row = 0%Z
         ∧ c_active row = true
         ∧ db_after c d
           = match parentComment with
             | Some p => with_comments (alter (Comment.inc_repliesCount 1) p)
                           (with_comments (insert newId row) d)
             | None => with_comments (insert newId row) d
             end).
Proof.
  intros c. unfold c, answered, reply_to, reply_of, db_after, call, handle.
  unfold createComment, catch500, tryCatch, mbind, async_bind.
  destruct (commentContentExists_pure contentType contentId (mkWorld d [])) as [b ->].
  destruct b; cbn; [| by left].
  assert (Hparent :
    ∃ b, match parentComment with
         | Some p => Comment.exists_ p
         | None => mret true
         end (mkWorld d []) = (Normal b, mkWorld d [])).
  { destruct parentComment; by eexists. }
  destruct Hparent as [b ->]. destruct b; cbn; [| by left].
  unfold Comment.create.
  destruct (Comment.validate contentType (Comment.setText text)); cbn; [| by left].
  unfold getDb, setDb, throw, mbind, async_bind, mret, async_ret. cbn.
  destruct (comments d !! newId) eqn:Hnew; cbn; [by left |].
  right. split.
  - destruct parentComment; destruct io; reflexivity.
  - split; [reflexivity |].
    exists (mkComment userId contentId contentType (default "" (Comment.setText text))
              parentComment 0 0 false true).
    split; [reflexivity |]. split; [reflexivity |]. split; [reflexivity |].
    destruct parentComment; destruct io; reflexivity.
Qed.

Section KeepsComments.
Context (m0 : gmap string CommentDoc).

Lemma kc_Like_deleteOne l : preserves (on_db (comments_are m0)) (Like.deleteOne l).
Proof. by apply preserves_db_modifyDb. Qed.

Lemma kc_Like_create user content contentType :
  preserves (on_db (comments_are m0)) (Like.create user content contentType).
Proof.
  intros w Hw. unfold Like.create. step_async.
  destruct (Like.validate contentType); [| exact Hw]. cbn.
  destruct (likes (db w) !! (user, content)); exact Hw.
Qed.

Lemma kc_Follow_deleteOne f : preserves (on_db (comments_are m0)) (Follow.deleteOne f).
Proof. by apply preserves_db_modifyDb. Qed.

Lemma kc_Follow_create follower following :
  preserves (on_db (comments_are m0)) (Follow.create follower following).
Proof.
  intros w Hw. unfold Follow.create, Follow.preSave. step_async. cbn.
  destruct (String.eqb follower following); [exact Hw|]. cbn.
  destruct (follows (db w) !! (follower, following)); exact Hw.
Qed.

Lemma kc_User_updateOne _id update : preserves (on_db (comments_are m0)) (User.updateOne _id update).
Proof. by apply preserves_db_modifyDb. Qed.

Lemma kc_toggleLike io userId contentId contentType :
  preserves (on_db (comments_are m0)) (toggleLike io userId contentId contentType).
Proof.
  pose proof kc_Like_deleteOne. pose proof kc_Like_create.
  unfold toggleLike, toggleLike_write, likeContentExists, Video.exists_,
    Article.exists_, Comment.exists_, Like.findOne.
  preserves_steps; auto.
Qed.

Lemma kc_toggleFollow io userId targetUserId :
  preserves (on_db (comments_are m0)) (toggleFollow io userId targetUserId).
Proof.
  pose proof kc_Follow_deleteOne. pose proof kc_Follow_create.
  pose proof kc_User_updateOne.
  unfold toggleFollow, User.exists_, Follow.findOne.
  preserves_steps; auto.
Qed.

End KeepsComments.

Lemma toggleLike_keeps_comments io userId contentId contentType d :
  comments (db_after (ToggleLike io userId contentId contentType) d) = comments d.
Proof. by apply (kc_toggleLike (comments d) io userId contentId contentType (mkWorld d [])). Qed.

Lemma toggleFollow_keeps_comments io userId targetUserId d :
  comments (db_after (ToggleFollow io userId targetUserId) d) = comments d.
Proof. by apply (kc_toggleFollow (comments d) io userId targetUserId (mkWorld d [])). Qed.

Lemma updateComment_keeps_repliesCount io userId commentId text P d :
  repliesCount (db_after (UpdateComment io userId commentId text) d) P = repliesCount d P.
Proof.
  set (I := λ d', repliesCount d' P = repliesCount d P).
  assert (Hsave : ∀ c, preserves (on_db I) (Comment.save_text_isEdited commentId c text)).
  { intros c. unfold Comment.save_text_isEdited.
    destruct (Comment.validate (c_contentType c) (Comment.setText text)).
    - apply preserves_db_modifyDb. intros d' Hd'. unfold I, repliesCount in *. cbn.
      rewrite <- Hd'. destruct (decide (commentId = P)) as [->|Hne].
      + rewrite lookup_alter_eq. by destruct (comments d' !! P).
      + by rewrite lookup_alter_ne.
    - apply preserves_throw. }
  assert (H : preserves (on_db I) (updateComment io userId commentId text)).
  { unfold updateComment, Comment.findById, Comment.findById_populated.
    preserves_steps; auto. }
  by apply (H (mkWorld d [])).
Qed.

(** One call moves the counter of a comment it spares by one up when it
    creates a reply to it, one down when it deletes one, and not at all
    otherwise. *)
Lemma repliesCount_step (P : ObjectId) (c : Call) (d : Db) (n : Z) :
  repliesCount d P = Some n →
  spares P c →
  repliesCount (db_after c d) P
    = Some (n + (if creates_reply_to P c d then 1 else 0)
              - (if deletes_reply_to P c d then 1 else 0))%Z.
Proof.
  intros Hn Hsp.
  destruct c as [io u cid ct | io u cid ct t par newId | io u cm t | io u cm | io u tg].
  - cbn [creates_reply_to deletes_reply_to]. unfold repliesCount in *.
    rewrite toggleLike_keeps_comments, Hn. f_equal. lia.
  - cbn [deletes_reply_to].
    destruct (createComment_effect io u cid ct t par newId d)
      as [[Hans Hdb] | (Hans & Hnew & row & Hpar & _ & _ & Hdb)].
    + rewrite Hdb, Hn.
      assert (creates_reply_to P (CreateComment io u cid ct t par newId) d = false) as ->.
      { cbn [creates_reply_to]. destruct par; [| done]. rewrite Hans. apply andb_false_r. }
      f_equal. lia.
    + assert (HnewP : newId ≠ P).
      { intros ->. unfold repliesCount in Hn. by rewrite Hnew in Hn. }
      rewrite Hdb. unfold repliesCount in *. cbn [creates_reply_to].
      destruct par as [q|]; cbn.
      * rewrite Hans, andb_true_r.
        destruct (String.eqb_spec q P) as [->|Hq].
        -- rewrite lookup_alter_eq, lookup_insert_ne by done.
           destruct (comments d !! P) as [p|]; [| done]. cbn in *.
           injection Hn as <-. f_equal. lia.
        -- rewrite lookup_alter_ne, lookup_insert_ne by done.
           rewrite Hn. f_equal. lia.
      * rewrite lookup_insert_ne by done. rewrite Hn. f_equal. lia.
  - cbn [creates_reply_to deletes_reply_to].
    rewrite updateComment_keeps_repliesCount, Hn. f_equal. lia.
  - cbn [creates_reply_to deletes_reply_to]. cbn in Hsp.
    destruct (comments d !! cm) as [r|] eqn:Hr; last first.
    { unfold db_after. rewrite deleteComment_call, Hr. cbn. rewrite Hn. f_equal. lia. }
    destruct (String.eqb (c_user r) u) eqn:Hu; last first.
    { unfold db_after. rewrite deleteComment_call, Hr, Hu. cbn.
      rewrite andb_false_r, Hn. f_equal. lia. }
    rewrite andb_true_r, (deleteComment_db io u cm r d Hr Hu).
    unfold repliesCount in *. cbn. rewrite lookup_delete_ne by done.
    destruct (c_parentComment r) as [q|]; cbn.
    + destruct (decide (q = P)) as [->|Hq].
      * rewrite bool_decide_eq_true_2 by done. rewrite lookup_alter_eq.
        destruct (comments d !! P) as [p|]; [| done]. cbn in *.
        injection Hn as <-. f_equal. lia.
      * rewrite bool_decide_eq_false_2 by congruence.
        rewrite lookup_alter_ne by done. rewrite Hn. f_equal. lia.
    + rewrite bool_decide_eq_false_2 by done. rewrite Hn. f_equal. lia.
  - cbn [creates_reply_to deletes_reply_to]. unfold repliesCount in *.
    rewrite toggleFollow_keeps_comments, Hn. f_equal. lia.
Qed.

Lemma repliesCount_run (P : ObjectId) (cs : list Call) : ∀ (d : Db) (n : Z),
  repliesCount d P = Some n →
  Forall (spares P) cs →
  repliesCount (run cs d) P
    = Some (n + Z.of_nat (count_along (creates_reply_to P) cs d)
              - Z.of_nat (count_along (deletes_reply_to P) cs d))%Z.
Proof.
  induction cs as [|c cs IH]; intros d n Hn Hsp.
  - cbn. rewrite Hn. f_equal. lia.
  - apply Forall_cons in Hsp as [Hc Hcs]. cbn [run count_along].
    rewrite (IH _ _ (repliesCount_step P c d n Hn Hc) Hcs). f_equal.
    destruct (creates_reply_to P c d), (deletes_reply_to P c d); lia.
Qed.

(** C7. Take a comment P whose [repliesCount] is 0 and serve any requests
    one after the other, none of which deletes P itself.  If K of them are
    [createComment] calls with [parentComment = P] answered 201 and D of
    them are [deleteComment] calls on an existing reply to P by that
    reply's author, then P's [repliesCount] ends at K - D. *)
Theorem repliesCount_created_minus_deleted (P : ObjectId) (cs : list Call) (d : Db) :
  repliesCount d P = Some 0%Z →
  Forall (spares P) cs →
  repliesCount (run cs d) P
    = Some (Z.of_nat (count_along (creates_reply_to P) cs d)
            - Z.of_nat (count_along (deletes_reply_to P) cs d))%Z.
Proof.
  intros H0 Hsp. rewrite (repliesCount_run P cs d 0 H0 Hsp). f_equal.
Qed.

Lemma repliesCount_created_minus_deleted_witness :
  repliesCount db0_comment "c1" = Some 0%Z
  ∧ Forall (spares "c1")
      [CreateComment true "u2" "v1" "Video" (Some "hi") (Some "c1") "c2";
       CreateComment true "u1" "v1" "Video" (Some "hey") (Some "c1") "c3";
       DeleteComment true "u2" "c2"]
  ∧ repliesCount
      (run [CreateComment true "u2" "v1" "Video" (Some "hi") (Some "c1") "c2";
            CreateComment true "u1" "v1" "Video" (Some "hey") (Some "c1") "c3";
            DeleteComment true "u2" "c2"] db0_comment) "c1"
    = Some (2 - 1)%Z.
Proof.
  assert (H0 : repliesCount db0_comment "c1" = Some 0%Z) by (vm_compute; reflexivity).
  assert (Hsp : Forall (spares "c1")
      [CreateComment true "u2" "v1" "Video" (Some "hi") (Some "c1") "c2";
       CreateComment true "u1" "v1" "Video" (Some "hey") (Some "c1") "c3";
       DeleteComment true "u2" "c2"]).
  { repeat constructor. cbn. discriminate. }
  split; [exact H0 |]. split; [exact Hsp |].
  rewrite (repliesCount_created_minus_deleted "c1" _ db0_comment H0 Hsp).
  vm_compute. reflexivity.
Defined.

(** ** createComment and the text validators *)

Lemma trimStart_blank (s : string) : blank s = true → Js.trimStart s = "".
Proof.
  unfold blank. induction s as [|a s IH]; cbn; [done |].
  intros [Ha Hs]%andb_true_iff. rewrite Ha. by apply IH.
Qed.

Lemma trim_blank (s : string) : blank s = true → Js.trim s = "".
Proof. intros H. unfold Js.trim. by rewrite trimStart_blank. Qed.

Lemma commentContentExists_spec (contentType : string) (contentId : ObjectId) (w : World) :
  ∃ b, commentContentExists contentType contentId w = (Normal b, w)
       ∧ (b = true ↔ commentable (db w) contentType contentId).
Proof.
  unfold commentContentExists, commentable.
  destruct (String.eqb_spec contentType "Video") as [->|HV].
  { eexists. split; [reflexivity|]. rewrite bool_decide_eq_true.
    split; [by left | by intros [[_ ?]|[? _]]]. }
  destruct (String.eqb_spec contentType "Article") as [->|HA].
  { eexists. split; [reflexivity|]. rewrite bool_decide_eq_true.
    split; [by right | by intros [[? _]|[_ ?]]]. }
  exists false. split; [reflexivity|].
  split; [discriminate | by intros [[? _]|[? _]]].
Qed.

Lemma commentable_enum d contentType contentId :
  commentable d contentType contentId →
  existsb (String.eqb contentType) Comment.contentType_enum = true.
Proof. by intros [[-> _]|[-> _]]. Qed.

(** A [createComment] call whose text the schema refuses: 404 when the
    content or the parent is missing, else 500 with the validator's
    message; nothing is written or emitted. *)
Lemma createComment_refused_text io userId contentId contentType text parentComment
    newId d (reason : string) :
  (∀ ct, existsb (String.eqb ct) Comment.contentType_enum = true →
         Comment.validate ct (Comment.setText text) = [("text", reason)]) →
  let c := CreateComment io userId contentId contentType text parentComment newId in
  db_after c d = d
  ∧ emitted c d = []
  ∧ (commentable d contentType contentId → parent_ok d parentComment →
     reply_to c d
       = Some (next (createError 500 ("Comment validation failed: text: " +:+ reason))))
  ∧ (∃ err, reply_to c d = Some (next err)
            ∧ (statusCode err = 404 ∨ statusCode err = 500)).
Proof.
  intros Hval c. unfold c, reply_to, reply_of, db_after, emitted, call, handle.
  unfold createComment, catch500, tryCatch, mbind, async_bind.
  destruct (commentContentExists_spec contentType contentId (mkWorld d [])) as (b & -> & Hb).
  destruct b; cbn; last first.
  { repeat split; [| eexists; split; [reflexivity | by left]].
    intros Hc. apply Hb in Hc. discriminate. }
  assert (Hparent :
    ∃ b, match parentComment with
         | Some p => Comment.exists_ p
         | None => mret true
         end (mkWorld d []) = (Normal b, mkWorld d [])
         ∧ (b = true ↔ parent_ok d parentComment)).
  { destruct parentComment as [p|]; cbn.
    - eexists. split; [reflexivity |]. apply bool_decide_eq_true.
    - by eexists. }
  destruct Hparent as (b & -> & Hp). destruct b; cbn; last first.
  { repeat split; [| eexists; split; [reflexivity | by left]].
    intros _ Hpar. apply Hp in Hpar. discriminate. }
  unfold Comment.create.
  rewrite Hval by (apply (commentable_enum d _ contentId); by apply Hb).
  cbn. repeat split. eexists. split; [reflexivity | by right].
Qed.

Lemma validate_blank (t ct : string) :
  blank t = true →
  existsb (String.eqb ct) Comment.contentType_enum = true →
  Comment.validate ct (Comment.setText (Some t)) = [("text", "Comment text is required")].
Proof.
  intros Hb Hct. unfold Comment.validate, Comment.setText.
  cbn [fmap option_fmap option_map]. by rewrite Hct, (trim_blank t Hb).
Qed.

Lemma validate_long (t ct : string) :
  (1000 < String.length (Js.trim t))%nat →
  existsb (String.eqb ct) Comment.contentType_enum = true →
  Comment.validate ct (Comment.setText (Some t))
    = [("text", "Comment cannot be longer than 1000 characters")].
Proof.
  intros Hlen Hct. unfold Comment.validate, Comment.setText.
  cbn [fmap option_fmap option_map]. rewrite Hct.
  destruct (Nat.eqb_spec (String.length (Js.trim t)) 0) as [H0|_]; [lia |].
  destruct (Nat.ltb_spec 1000 (String.length (Js.trim t))) as [_|H]; [done | lia].
Qed.

(** C4, as the code has it.  A [createComment] call whose text is empty or
    white space only, or whose text is, once trimmed, longer than 1000
    characters, creates no row and emits nothing, and is answered with an
    error of status 404 or 500, never 400.  When the content and the
    given parent exist, the schema's validation error is caught by the
    handler and passed on as [createError(500, error.message)]: status
    500, with the validator's message. *)
Theorem createComment_bad_text_is_500 :
  (∀ io userId contentId contentType t parentComment newId d,
     blank t = true →
     let c := CreateComment io userId contentId contentType (Some t) parentComment newId in
     db_after c d = d
     ∧ emitted c d = []
     ∧ (commentable d contentType contentId → parent_ok d parentComment →
        reply_to c d
          = Some (next (createError 500
              "Comment validation failed: text: Comment text is required")))
     ∧ (∃ err, reply_to c d = Some (next err)
               ∧ (statusCode err = 404 ∨ statusCode err = 500)))
  ∧ (∀ io userId contentId contentType t parentComment newId d,
       (1000 < String.length (Js.trim t))%nat →
       let c := CreateComment io userId contentId contentType (Some t) parentComment newId in
       db_after c d = d
       ∧ emitted c d = []
       ∧ (commentable d contentType contentId → parent_ok d parentComment →
          reply_to c d
            = Some (next (createError 500
                "Comment validation failed: text: Comment cannot be longer than 1000 characters")))
       ∧ (∃ err, reply_to c d = Some (next err)
                 ∧ (statusCode err = 404 ∨ statusCode err = 500))).
Proof.
  split.
  - intros io u cid ct t par newId d Hb.
    apply (createComment_refused_text io u cid ct (Some t) par newId d
             "Comment text is required").
    intros ct' Hct'. by apply validate_blank.
  - intros io u cid ct t par newId d Hlen.
    apply (createComment_refused_text io u cid ct (Some t) par newId d
             "Comment cannot be longer than 1000 characters").
    intros ct' Hct'. by apply validate_long.
Qed.

Lemma createComment_bad_text_is_500_witness :
  blank "   " = true
  ∧ commentable db0 "Video" "v1"
  ∧ reply_to (CreateComment true "u1" "v1" "Video" (Some "   ") None "c1") db0
    = Some (next (createError 500
        "Comment validation failed: text: Comment text is required"))
  ∧ db_after (CreateComment true "u1" "v1" "Video" (Some "   ") None "c1") db0 = db0
  ∧ (1000 < String.length (Js.trim (Js.repeat "a" 1001)))%nat
  ∧ reply_to (CreateComment true "u1" "v1" "Video" (Some (Js.repeat "a" 1001)) None "c1") db0
    = Some (next (createError 500
        "Comment validation failed: text: Comment cannot be longer than 1000 characters")).
Proof.
  assert (Hb : blank "   " = true) by reflexivity.
  assert (Hc : commentable db0 "Video" "v1").
  { left. split; [reflexivity | vm_compute; reflexivity]. }
  assert (Hlen : (1000 < String.length (Js.trim (Js.repeat "a" 1001)))%nat).
  { apply Nat.ltb_lt. vm_compute. reflexivity. }
  destruct createComment_bad_text_is_500 as [Hblank Hlong].
  pose proof (Hblank true "u1" "v1" "Video" "   " None "c1" db0 Hb) as H1.
  pose proof (Hlong true "u1" "v1" "Video" (Js.repeat "a" 1001) None "c1" db0 Hlen) as H2.
  cbv zeta in H1, H2.
  destruct H1 as (Hdb1 & _ & Hr1 & _). destruct H2 as (_ & _ & Hr2 & _).
  split; [exact Hb |]. split; [exact Hc |].
  split; [exact (Hr1 Hc I) |]. split; [exact Hdb1 |].
  split; [exact Hlen | exact (Hr2 Hc I)].
Defined.

(** C4 as stated fails twice over.  Empty text on an existing video is
    answered with status 500, not 400; and a text of 1001 characters that
    trims to one is accepted with 201 and stored. *)
Lemma createComment_text_counterexample :
  reply_to (CreateComment true "u1" "v1" "Video" (Some "") None "c1") db0
    = Some (next (createError 500
        "Comment validation failed: text: Comment text is required"))
  ∧ http_status (next (createError 500
        "Comment validation failed: text: Comment text is required")) = 500
  ∧ String.length padded_text = 1001
  ∧ answered 201 (CreateComment true "u1" "v1" "Video" (Some padded_text) None "c1") db0
    = true
  ∧ (c_text <$> comments
       (db_after (CreateComment true "u1" "v1" "Video" (Some padded_text) None "c1") db0)
       !! "c1") = Some "a".
Proof. repeat split; vm_compute; reflexivity. Qed.

(** ** The events the mutations send *)










(** * Further properties of the engagement controller *)

(** ** The handlers case by case *)

Lemma updateComment_call io userId commentId text d :
  call (UpdateComment io userId commentId text) d
  = match comments d !! commentId with
    | None => (Normal (next (createError 404 "Comment not found")), mkWorld d [])
    | Some c =>
        if String.eqb (c_user c) userId
        then
          match Comment.validate (c_contentType c) (Comment.setText text) with
          | [] =>
              let d' := with_comments
                          (alter (Comment.set_text_isEdited
                                    (default "" (Comment.setText text))) commentId) d in
              let populated :=
                (λ c', (c', name <$> users d' !! c_user c')) <$> comments d' !! commentId in
              if io
              then (Normal (json 200 (CommentBody populated)),
                    mkWorld d' [mkEmit None ("comment:" +:+ c_content c)
                                  (CommentPayload "update" populated)])
              else (Normal (next (createError 500
                      "Cannot read properties of undefined (reading 'emit')")),
                    mkWorld d' [])
          | e :: errors =>
              (Normal (next (createError 500
                 (message (ValidationError "Comment" (e :: errors))))),
               mkWorld d [])
          end
        else (Normal (next (createError 403 "Not authorized to update this comment")),
              mkWorld d [])
    end.
Proof.
  step_async. cbn.
  destruct (comments d !! commentId) as [c|]; [| reflexivity].
  destruct (String.eqb (c_user c) userId); cbn; [| reflexivity].
  destruct (Comment.validate (c_contentType c) (Comment.setText text)); cbn;
    [| reflexivity].
  destruct io; reflexivity.
Qed.

Lemma toggleFollow_missing_target io userId targetUserId d :
  userId ≠ targetUserId →
  users d !! targetUserId = None →
  call (ToggleFollow io userId targetUserId) d
    = (Normal (next (createError 404 "Target user not found")), mkWorld d []).
Proof.
  intros Hne Hu. step_async.
  rewrite (eqb_false_of_ne targetUserId userId) by done. cbn.
  rewrite bool_decide_eq_false_2; [reflexivity |].
  rewrite Hu. by intros [? ?].
Qed.

(** The checks of [createComment], in the order the handler makes them. *)
Lemma createComment_missing_content io userId contentId contentType text parentComment
    newId d :
  ¬ commentable d contentType contentId →
  call (CreateComment io userId contentId contentType text parentComment newId) d
    = (Normal (next (createError 404 (contentType +:+ " not found"))), mkWorld d []).
Proof.
  intros Hc. unfold call, handle, createComment, catch500, tryCatch, mbind, async_bind.
  destruct (commentContentExists_spec contentType contentId (mkWorld d [])) as (b & -> & Hb).
  destruct b; [exfalso; apply Hc; by apply Hb | reflexivity].
Qed.

Lemma createComment_missing_parent io userId contentId contentType text p newId d :
  commentable d contentType contentId →
  comments d !! p = None →
  call (CreateComment io userId contentId contentType text (Some p) newId) d
    = (Normal (next (createError 404 "Parent comment not found")), mkWorld d []).
Proof.
  intros Hc Hp. unfold call, handle, createComment, catch500, tryCatch, mbind, async_bind.
  destruct (commentContentExists_spec contentType contentId (mkWorld d [])) as (b & -> & Hb).
  destruct b; [| apply Hb in Hc; discriminate]. cbn.
  unfold Comment.exists_, getDb, mbind, async_bind, mret, async_ret. cbn.
  rewrite bool_decide_eq_false_2; [reflexivity |].
  rewrite Hp. by intros [? ?].
Qed.

Lemma createComment_past_the_checks io userId contentId contentType text parentComment
    newId d :
  commentable d contentType contentId →
  parent_ok d parentComment →
  call (CreateComment io userId contentId contentType text parentComment newId) d
  = match Comment.validate contentType (Comment.setText text) with
    | [] =>
        match comments d !! newId with
        | Some _ =>
            (Normal (next (createError 500 (message (E11000 "comments" "_id_")))),
             mkWorld d [])
        | None =>
            let row := mkComment userId contentId contentType
                         (default "" (Comment.setText text)) parentComment 0 0 false true in
            let d' := match parentComment with
                      | Some p => with_comments (alter (Comment.inc_repliesCount 1) p)
                                    (with_comments (insert newId row) d)
                      | None => with_comments (insert newId row) d
                      end in
            let populated :=
              (λ c', (c', name <$> users d' !! c_user c')) <$> comments d' !! newId in
            (Normal (json 201 (CommentBody populated)),
             mkWorld d' (if io
                         then [mkEmit None ("comment:" +:+ contentId)
                                 (CommentPayload "new" populated)]
                         else []))
        end
    | e :: errors =>
        (Normal (next (createError 500
           (message (ValidationError "Comment" (e :: errors))))),
         mkWorld d [])
    end.
Proof.
  intros Hc Hp. unfold call, handle, createComment, catch500, tryCatch, mbind, async_bind.
  destruct (commentContentExists_spec contentType contentId (mkWorld d [])) as (b & -> & Hb).
  destruct b; [| apply Hb in Hc; discriminate]. cbn.
  assert (Hparent :
    match parentComment with
    | Some p => Comment.exists_ p
    | None => mret true
    end (mkWorld d []) = (Normal true, mkWorld d [])).
  { destruct parentComment as [p|]; [| reflexivity]. cbn in Hp.
    unfold Comment.exists_, getDb, mbind, async_bind, mret, async_ret. cbn.
    by rewrite bool_decide_eq_true_2. }
  rewrite Hparent. cbn. unfold Comment.create.
  destruct (Comment.validate contentType (Comment.setText text)); cbn; [| reflexivity].
  unfold getDb, setDb, throw, mbind, async_bind, mret, async_ret. cbn.
  destruct (comments d !! newId); cbn; [reflexivity |].
  destruct parentComment; destruct io; reflexivity.
Qed.

(** ** Trimming *)

Lemma trimStart_shape (s : string) :
  Js.trimStart s = "" ∨ ∃ c r, Js.trimStart s = String c r ∧ Js.isWhiteSpace c = false.
Proof.
  induction s as [|c r IH]; cbn; [by left |].
  destruct (Js.isWhiteSpace c) eqn:Hc; [exact IH | right; eauto].
Qed.

Lemma trimEnd_cons (c : ascii) (r : string) :
  Js.trimEnd (String c r)
  = match Js.trimEnd r with
    | EmptyString => if Js.isWhiteSpace c then EmptyString else String c EmptyString
    | r' => String c r'
    end.
Proof. reflexivity. Qed.

Lemma trimEnd_idem (s : string) : Js.trimEnd (Js.trimEnd s) = Js.trimEnd s.
Proof.
  induction s as [|c r IH]; [done |].
  rewrite (trimEnd_cons c r).
  destruct (Js.trimEnd r) as [|c' r'] eqn:Hr.
  - destruct (Js.isWhiteSpace c) eqn:Hc; [done |].
    rewrite trimEnd_cons. cbn. by rewrite Hc.
  - by rewrite trimEnd_cons, IH.
Qed.

Lemma trimEnd_keeps_head (c : ascii) (r : string) :
  Js.isWhiteSpace c = false → ∃ r', Js.trimEnd (String c r) = String c r'.
Proof.
  intros Hc. rewrite trimEnd_cons. destruct (Js.trimEnd r); [rewrite Hc |]; eauto.
Qed.

Lemma trim_idem (s : string) : Js.trim (Js.trim s) = Js.trim s.
Proof.
  unfold Js.trim. destruct (trimStart_shape s) as [-> | (c & r & -> & Hc)]; [done |].
  destruct (trimEnd_keeps_head c r Hc) as [r' Hr']. rewrite Hr'.
  cbn [Js.trimStart]. rewrite Hc, <- Hr'. apply trimEnd_idem.
Qed.

(** ** The text validators *)

Lemma validate_accepts (contentType t : string) :
  contentType ∈ Comment.contentType_enum →
  (1 ≤ String.length (Js.trim t) ≤ 1000)%nat →
  Comment.validate contentType (Comment.setText (Some t)) = [].
Proof.
  intros Hct [Hlo Hhi]. unfold Comment.validate, Comment.setText.
  cbn [fmap option_fmap option_map].
  assert (existsb (String.eqb contentType) Comment.contentType_enum = true) as ->.
  { unfold Comment.contentType_enum in *.
    apply elem_of_cons in Hct as [->|Hct]; [done |].
    apply elem_of_cons in Hct as [->|Hct]; [done |]. by apply elem_of_nil in Hct. }
  destruct (Nat.eqb_spec (String.length (Js.trim t)) 0) as [H0|_]; [lia |].
  destruct (Nat.ltb_spec 1000 (String.length (Js.trim t))) as [H|_]; [lia | done].
Qed.

Lemma validate_accepted (contentType : string) (text : option string) :
  Comment.validate contentType (Comment.setText text) = [] →
  contentType ∈ Comment.contentType_enum
  ∧ ∃ t, text = Some t ∧ stored_text (Js.trim t).
Proof.
  unfold Comment.validate, Comment.setText. intros H.
  apply app_eq_nil in H as [Hct Htext]. split.
  - unfold Comment.contentType_enum in *. cbn [existsb] in Hct.
    destruct (String.eqb_spec contentType "Video") as [->|_];
      [apply elem_of_cons; by left |].
    destruct (String.eqb_spec contentType "Article") as [->|_];
      [apply elem_of_cons; right; apply elem_of_cons; by left |].
    cbn in Hct. discriminate.
  - destruct text as [t|]; cbn [fmap option_fmap option_map] in Htext; [| discriminate].
    exists t. split; [done |]. split; [apply trim_idem |].
    destruct (Nat.eqb_spec (String.length (Js.trim t)) 0) as [|Hn0]; [discriminate |].
    destruct (Nat.ltb_spec 1000 (String.length (Js.trim t))) as [|Hle]; [discriminate |].
    lia.
Qed.

(** ** updateComment and deleteComment: who may, and what changes *)

(** X1. [updateComment] by the author of an existing comment, with a text
    that trims to between 1 and 1000 code units and the socket server
    attached, answers 200 and edits the row in place: the text becomes the
    trimmed text and [isEdited] becomes true, while author, content,
    parent, counters and [active] stay as they were; no other row and no
    other collection changes, and exactly one "update" event goes out under
    ["comment:" + content]. *)
Theorem updateComment_edits_in_place
    (userId commentId : ObjectId) (t : string) (c : CommentDoc) (d : Db) :
  comments d !! commentId = Some c →
  c_user c = userId →
  c_contentType c ∈ Comment.contentType_enum →
  (1 ≤ String.length (Js.trim t) ≤ 1000)%nat →
  let d' := db_after (UpdateComment true userId commentId (Some t)) d in
  let c' := mkComment (c_user c) (c_content c) (c_contentType c) (Js.trim t)
              (c_parentComment c) (c_likesCount c) (c_repliesCount c) true (c_active c) in
  reply_to (UpdateComment true userId commentId (Some t)) d
    = Some (json 200 (CommentBody (Some (c', name <$> users d !! userId))))
  ∧ comments d' !! commentId = Some c'
  ∧ (∀ id, id ≠ commentId → comments d' !! id = comments d !! id)
  ∧ users d' = users d ∧ videos d' = videos d ∧ articles d' = articles d
  ∧ likes d' = likes d ∧ follows d' = follows d
  ∧ emitted (UpdateComment true userId commentId (Some t)) d
    = [mkEmit None ("comment:" +:+ c_content c)
         (CommentPayload "update" (Some (c', name <$> users d !! userId)))].
Proof.
  intros Hc Hu Hct Hlen d' c'. subst userId.
  pose proof (updateComment_call true (c_user c) commentId (Some t) d) as Hcall.
  rewrite Hc, String.eqb_refl, (validate_accepts _ t Hct Hlen) in Hcall.
  cbv zeta in Hcall. cbn [Comment.setText fmap option_fmap option_map default] in Hcall.
  cbn [with_comments comments users] in Hcall.
  rewrite lookup_alter_eq, Hc in Hcall.
  cbn [fmap option_fmap option_map Comment.set_text_isEdited c_user] in Hcall.
  unfold d', reply_to, reply_of, db_after, emitted. rewrite Hcall. cbn.
  split; [done |]. split; [by rewrite lookup_alter_eq, Hc |].
  split; [intros id Hid; by rewrite lookup_alter_ne |].
  repeat split.
Qed.

Lemma updateComment_edits_in_place_witness :
  (c_text <$> comments db0_thread !! "c2") = Some "hi"
  ∧ (c_text <$> comments (db_after (UpdateComment true "u2" "c2" (Some "  hi there ")) db0_thread)
                  !! "c2") = Some "hi there"
  ∧ (c_isEdited <$> comments (db_after (UpdateComment true "u2" "c2" (Some "  hi there "))
                                db0_thread) !! "c2") = Some true.
Proof.
  assert (Hc : comments db0_thread !! "c2"
               = Some (mkComment "u2" "v1" "Video" "hi" (Some "c1") 0 0 false true))
    by (vm_compute; reflexivity).
  assert (Hct : "Video" ∈ Comment.contentType_enum) by (apply elem_of_cons; by left).
  assert (Hlen : (1 ≤ String.length (Js.trim "  hi there ") ≤ 1000)%nat)
    by (split; apply Nat.leb_le; vm_compute; reflexivity).
  pose proof (updateComment_edits_in_place "u2" "c2" "  hi there " _ db0_thread
                Hc eq_refl Hct Hlen) as H.
  cbv zeta in H. destruct H as (_ & Hrow & _).
  split; [by rewrite Hc |]. rewrite Hrow. split; reflexivity.
Defined.

(** ** createComment: what a success stores and what each failure is *)

(** X3. [createComment] on existing content, with an existing parent if
    one is given, a text that trims to between 1 and 1000 code units and an
    id not yet taken, answers 201 and stores one row under that id: author,
    content and parent as sent, the text trimmed, [likesCount] and
    [repliesCount] 0, [isEdited] false, [active] true.  The parent's
    [repliesCount] is one higher, every other row is untouched, and one
    "new" event goes out under ["comment:" + contentId] when a socket server
    is attached, none otherwise. *)
Theorem createComment_stores_the_row
    (io : bool) (userId contentId : ObjectId) (contentType t : string)
    (parentComment : option ObjectId) (newId : ObjectId) (d : Db) :
  commentable d contentType contentId →
  parent_ok d parentComment →
  (1 ≤ String.length (Js.trim t) ≤ 1000)%nat →
  comments d !! newId = None →
  let c := CreateComment io userId contentId contentType (Some t) parentComment newId in
  let row := mkComment userId contentId contentType (Js.trim t) parentComment
               0 0 false true in
  reply_to c d = Some (json 201 (CommentBody (Some (row, name <$> users d !! userId))))
  ∧ comments (db_after c d) !! newId = Some row
  ∧ (∀ p, parentComment = Some p →
       repliesCount (db_after c d) p = (λ n, (n + 1)%Z) <$> repliesCount d p)
  ∧ (∀ id, id ≠ newId → parentComment ≠ Some id →
       comments (db_after c d) !! id = comments d !! id)
  ∧ emitted c d
    = if io
      then [mkEmit None ("comment:" +:+ contentId)
              (CommentPayload "new" (Some (row, name <$> users d !! userId)))]
      else [].
Proof.
  intros Hc Hp Hlen Hnew c row.
  assert (Hct : contentType ∈ Comment.contentType_enum).
  { unfold Comment.contentType_enum.
    destruct Hc as [[-> _]|[-> _]];
      [apply elem_of_cons; by left | apply elem_of_cons; right; apply elem_of_cons; by left]. }
  pose proof (createComment_past_the_checks io userId contentId contentType (Some t)
                parentComment newId d Hc Hp) as Hcall.
  rewrite (validate_accepts _ t Hct Hlen), Hnew in Hcall. cbv zeta in Hcall.
  cbn [Comment.setText fmap option_fmap option_map default from_option] in Hcall.
  unfold id in Hcall. fold row in Hcall.
  assert (Hrow : ∀ d', comments d' !! newId = Some row → users d' = users d →
            (λ c', (c', name <$> users d' !! c_user c')) <$> comments d' !! newId
            = Some (row, name <$> users d !! userId)).
  { intros d' -> ->. reflexivity. }
  unfold c, reply_to, reply_of, db_after, emitted. rewrite Hcall. clear Hcall.
  destruct parentComment as [p|]; cbn [fst snd db wire].
  - assert (Hpn : p ≠ newId).
    { intros ->. cbn in Hp. rewrite Hnew in Hp. by destruct Hp. }
    assert (Hlook : comments (with_comments (alter (Comment.inc_repliesCount 1) p)
                                (with_comments (insert newId row) d)) !! newId = Some row).
    { cbn. rewrite lookup_alter_ne by done. apply lookup_insert_eq. }
    rewrite (Hrow _ Hlook eq_refl).
    split; [done |]. split; [exact Hlook |]. split; [| split; [| done]].
    + intros p' [= <-]. unfold repliesCount. cbn.
      rewrite lookup_alter_eq, lookup_insert_ne by done.
      by destruct (comments d !! p).
    + intros id Hid Hpar. cbn.
      rewrite lookup_alter_ne by congruence. by rewrite lookup_insert_ne.
  - assert (Hlook : comments (with_comments (insert newId row) d) !! newId = Some row)
      by (cbn; apply lookup_insert_eq).
    rewrite (Hrow _ Hlook eq_refl).
    split; [done |]. split; [exact Hlook |]. split; [done |]. split; [| done].
    intros id Hid _. cbn. by rewrite lookup_insert_ne.
Qed.

Lemma createComment_stores_the_row_witness :
  commentable db0_comment "Video" "v1"
  ∧ parent_ok db0_comment (Some "c1")
  ∧ comments db0_comment !! "c2" = None
  ∧ (c_text <$> comments
       (db_after (CreateComment true "u2" "v1" "Video" (Some " hi ") (Some "c1") "c2")
          db0_comment) !! "c2") = Some "hi"
  ∧ repliesCount
      (db_after (CreateComment true "u2" "v1" "Video" (Some " hi ") (Some "c1") "c2")
         db0_comment) "c1" = Some 1%Z.
Proof.
  assert (Hc : commentable db0_comment "Video" "v1").
  { left. split; [reflexivity | vm_compute; reflexivity]. }
  assert (Hp : parent_ok db0_comment (Some "c1")) by (vm_compute; eauto).
  assert (Hlen : (1 ≤ String.length (Js.trim " hi ") ≤ 1000)%nat)
    by (split; apply Nat.leb_le; vm_compute; reflexivity).
  assert (Hnew : comments db0_comment !! "c2" = None) by (vm_compute; reflexivity).
  pose proof (createComment_stores_the_row true "u2" "v1" "Video" " hi " (Some "c1") "c2"
                db0_comment Hc Hp Hlen Hnew) as H.
  cbv zeta in H. destruct H as (_ & Hrow & Hcount & _).
  split; [exact Hc |]. split; [exact Hp |]. split; [exact Hnew |].
  split; [rewrite Hrow; vm_compute; reflexivity |].
  rewrite (Hcount "c1" eq_refl). vm_compute. reflexivity.
Defined.

(** ** How a call can end *)

Ltac in_list := repeat first [apply list_elem_of_here | apply list_elem_of_further].

Ltac refused := apply Refused; cbn; in_list.

Ltac carried_out status :=
  match goal with
  | |- Ending ?c ?d (_, mkWorld ?d' [?e]) =>
      apply (Done c d status _ d' e); [cbn; in_list | by cbn]
  | |- Ending ?c ?d (_, mkWorld ?d' (if _ then [?e] else [])) =>
      apply (Done c d status _ d' e); [cbn; in_list | by cbn]
  | |- Ending ?c ?d (_, mkWorld ?d' []) =>
      apply (Done c d status _ d' (mkEmit None "" (LikePayload "" "" "")));
        [cbn; in_list | by cbn]
  end.

Lemma call_ending (c : Call) (d : Db) : Ending c d (call c d).
Proof.
  destruct c as [io u cid ct | io u cid ct t par nid | io u cm t | io u cm | io u tg].
  - destruct (decide (engageable d ct cid)) as [He|Hne]; last first.
    { rewrite toggleLike_missing_content by done. refused. }
    destruct (likes d !! (u, cid)) as [ct'|] eqn:Hl.
    + destruct (decide (ct' = ct)) as [->|Hct].
      * rewrite toggleLike_removes by done. unfold like_wire.
        destruct io; carried_out 200.
      * rewrite (toggleLike_conflict io u cid ct ct') by done. refused.
    + rewrite toggleLike_creates by done. unfold like_wire.
      destruct io; carried_out 201.
  - destruct (decide (commentable d ct cid)) as [Hc|Hnc]; last first.
    { rewrite createComment_missing_content by done. refused. }
    assert (Hp : parent_ok d par ∨ ∃ p, par = Some p ∧ comments d !! p = None).
    { destruct par as [p|]; [| by left]. cbn.
      destruct (comments d !! p) eqn:Hp; [left; eauto | right; eauto]. }
    destruct Hp as [Hp | (p & -> & Hp)]; last first.
    { rewrite createComment_missing_parent by done. refused. }
    rewrite createComment_past_the_checks by done.
    destruct (Comment.validate ct (Comment.setText t)); [| refused].
    destruct (comments d !! nid); [refused |]. cbv zeta. carried_out 201.
  - rewrite updateComment_call.
    destruct (comments d !! cm) as [c0|]; [| refused].
    destruct (String.eqb (c_user c0) u); [| refused].
    destruct (Comment.validate (c_contentType c0) (Comment.setText t)); [| refused].
    cbv zeta. destruct io; [carried_out 200 | by apply Written_then_failed].
  - rewrite deleteComment_call.
    destruct (comments d !! cm) as [c0|]; [| refused].
    destruct (String.eqb (c_user c0) u); [| refused].
    cbv zeta. destruct io; [carried_out 200 | by apply Written_then_failed].
  - destruct (decide (u = tg)) as [->|Hne].
    { rewrite toggleFollow_self. refused. }
    destruct (users d !! tg) as [ud|] eqn:Hu; last first.
    { rewrite toggleFollow_missing_target by done. refused. }
    destruct (follows d !! (u, tg)) as [st|] eqn:Hf.
    + rewrite (toggleFollow_removes io u tg st) by (rewrite ?Hu; eauto).
      unfold follow_wire. destruct io; carried_out 200.
    + rewrite toggleFollow_creates by (rewrite ?Hu; eauto).
      unfold follow_wire. destruct io; carried_out 201.
Qed.

Lemma success_is_2xx (c : Call) (status : nat) :
  status ∈ success_statuses c → status = 200 ∨ status = 201.
Proof.
  destruct c; cbn; intros H;
    repeat (apply elem_of_cons in H as [->|H]; [auto |]); by apply elem_of_nil in H.
Qed.

Lemma refusal_is_4xx_5xx (c : Call) (status : nat) :
  status ∈ refusal_statuses c →
  status = 400 ∨ status = 403 ∨ status = 404 ∨ status = 500.
Proof.
  destruct c; cbn; intros H;
    repeat (apply elem_of_cons in H as [->|H]; [auto |]); by apply elem_of_nil in H.
Qed.

Lemma http_status_createError (status : nat) (msg : string) :
  status ≠ 0 → http_status (next (createError status msg)) = status.
Proof.
  intros H. cbn. unfold errorHandler. cbn.
  destruct (Nat.eqb_spec status 0); [done | reflexivity].
Qed.

Lemma http_status_refusal (c : Call) (err : HttpError) :
  statusCode err ∈ refusal_statuses c → http_status (next err) = statusCode err.
Proof.
  intros H. destruct err as [st msg]. cbn [statusCode] in *.
  apply (http_status_createError st msg).
  destruct (refusal_is_4xx_5xx c st H) as [-> | [-> | [-> | ->]]]; discriminate.
Qed.

(** X6. A request that is answered with an error status has left no
    trace, with one exception.  Whenever a call is answered 400 or above,
    the database is exactly as before and nothing has been emitted, unless
    the status is 500 and the call is an [updateComment] or [deleteComment]
    served without a socket server. *)
Theorem refusals_leave_no_trace (c : Call) (d : Db) (status : nat) :
  status_of c d = Some status →
  400 ≤ status →
  (status = 500 → emits_unguarded c = true → call_io c = true) →
  db_after c d = d ∧ emitted c d = [].
Proof.
  unfold status_of, reply_to, reply_of, db_after, emitted.
  intros Hst Hge Hexc. pose proof (call_ending c d) as H.
  destruct H as [err _ | st body d' e Hin _ | d' Hio Hun]; cbn in *.
  - done.
  - injection Hst as <-. destruct (success_is_2xx c st Hin) as [-> | ->]; lia.
  - injection Hst as <-. rewrite (Hexc eq_refl Hun) in Hio. discriminate.
Qed.

Lemma refusals_leave_no_trace_witness :
  status_of (ToggleFollow true "u1" "u9") db0_thread = Some 404
  ∧ 400 ≤ 404
  ∧ db_after (ToggleFollow true "u1" "u9") db0_thread = db0_thread
  ∧ emitted (ToggleFollow true "u1" "u9") db0_thread = [].
Proof.
  assert (Hst : status_of (ToggleFollow true "u1" "u9") db0_thread = Some 404)
    by (vm_compute; reflexivity).
  assert (Hge : 400 ≤ 404) by lia.
  split; [exact Hst |]. split; [exact Hge |].
  apply (refusals_leave_no_trace (ToggleFollow true "u1" "u9") db0_thread 404 Hst Hge).
  discriminate.
Defined.

(** X7. A call emits at most one event, and it emits one exactly when it
    is answered 200 or 201 and a socket server is attached. *)
Theorem one_event_per_success (c : Call) (d : Db) :
  length (emitted c d)
  = if call_io c && (answered 200 c d || answered 201 c d) then 1 else 0.
Proof.
  unfold answered, reply_to, reply_of, emitted. pose proof (call_ending c d) as H.
  destruct H as [err Hin | st body d' e Hin _ | d' Hio Hun]; cbn [fst snd wire].
  - rewrite (http_status_refusal c err Hin).
    destruct (refusal_is_4xx_5xx c _ Hin) as [-> | [-> | [-> | ->]]];
      cbn; by rewrite andb_false_r.
  - cbn [http_status].
    destruct (success_is_2xx c st Hin) as [-> | ->]; by destruct (call_io c).
  - cbn. by rewrite andb_false_r.
Qed.

(** X8. The unguarded [req.io.emit] of [updateComment] and [deleteComment]
    fails after the write.  Served without a socket server, a
    [deleteComment] by the author of an existing comment is answered 500
    although the row is gone and the parent's [repliesCount] is one lower,
    and an [updateComment] by the author with an acceptable text is
    answered 500 although the row now holds the new text with [isEdited]
    set. *)
Theorem unguarded_emit_fails_after_the_write :
  (∀ userId commentId c d,
     comments d !! commentId = Some c →
     c_user c = userId →
     reply_to (DeleteComment false userId commentId) d
       = Some (next (createError 500
           "Cannot read properties of undefined (reading 'emit')"))
     ∧ comments (db_after (DeleteComment false userId commentId) d) !! commentId = None
     ∧ (∀ p, c_parentComment c = Some p → p ≠ commentId →
          repliesCount (db_after (DeleteComment false userId commentId) d) p
            = (λ n, (n - 1)%Z) <$> repliesCount d p))
  ∧ (∀ userId commentId t c d,
       comments d !! commentId = Some c →
       c_user c = userId →
       c_contentType c ∈ Comment.contentType_enum →
       (1 ≤ String.length (Js.trim t) ≤ 1000)%nat →
       reply_to (UpdateComment false userId commentId (Some t)) d
         = Some (next (createError 500
             "Cannot read properties of undefined (reading 'emit')"))
       ∧ (c_text <$> comments (db_after (UpdateComment false userId commentId (Some t)) d)
                       !! commentId) = Some (Js.trim t)
       ∧ (c_isEdited <$> comments (db_after (UpdateComment false userId commentId (Some t)) d)
                           !! commentId) = Some true).
Proof.
  split.
  - intros u cm c d Hc Hu.
    assert (Heq : String.eqb (c_user c) u = true) by (rewrite Hu; apply String.eqb_refl).
    rewrite (deleteComment_db false u cm c d Hc Heq).
    unfold reply_to, reply_of. rewrite deleteComment_call, Hc, Heq.
    split; [done |]. split; [cbn; apply lookup_delete_eq |].
    intros p Hp Hne. rewrite Hp. unfold repliesCount. cbn.
    rewrite lookup_delete_ne, lookup_alter_eq by done.
    destruct (comments d !! p); cbn; [f_equal; lia | done].
  - intros u cm t c d Hc Hu Hct Hlen.
    unfold reply_to, reply_of, db_after.
    rewrite updateComment_call, Hc, Hu, String.eqb_refl, (validate_accepts _ t Hct Hlen).
    cbn. by rewrite lookup_alter_eq, Hc.
Qed.

Lemma unguarded_emit_fails_after_the_write_witness :
  (c_user <$> comments db0_thread !! "c2") = Some "u2"
  ∧ status_of (DeleteComment false "u2" "c2") db0_thread = Some 500
  ∧ comments (db_after (DeleteComment false "u2" "c2") db0_thread) !! "c2" = None
  ∧ repliesCount (db_after (DeleteComment false "u2" "c2") db0_thread) "c1" = Some 0%Z.
Proof.
  assert (Hc : comments db0_thread !! "c2"
               = Some (mkComment "u2" "v1" "Video" "hi" (Some "c1") 0 0 false true))
    by (vm_compute; reflexivity).
  destruct unguarded_emit_fails_after_the_write as [Hdel _].
  destruct (Hdel "u2" "c2" _ db0_thread Hc eq_refl) as (Hr & Hgone & Hcount).
  split; [by rewrite Hc |].
  split; [unfold status_of; by rewrite Hr |]. split; [exact Hgone |].
  rewrite (Hcount "c1" eq_refl ltac:(discriminate)). vm_compute. reflexivity.
Defined.

(** ** What every stored row looks like *)

Section KeepsWhatItDoesNotTouch.
Context (J : Db → Prop).

Section NotComments.
Hypothesis J_comments : ∀ d d', comments d' = comments d → J d → J d'.

Lemma untouched_Like_deleteOne l : preserves (on_db J) (Like.deleteOne l).
Proof. apply preserves_db_modifyDb. intros d. by apply J_comments. Qed.

Lemma untouched_Like_create user content contentType :
  preserves (on_db J) (Like.create user content contentType).
Proof.
  intros w Hw. unfold Like.create. step_async.
  destruct (Like.validate contentType); [| exact Hw]. cbn.
  destruct (likes (db w) !! (user, content)); [exact Hw |].
  by apply (J_comments (db w)).
Qed.

Lemma untouched_Follow_deleteOne f : preserves (on_db J) (Follow.deleteOne f).
Proof. apply preserves_db_modifyDb. intros d. by apply J_comments. Qed.

Lemma untouched_Follow_create follower following :
  preserves (on_db J) (Follow.create follower following).
Proof.
  intros w Hw. unfold Follow.create, Follow.preSave. step_async. cbn.
  destruct (String.eqb follower following); [exact Hw |]. cbn.
  destruct (follows (db w) !! (follower, following)); [exact Hw |].
  by apply (J_comments (db w)).
Qed.

Lemma untouched_User_updateOne _id update : preserves (on_db J) (User.updateOne _id update).
Proof. apply preserves_db_modifyDb. intros d. by apply J_comments. Qed.

End NotComments.

Section NotLedger.
Hypothesis J_ledger :
  ∀ d d', likes d' = likes d → follows d' = follows d → J d → J d'.

Lemma untouched_Comment_findByIdAndUpdate _id update :
  preserves (on_db J) (Comment.findByIdAndUpdate _id update).
Proof. apply preserves_db_modifyDb. intros d. by apply J_ledger. Qed.

Lemma untouched_Comment_deleteOne _id : preserves (on_db J) (Comment.deleteOne _id).
Proof. apply preserves_db_modifyDb. intros d. by apply J_ledger. Qed.

Lemma untouched_Comment_create _id user content contentType text parentComment :
  preserves (on_db J) (Comment.create _id user content contentType text parentComment).
Proof.
  intros w Hw. unfold Comment.create. step_async.
  destruct (Comment.validate contentType (Comment.setText text)); [| exact Hw]. cbn.
  destruct (comments (db w) !! _id); [exact Hw |]. by apply (J_ledger (db w)).
Qed.

Lemma untouched_Comment_save _id c text :
  preserves (on_db J) (Comment.save_text_isEdited _id c text).
Proof.
  unfold Comment.save_text_isEdited.
  destruct (Comment.validate (c_contentType c) (Comment.setText text)).
  - apply preserves_db_modifyDb. intros d. by apply J_ledger.
  - apply preserves_throw.
Qed.

Lemma untouched_ledger_User_updateOne _id update :
  preserves (on_db J) (User.updateOne _id update).
Proof. apply preserves_db_modifyDb. intros d. by apply J_ledger. Qed.

End NotLedger.
End KeepsWhatItDoesNotTouch.

Lemma comment_ok_inc_repliesCount n c : comment_ok c → comment_ok (Comment.inc_repliesCount n c).
Proof. by intros (? & ? & ? & ?). Qed.

Lemma comments_ok_Comment_findByIdAndUpdate _id n :
  preserves (on_db comments_ok) (Comment.findByIdAndUpdate _id (Comment.inc_repliesCount n)).
Proof.
  apply preserves_db_modifyDb. intros d Hd id c. cbn.
  rewrite lookup_alter. case_decide; [subst | apply Hd].
  destruct (comments d !! id) as [c0|] eqn:Hc; cbn; [| done].
  intros [= <-]. apply comment_ok_inc_repliesCount. by apply (Hd id).
Qed.

Lemma comments_ok_Comment_deleteOne _id : preserves (on_db comments_ok) (Comment.deleteOne _id).
Proof.
  apply preserves_db_modifyDb. intros d Hd id c. cbn.
  intros [_ H]%lookup_delete_Some. by apply (Hd id).
Qed.

Lemma comments_ok_Comment_create _id user content contentType text parentComment :
  preserves (on_db comments_ok)
    (Comment.create _id user content contentType text parentComment).
Proof.
  intros w Hw. unfold Comment.create. step_async.
  destruct (Comment.validate contentType (Comment.setText text)) eqn:Hv; [| exact Hw].
  cbn. destruct (comments (db w) !! _id) eqn:Hid; [exact Hw |].
  destruct (validate_accepted _ _ Hv) as (Hct & t & -> & Ht).
  intros id c. cbn. rewrite lookup_insert. case_decide; [subst | apply Hw].
  intros [= <-]. split; [done | split; [done | split; [exact Hct | exact Ht]]].
Qed.

Lemma comments_ok_Comment_save _id c text :
  preserves (on_db comments_ok) (Comment.save_text_isEdited _id c text).
Proof.
  unfold Comment.save_text_isEdited.
  destruct (Comment.validate (c_contentType c) (Comment.setText text)) eqn:Hv;
    [| apply preserves_throw].
  destruct (validate_accepted _ _ Hv) as (_ & t & -> & Ht).
  apply preserves_db_modifyDb. intros d Hd id c'. cbn.
  rewrite lookup_alter. case_decide; [subst | apply Hd].
  destruct (comments d !! id) as [c0|] eqn:Hc0; cbn; [| done].
  intros [= <-]. destruct (Hd id c0 Hc0) as (Hact & Hlikes & Hct0 & _).
  split; [exact Hact | split; [exact Hlikes | split; [exact Hct0 | exact Ht]]].
Qed.

Lemma comments_ok_frame d d' : comments d' = comments d → comments_ok d → comments_ok d'.
Proof. unfold comments_ok. by intros ->. Qed.

Lemma comments_ok_Like_deleteOne l : preserves (on_db comments_ok) (Like.deleteOne l).
Proof. apply untouched_Like_deleteOne, comments_ok_frame. Qed.

Lemma comments_ok_Like_create user content contentType :
  preserves (on_db comments_ok) (Like.create user content contentType).
Proof. apply untouched_Like_create, comments_ok_frame. Qed.

Lemma comments_ok_Follow_deleteOne f : preserves (on_db comments_ok) (Follow.deleteOne f).
Proof. apply untouched_Follow_deleteOne, comments_ok_frame. Qed.

Lemma comments_ok_Follow_create follower following :
  preserves (on_db comments_ok) (Follow.create follower following).
Proof. apply untouched_Follow_create, comments_ok_frame. Qed.

Lemma comments_ok_User_updateOne _id update :
  preserves (on_db comments_ok) (User.updateOne _id update).
Proof. apply untouched_User_updateOne, comments_ok_frame. Qed.

#[local] Hint Resolve comments_ok_Comment_findByIdAndUpdate comments_ok_Comment_deleteOne
  comments_ok_Comment_create comments_ok_Comment_save comments_ok_Like_deleteOne
  comments_ok_Like_create comments_ok_Follow_deleteOne comments_ok_Follow_create
  comments_ok_User_updateOne : preserves_ops.

Lemma comments_ok_handle (c : Call) : preserves (on_db comments_ok) (handle c).
Proof.
  destruct c; cbn [handle];
    unfold toggleLike, toggleLike_write, createComment, updateComment, deleteComment,
      toggleFollow, likeContentExists, commentContentExists, Video.exists_,
      Article.exists_, User.exists_, Comment.exists_, Comment.findById,
      Comment.findById_populated, Like.findOne, Follow.findOne;
    preserves_steps.
Qed.

(** X9. In every reachable database every comment row is active, has
    [likesCount] 0, has content type Video or Article, and holds a text
    that is trimmed, not empty and at most 1000 code units long: no handler
    ever clears [active] or touches [likesCount], not even [toggleLike] on
    a comment, and no edit gets an unvalidated text into a row. *)
Theorem reachable_comments_ok (d : Db) (id : ObjectId) (c : CommentDoc) :
  reachable d →
  comments d !! id = Some c →
  c_active c = true
  ∧ c_likesCount c = 0%Z
  ∧ (c_contentType c = "Video" ∨ c_contentType c = "Article")
  ∧ Js.trim (c_text c) = c_text c
  ∧ (1 ≤ String.length (c_text c) ≤ 1000)%nat.
Proof.
  intros Hr. revert id c.
  assert (H : comments_ok d).
  { induction Hr as [us vs ars | call0 d _ IH | us vs ars d _ IH].
    - intros id c. cbn. by rewrite lookup_empty.
    - by apply (comments_ok_handle call0 (mkWorld d [])).
    - exact IH. }
  intros id c Hc. destruct (H id c Hc) as (Hact & Hl & Hct & Htrim & Hlen).
  split; [exact Hact |]. split; [exact Hl |]. split; [| by split].
  unfold Comment.contentType_enum in Hct.
  apply elem_of_cons in Hct as [-> | Hct]; [by left |].
  apply elem_of_cons in Hct as [-> | Hct]; [by right | by apply elem_of_nil in Hct].
Qed.

Lemma reachable_comments_ok_witness :
  reachable (db_after (ToggleLike true "u1" "c2" "Comment")
               (db_after (UpdateComment true "u2" "c2" (Some " edited ")) db0_thread))
  ∧ comments (db_after (ToggleLike true "u1" "c2" "Comment")
                (db_after (UpdateComment true "u2" "c2" (Some " edited ")) db0_thread))
      !! "c2"
    = Some (mkComment "u2" "v1" "Video" "edited" (Some "c1") 0 0 true true)
  ∧ c_likesCount (mkComment "u2" "v1" "Video" "edited" (Some "c1") 0 0 true true) = 0%Z.
Proof.
  assert (Hr : reachable (db_after (ToggleLike true "u1" "c2" "Comment")
               (db_after (UpdateComment true "u2" "c2" (Some " edited ")) db0_thread))).
  { do 2 apply reach_call. unfold db0_thread. cbn [run].
    do 2 apply reach_call. apply reach_start. }
  assert (Hc : comments (db_after (ToggleLike true "u1" "c2" "Comment")
                (db_after (UpdateComment true "u2" "c2" (Some " edited ")) db0_thread))
               !! "c2"
             = Some (mkComment "u2" "v1" "Video" "edited" (Some "c1") 0 0 true true))
    by (vm_compute; reflexivity).
  split; [exact Hr |]. split; [exact Hc |].
  exact (proj1 (proj2 (reachable_comments_ok _ _ _ Hr Hc))).
Defined.

Lemma ledger_ok_frame d d' :
  likes d' = likes d → follows d' = follows d → ledger_ok d → ledger_ok d'.
Proof. unfold ledger_ok. by intros -> ->. Qed.

Lemma Like_validate_accepted (contentType : string) :
  Like.validate contentType = [] → contentType ∈ Like.contentType_enum.
Proof.
  unfold Like.validate, Like.contentType_enum. cbn [existsb].
  destruct (String.eqb_spec contentType "Video") as [->|_]; [intros _; in_list |].
  destruct (String.eqb_spec contentType "Comment") as [->|_]; [intros _; in_list |].
  destruct (String.eqb_spec contentType "Article") as [->|_]; [intros _; in_list |].
  cbn. discriminate.
Qed.

Lemma ledger_ok_Like_create user content contentType :
  preserves (on_db ledger_ok) (Like.create user content contentType).
Proof.
  intros w [Hl Hf]. unfold Like.create. step_async.
  destruct (Like.validate contentType) eqn:Hv; [| by split]. cbn.
  destruct (likes (db w) !! (user, content)); [by split |]. cbn.
  split; [| exact Hf]. intros k ct. cbn. rewrite lookup_insert.
  case_decide; [intros [= <-]; by apply Like_validate_accepted | apply Hl].
Qed.

Lemma ledger_ok_Like_deleteOne l : preserves (on_db ledger_ok) (Like.deleteOne l).
Proof.
  apply preserves_db_modifyDb. intros d [Hl Hf]. split; [| exact Hf].
  intros k ct. cbn. intros [_ H]%lookup_delete_Some. by apply (Hl k).
Qed.

Lemma ledger_ok_Follow_create follower following :
  preserves (on_db ledger_ok) (Follow.create follower following).
Proof.
  intros w [Hl Hf]. unfold Follow.create, Follow.preSave. step_async. cbn.
  destruct (String.eqb follower following); [by split |]. cbn.
  destruct (follows (db w) !! (follower, following)); [by split |]. cbn.
  split; [exact Hl |]. intros k st. cbn. rewrite lookup_insert.
  case_decide; [by intros [= <-] | apply Hf].
Qed.

Lemma ledger_ok_Follow_deleteOne f : preserves (on_db ledger_ok) (Follow.deleteOne f).
Proof.
  apply preserves_db_modifyDb. intros d [Hl Hf]. split; [exact Hl |].
  intros k st. cbn. intros [_ H]%lookup_delete_Some. by apply (Hf k).
Qed.

Lemma ledger_ok_Comment_findByIdAndUpdate _id update :
  preserves (on_db ledger_ok) (Comment.findByIdAndUpdate _id update).
Proof. apply untouched_Comment_findByIdAndUpdate, ledger_ok_frame. Qed.

Lemma ledger_ok_Comment_deleteOne _id : preserves (on_db ledger_ok) (Comment.deleteOne _id).
Proof. apply untouched_Comment_deleteOne, ledger_ok_frame. Qed.

Lemma ledger_ok_Comment_create _id user content contentType text parentComment :
  preserves (on_db ledger_ok)
    (Comment.create _id user content contentType text parentComment).
Proof. apply untouched_Comment_create, ledger_ok_frame. Qed.

Lemma ledger_ok_Comment_save _id c text :
  preserves (on_db ledger_ok) (Comment.save_text_isEdited _id c text).
Proof. apply untouched_Comment_save, ledger_ok_frame. Qed.

Lemma ledger_ok_User_updateOne _id update :
  preserves (on_db ledger_ok) (User.updateOne _id update).
Proof. apply untouched_ledger_User_updateOne, ledger_ok_frame. Qed.

#[local] Hint Resolve ledger_ok_Like_create ledger_ok_Like_deleteOne
  ledger_ok_Follow_create ledger_ok_Follow_deleteOne
  ledger_ok_Comment_findByIdAndUpdate ledger_ok_Comment_deleteOne
  ledger_ok_Comment_create ledger_ok_Comment_save ledger_ok_User_updateOne
  : preserves_ops.

Lemma ledger_ok_handle (c : Call) : preserves (on_db ledger_ok) (handle c).
Proof.
  destruct c; cbn [handle];
    unfold toggleLike, toggleLike_write, createComment, updateComment, deleteComment,
      toggleFollow, likeContentExists, commentContentExists, Video.exists_,
      Article.exists_, User.exists_, Comment.exists_, Comment.findById,
      Comment.findById_populated, Like.findOne, Follow.findOne;
    preserves_steps.
Qed.

(** X10. In every reachable database every Follow row has status
    "active" (no handler ever writes "blocked") and every Like row has
    content type Video, Comment or Article. *)
Theorem reachable_ledger_ok (d : Db) :
  reachable d →
  (∀ follower following status,
     follows d !! (follower, following) = Some status → status = "active")
  ∧ (∀ user content contentType,
       likes d !! (user, content) = Some contentType →
       contentType = "Video" ∨ contentType = "Comment" ∨ contentType = "Article").
Proof.
  intros Hr.
  assert (H : ledger_ok d).
  { induction Hr as [us vs ars | call0 d _ IH | us vs ars d _ IH].
    - split; intros k x; cbn; by rewrite lookup_empty.
    - by apply (ledger_ok_handle call0 (mkWorld d [])).
    - exact IH. }
  destruct H as [Hl Hf]. split.
  - intros a b st. apply Hf.
  - intros u c ct Hct. apply Hl in Hct. unfold Like.contentType_enum in Hct.
    apply elem_of_cons in Hct as [-> | Hct]; [by left |].
    apply elem_of_cons in Hct as [-> | Hct]; [by right; left |].
    apply elem_of_cons in Hct as [-> | Hct]; [by right; right | by apply elem_of_nil in Hct].
Qed.

Lemma reachable_ledger_ok_witness :
  reachable (db_after (ToggleFollow true "u1" "u2") db0)
  ∧ follows (db_after (ToggleFollow true "u1" "u2") db0) !! ("u1", "u2") = Some "active".
Proof.
  assert (Hr : reachable (db_after (ToggleFollow true "u1" "u2") db0))
    by (apply reach_call, reach_start).
  split; [exact Hr |].
  destruct (follows (db_after (ToggleFollow true "u1" "u2") db0) !! ("u1", "u2"))
    as [st|] eqn:Hst; [| vm_compute in Hst; discriminate].
  by rewrite (proj1 (reachable_ledger_ok _ Hr) "u1" "u2" st Hst).
Defined.

(** ** The follower counters against the Follow rows *)

Section CountRows.
Context (Q : (string * string) * string → Prop) `{!∀ x, Decision (Q x)}.
Implicit Types m : gmap (string * string) string.

Lemma count_insert_fresh m k v :
  m !! k = None →
  size (filter Q (<[k:=v]> m)) = if decide (Q (k, v)) then S (size (filter Q m))
                                 else size (filter Q m).
Proof.
  intros Hk. case_decide as HQ.
  - rewrite map_filter_insert_True by done.
    apply map_size_insert_None. apply map_lookup_filter_None. by left.
  - rewrite map_filter_insert_False, delete_id by done. reflexivity.
Qed.

Lemma count_delete_present m k v :
  m !! k = Some v →
  size (filter Q m) = if decide (Q (k, v)) then S (size (filter Q (delete k m)))
                      else size (filter Q (delete k m)).
Proof.
  intros Hk. rewrite <- (insert_delete_id m k v Hk) at 1.
  apply count_insert_fresh. apply lookup_delete_eq.
Qed.

End CountRows.

Section KeepsUsersAndFollows.
Context (J : Db → Prop).
Hypothesis J_frame : ∀ d d', users d' = users d → follows d' = follows d → J d → J d'.

Lemma uf_Like_deleteOne l : preserves (on_db J) (Like.deleteOne l).
Proof. apply preserves_db_modifyDb. intros d. by apply J_frame. Qed.

Lemma uf_Like_create user content contentType :
  preserves (on_db J) (Like.create user content contentType).
Proof.
  intros w Hw. unfold Like.create. step_async.
  destruct (Like.validate contentType); [| exact Hw]. cbn.
  destruct (likes (db w) !! (user, content)); [exact Hw |].
  by apply (J_frame (db w)).
Qed.

Lemma uf_Comment_findByIdAndUpdate _id update :
  preserves (on_db J) (Comment.findByIdAndUpdate _id update).
Proof. apply preserves_db_modifyDb. intros d. by apply J_frame. Qed.

Lemma uf_Comment_deleteOne _id : preserves (on_db J) (Comment.deleteOne _id).
Proof. apply preserves_db_modifyDb. intros d. by apply J_frame. Qed.

Lemma uf_Comment_create _id user content contentType text parentComment :
  preserves (on_db J) (Comment.create _id user content contentType text parentComment).
Proof.
  intros w Hw. unfold Comment.create. step_async.
  destruct (Comment.validate contentType (Comment.setText text)); [| exact Hw]. cbn.
  destruct (comments (db w) !! _id); [exact Hw |]. by apply (J_frame (db w)).
Qed.

Lemma uf_Comment_save _id c text :
  preserves (on_db J) (Comment.save_text_isEdited _id c text).
Proof.
  unfold Comment.save_text_isEdited.
  destruct (Comment.validate (c_contentType c) (Comment.setText text)).
  - apply preserves_db_modifyDb. intros d. by apply J_frame.
  - apply preserves_throw.
Qed.

Lemma uf_likes_and_comments (c : Call) :
  (∀ io u t, c ≠ ToggleFollow io u t) → preserves (on_db J) (handle c).
Proof.
  pose proof uf_Like_deleteOne. pose proof uf_Like_create.
  pose proof uf_Comment_findByIdAndUpdate. pose proof uf_Comment_deleteOne.
  pose proof uf_Comment_create. pose proof uf_Comment_save.
  intros Hc. destruct c; cbn [handle]; [| | | | by destruct (Hc io userId targetUserId)];
    unfold toggleLike, toggleLike_write, createComment, updateComment, deleteComment,
      likeContentExists, commentContentExists, Video.exists_,
      Article.exists_, Comment.exists_, Comment.findById,
      Comment.findById_populated, Like.findOne;
    preserves_steps; auto.
Qed.

End KeepsUsersAndFollows.

Lemma likes_and_comments_keep_users_follows (c : Call) (d : Db) :
  (∀ io u t, c ≠ ToggleFollow io u t) →
  users (db_after c d) = users d ∧ follows (db_after c d) = follows d.
Proof.
  intros Hc.
  apply (uf_likes_and_comments (λ d', users d' = users d ∧ follows d' = follows d)
           ltac:(intros d0 d' Hu Hf [H1 H2]; split; congruence) c Hc (mkWorld d [])).
  by split.
Qed.

Lemma stats_after_follow_writes (nf ng : Z) (u tg T : ObjectId) (d : Db) :
  u ≠ tg →
  let d' := with_users (alter (User.inc_following ng) u)
              (with_users (alter (User.inc_followers nf) tg) d) in
  stats_followers d' T
    = (λ n, if decide (tg = T) then (n + nf)%Z else n) <$> stats_followers d T
  ∧ stats_following d' T
    = (λ n, if decide (u = T) then (n + ng)%Z else n) <$> stats_following d T.
Proof.
  intros Hne d'. unfold d', stats_followers, stats_following. cbn.
  rewrite !lookup_alter. repeat case_decide; subst; try done;
    destruct (users d !! T); done.
Qed.

Lemma toggleFollow_keeps_counters io u tg d T :
  counters_agree d T → counters_agree (db_after (ToggleFollow io u tg) d) T.
Proof.
  intros [Hfr Hfg]. unfold db_after.
  destruct (decide (u = tg)) as [->|Hne]; [by rewrite toggleFollow_self |].
  destruct (users d !! tg) as [ud|] eqn:Hu; last first.
  { by rewrite toggleFollow_missing_target. }
  destruct (follows d !! (u, tg)) as [st|] eqn:Hf.
  - rewrite (toggleFollow_removes io u tg st) by (rewrite ?Hu; eauto). cbn [snd db].
    destruct (stats_after_follow_writes (-1) (-1) u tg T
                (with_follows (delete (u, tg)) d) Hne) as [H1 H2].
    cbv zeta in H1, H2. unfold counters_agree. rewrite H1, H2. clear H1 H2.
    change (stats_followers (with_follows (delete (u, tg)) d) T)
      with (stats_followers d T).
    change (stats_following (with_follows (delete (u, tg)) d) T)
      with (stats_following d T).
    rewrite Hfr, Hfg. unfold followers_count, following_count. cbn.
    rewrite (count_delete_present (λ kv, kv.1.2 = T) (follows d) (u, tg) st Hf).
    rewrite (count_delete_present (λ kv, kv.1.1 = T) (follows d) (u, tg) st Hf).
    cbn. split; f_equal; repeat case_decide; try done; lia.
  - rewrite toggleFollow_creates by (rewrite ?Hu; eauto). cbn [snd db].
    destruct (stats_after_follow_writes 1 1 u tg T
                (with_follows (insert (u, tg) "active") d) Hne) as [H1 H2].
    cbv zeta in H1, H2. unfold counters_agree. rewrite H1, H2. clear H1 H2.
    change (stats_followers (with_follows (insert (u, tg) "active") d) T)
      with (stats_followers d T).
    change (stats_following (with_follows (insert (u, tg) "active") d) T)
      with (stats_following d T).
    rewrite Hfr, Hfg. unfold followers_count, following_count. cbn.
    rewrite (count_insert_fresh (λ kv, kv.1.2 = T) (follows d) (u, tg) "active" Hf).
    rewrite (count_insert_fresh (λ kv, kv.1.1 = T) (follows d) (u, tg) "active" Hf).
    cbn. split; f_equal; repeat case_decide; try done; lia.
Qed.

Lemma call_keeps_counters (c : Call) (d : Db) (T : ObjectId) :
  counters_agree d T → counters_agree (db_after c d) T.
Proof.
  intros H.
  assert (Hcases : (∃ io u t, c = ToggleFollow io u t) ∨ ∀ io u t, c ≠ ToggleFollow io u t).
  { destruct c; [right | right | right | right | left]; try discriminate; eauto. }
  destruct Hcases as [(io & u & t & ->) | Hc]; [by apply toggleFollow_keeps_counters |].
  destruct (likes_and_comments_keep_users_follows c d Hc) as [Hu Hf].
  unfold counters_agree, stats_followers, stats_following, followers_count,
    following_count in *. by rewrite Hu, Hf.
Qed.

(** X11. The follower counters track the Follow rows.  If a user's
    [stats.followers] equals the number of Follow rows that point to the
    user and [stats.following] the number of rows that start at the user,
    both still hold after any sequence of engagement requests served one
    after the other, whoever makes them. *)
Theorem counters_track_follow_rows (cs : list Call) (d : Db) (userId : ObjectId) :
  stats_followers d userId = Some (Z.of_nat (followers_count d userId)) →
  stats_following d userId = Some (Z.of_nat (following_count d userId)) →
  stats_followers (run cs d) userId = Some (Z.of_nat (followers_count (run cs d) userId))
  ∧ stats_following (run cs d) userId
    = Some (Z.of_nat (following_count (run cs d) userId)).
Proof.
  intros H1 H2. assert (H : counters_agree d userId) by (by split). clear H1 H2.
  revert d H. induction cs as [|c cs IH]; intros d H; [exact H |].
  cbn [run]. apply IH. by apply call_keeps_counters.
Qed.

Lemma counters_track_follow_rows_witness :
  stats_followers db0 "u2" = Some (Z.of_nat (followers_count db0 "u2"))
  ∧ stats_following db0 "u2" = Some (Z.of_nat (following_count db0 "u2"))
  ∧ followers_count
      (run [ToggleFollow true "u1" "u2"; ToggleFollow true "u2" "u1";
            ToggleLike true "u1" "v1" "Video"] db0) "u2" = 1
  ∧ stats_followers
      (run [ToggleFollow true "u1" "u2"; ToggleFollow true "u2" "u1";
            ToggleLike true "u1" "v1" "Video"] db0) "u2" = Some 1%Z.
Proof.
  assert (H1 : stats_followers db0 "u2" = Some (Z.of_nat (followers_count db0 "u2")))
    by (vm_compute; reflexivity).
  assert (H2 : stats_following db0 "u2" = Some (Z.of_nat (following_count db0 "u2")))
    by (vm_compute; reflexivity).
  assert (Hn : followers_count
      (run [ToggleFollow true "u1" "u2"; ToggleFollow true "u2" "u1";
            ToggleLike true "u1" "v1" "Video"] db0) "u2" = 1)
    by (vm_compute; reflexivity).
  split; [exact H1 |]. split; [exact H2 |]. split; [exact Hn |].
  destruct (counters_track_follow_rows
              [ToggleFollow true "u1" "u2"; ToggleFollow true "u2" "u1";
               ToggleLike true "u1" "v1" "Video"] db0 "u2" H1 H2) as [Hf _].
  rewrite Hf, Hn. reflexivity.
Defined.

(** * The read handlers and what they page through *)

Example parseInt_examples :
  JsNumber.parseInt (Some "12") None = Some 12%Z
  ∧ JsNumber.parseInt (Some "  -7px") None = Some (-7)%Z
  ∧ JsNumber.parseInt (Some "0x1F") None = Some 31%Z
  ∧ JsNumber.parseInt (Some "0x1F") (Some 10%Z) = Some 0%Z
  ∧ JsNumber.parseInt (Some "abc") None = None
  ∧ JsNumber.parseInt (Some "") (Some 10%Z) = None
  ∧ JsNumber.parseInt None None = None
  ∧ JsNumber.ceil_div 7 2 = 4%Z
  ∧ JsNumber.ceil_div 0 5 = 0%Z.
Proof. repeat split; vm_compute; reflexivity. Qed.

(** ** Sorting and paging *)

Lemma insert_desc_perm {A} (key : A → Z) (x : A) (l : list A) :
  Cursor.insert_desc key x l ≡ₚ x :: l.
Proof.
  induction l as [|y r IH]; cbn; [done |].
  destruct (key y <? key x)%Z; [done |]. rewrite IH. apply Permutation_swap.
Qed.

Lemma sort_desc_perm {A} (key : A → Z) (l : list A) : Cursor.sort_desc key l ≡ₚ l.
Proof.
  unfold Cursor.sort_desc. induction l as [|x l IH]; cbn; [done |].
  by rewrite insert_desc_perm, IH.
Qed.








(** ** The follower listings and the profile counters *)

Lemma ledger_ok_reachable (d : Db) : reachable d → ledger_ok d.
Proof.
  intros Hr. induction Hr as [us vs ars | call0 d _ IH | us vs ars d _ IH].
  - split; intros k x; cbn; by rewrite lookup_empty.
  - by apply (ledger_ok_handle call0 (mkWorld d [])).
  - exact IH.
Qed.

Lemma reachable_run (cs : list Call) (d : Db) : reachable d → reachable (run cs d).
Proof.
  revert d. induction cs as [|c cs IH]; intros d Hr; [exact Hr |].
  cbn [run]. apply IH. by constructor.
Qed.

Lemma counters_agree_run (cs : list Call) (d : Db) (T : ObjectId) :
  counters_agree d T → counters_agree (run cs d) T.
Proof.
  revert d. induction cs as [|c cs IH]; intros d H; [exact H |].
  cbn [run]. apply IH. by apply call_keeps_counters.
Qed.

Lemma active_followers_count (d : Db) (userId : ObjectId) :
  ledger_ok d →
  size (filter (followers_filter userId) (follows d)) = followers_count d userId.
Proof.
  intros [_ Hst]. unfold followers_count. f_equal.
  apply map_filter_ext. intros k st Hk. unfold followers_filter. cbn.
  split; [by intros [? _] | intros ?; split; [done | by eapply Hst]].
Qed.

Lemma active_following_count (d : Db) (userId : ObjectId) :
  ledger_ok d →
  size (filter (following_filter userId) (follows d)) = following_count d userId.
Proof.
  intros [_ Hst]. unfold following_count. f_equal.
  apply map_filter_ext. intros k st Hk. unfold following_filter. cbn.
  split; [by intros [? _] | intros ?; split; [done | by eapply Hst]].
Qed.

Lemma find_follows_length followedAt (Q : (string * string) * string → Prop)
    `{!∀ kv, Decision (Q kv)} (d : Db) :
  length (find_follows followedAt Q d) = size (filter Q (follows d)).
Proof.
  unfold find_follows. rewrite (Permutation_length (sort_desc_perm _ _)).
  apply length_map_to_list.
Qed.

(** X13. The totals of the follower listings are the profile counters.
    From a reachable database in which a user's [stats.followers] and
    [stats.following] equal the numbers of Follow rows to and from the
    user, after any sequence of engagement requests served one after the
    other, [getFollowers] and [getFollowing] for a page of at least 1 and
    a page size of at least 1 (1 and 20 when the query gives none) whose
    product is a safe integer, so that [parseInt] and [(page - 1) * limit]
    are exact, answer with [pagination.total] equal to the user's
    [stats.followers] and [stats.following], [pages = ceil(total /
    limit)], and at most [limit] users. *)
Theorem follow_listings_match_counters
    (followedAt : ObjectId * ObjectId → Z) (cs : list Call) (d : Db)
    (userId : ObjectId) (pageQ limitQ : option string) :
  let page := JsNumber.or_default (JsNumber.parseInt pageQ None) 1 in
  let limit := JsNumber.or_default (JsNumber.parseInt limitQ None) 20 in
  reachable d →
  stats_followers d userId = Some (Z.of_nat (followers_count d userId)) →
  stats_following d userId = Some (Z.of_nat (following_count d userId)) →
  (1 ≤ page)%Z →
  (1 ≤ limit)%Z →
  (page * limit ≤ JsSafe.MAX_SAFE_INTEGER)%Z →
  ∃ (followers following : list (option UserDoc)) (nfollowers nfollowing : Z),
    getFollowers followedAt userId pageQ limitQ (run cs d)
      = Some (mkPage followers
                (mkPagination page (JsNumber.ceil_div nfollowers limit) nfollowers))
    ∧ getFollowing followedAt userId pageQ limitQ (run cs d)
      = Some (mkPage following
                (mkPagination page (JsNumber.ceil_div nfollowing limit) nfollowing))
    ∧ stats_followers (run cs d) userId = Some nfollowers
    ∧ stats_following (run cs d) userId = Some nfollowing
    ∧ (Z.of_nat (length followers) ≤ limit)%Z
    ∧ (Z.of_nat (length following) ≤ limit)%Z.
Proof.
  intros page limit Hr H1 H2 Hpage Hlimit _.
  assert (Hl : ledger_ok (run cs d)) by (by apply ledger_ok_reachable, reachable_run).
  destruct (counters_agree_run cs d userId (conj H1 H2)) as [Hc1 Hc2].
  unfold getFollowers, getFollowing. fold page limit.
  unfold Cursor.skip_limit.
  destruct (Z.leb_spec 0 ((page - 1) * limit)) as [_|]; [| nia].
  destruct (Z.leb_spec 1 limit) as [_|]; [| lia]. cbn.
  rewrite (active_followers_count _ _ Hl), (active_following_count _ _ Hl).
  do 4 eexists. split; [reflexivity |]. split; [reflexivity |].
  split; [exact Hc1 |]. split; [exact Hc2 |].
  rewrite !length_fmap, !length_take. lia.
Qed.

Lemma follow_listings_match_counters_witness :
  pg_total <$> (page_pagination <$>
     getFollowers (λ _, 0%Z) "u2" None (Some "5")
       (run [ToggleFollow true "u1" "u2"; ToggleFollow true "u2" "u1"] db0)) = Some 1%Z
  ∧ stats_followers (run [ToggleFollow true "u1" "u2"; ToggleFollow true "u2" "u1"] db0) "u2"
    = Some 1%Z.
Proof.
  assert (Hr : reachable db0) by constructor.
  destruct (follow_listings_match_counters (λ _, 0%Z)
              [ToggleFollow true "u1" "u2"; ToggleFollow true "u2" "u1"] db0 "u2"
              None (Some "5") Hr)
    as (fs & gs & n & m & Hfs & _ & Hn & _).
  - vm_compute. reflexivity.
  - vm_compute. reflexivity.
  - apply Z.leb_le. vm_compute. reflexivity.
  - apply Z.leb_le. vm_compute. reflexivity.
  - apply Z.leb_le. vm_compute. reflexivity.
  - assert (Hs : stats_followers
              (run [ToggleFollow true "u1" "u2"; ToggleFollow true "u2" "u1"] db0) "u2"
            = Some 1%Z) by (vm_compute; reflexivity).
    rewrite Hs in Hn. injection Hn as <-.
    rewrite Hfs. split; [reflexivity | exact Hs].
Defined.

(** ** A new comment and the listings *)

Section CountFiltered.
Context `{Countable K} {A : Type} (Q : K * A → Prop) `{!∀ x, Decision (Q x)}.
Implicit Types m : gmap K A.

Lemma size_filter_insert_fresh m k v :
  m !! k = None →
  size (filter Q (<[k:=v]> m)) = if decide (Q (k, v)) then S (size (filter Q m))
                                 else size (filter Q m).
Proof.
  intros Hk. case_decide as HQ.
  - rewrite map_filter_insert_True by done.
    apply map_size_insert_None. apply map_lookup_filter_None. by left.
  - rewrite map_filter_insert_False, delete_id by done. reflexivity.
Qed.

Lemma size_filter_alter m (f : A → A) k :
  (∀ v, Q (k, f v) ↔ Q (k, v)) →
  size (filter Q (alter f k m)) = size (filter Q m).
Proof.
  intros Hf. destruct (m !! k) as [v|] eqn:Hk; last first.
  { f_equal. f_equal. apply map_eq. intros j.
    destruct (decide (j = k)) as [->|Hj];
      [by rewrite lookup_alter_eq, Hk | by rewrite lookup_alter_ne]. }
  assert (Ha : alter f k m = <[k:=f v]> (delete k m)).
  { apply map_eq. intros j. destruct (decide (j = k)) as [->|Hj].
    - by rewrite lookup_alter_eq, Hk, lookup_insert_eq.
    - by rewrite lookup_alter_ne, lookup_insert_ne, lookup_delete_ne. }
  assert (Hm : size (filter Q m)
               = if decide (Q (k, v)) then S (size (filter Q (delete k m)))
                 else size (filter Q (delete k m))).
  { rewrite <- (insert_delete_id m k v Hk) at 1.
    apply size_filter_insert_fresh, lookup_delete_eq. }
  rewrite Ha, Hm, size_filter_insert_fresh by apply lookup_delete_eq.
  destruct (decide (Q (k, f v))) as [H1|H1], (decide (Q (k, v))) as [H2|H2];
    try reflexivity; exfalso; [apply H2 | apply H1]; by apply Hf.
Qed.

End CountFiltered.

(** X14. A comment that is created is counted by its own listing and by
    no other.  After a [createComment] answered 201, the [total] that
    [getComments] reports for the new comment's content, content type and
    parent is one higher than before, for every page and page size asked
    for; for any other content, content type or parent it is what it was;
    and the new row is among the documents of its listing. *)
Theorem created_comment_is_listed
    (commentedAt : ObjectId → Z)
    (io : bool) (userId contentId : ObjectId) (contentType t : string)
    (parentComment : option ObjectId) (newId : ObjectId) (d : Db) :
  commentable d contentType contentId →
  parent_ok d parentComment →
  (1 ≤ String.length (Js.trim t) ≤ 1000)%nat →
  comments d !! newId = None →
  let c := CreateComment io userId contentId contentType (Some t) parentComment newId in
  let row := mkComment userId contentId contentType (Js.trim t) parentComment
               0 0 false true in
  (∀ (content : ObjectId) (type : string) (parent : option ObjectId)
     (pageQ limitQ : option string),
     pg_total <$> (page_pagination <$>
       getComments commentedAt content type parent pageQ limitQ (db_after c d))
     = (λ n, if decide (content = contentId ∧ type = contentType ∧ parent = parentComment)
             then (n + 1)%Z else n)
         <$> (pg_total <$> (page_pagination <$>
                getComments commentedAt content type parent pageQ limitQ d)))
  ∧ (newId, row) ∈ find_comments commentedAt contentId contentType parentComment
                     (db_after c d).
Proof.
  intros Hc Hp Hlen Hnew c row.
  assert (Hct : contentType ∈ Comment.contentType_enum).
  { unfold Comment.contentType_enum.
    destruct Hc as [[-> _]|[-> _]];
      [apply elem_of_cons; by left | apply elem_of_cons; right; apply elem_of_cons; by left]. }
  pose proof (createComment_past_the_checks io userId contentId contentType (Some t)
                parentComment newId d Hc Hp) as Hcall.
  rewrite (validate_accepts _ t Hct Hlen), Hnew in Hcall. cbv zeta in Hcall.
  cbn [Comment.setText fmap option_fmap option_map default from_option] in Hcall.
  unfold id in Hcall. fold row in Hcall.
  assert (Hrows : ∃ f : CommentDoc → CommentDoc,
    (∀ v, c_content (f v) = c_content v ∧ c_contentType (f v) = c_contentType v
          ∧ c_parentComment (f v) = c_parentComment v ∧ c_active (f v) = c_active v)
    ∧ ∃ p, p ≠ newId
      ∧ comments (db_after c d) = alter f p (<[newId:=row]> (comments d))).
  { unfold c, db_after. rewrite Hcall. clear Hcall.
    destruct parentComment as [p|]; cbn [snd db].
    - exists (Comment.inc_repliesCount 1). split; [by intros [] |].
      exists p. split; [| reflexivity].
      intros ->. cbn in Hp. rewrite Hnew in Hp. by destruct Hp.
    - exists (λ v, v). split; [done |].
      exists (String "x" newId). split.
      + intros Heq. apply (f_equal String.length) in Heq. cbn in Heq. lia.
      + cbn. symmetry. by apply alter_id. }
  destruct Hrows as (f & Hf & p & Hpn & Hrows). split.
  - intros content type parent pageQ limitQ. unfold getComments.
    destruct (Cursor.skip_limit _ _ (find_comments _ _ _ _ (db_after c d))) as [l'|] eqn:H1.
    + unfold Cursor.skip_limit in *.
      destruct (_ && _); [| discriminate]. cbn.
      rewrite Hrows, size_filter_alter, size_filter_insert_fresh by
        (done || (intros v; unfold comment_filter; cbn;
                   destruct (Hf v) as (-> & -> & -> & ->); done)).
      f_equal. unfold comment_filter. cbn.
      destruct (decide (contentId = content ∧ contentType = type
                         ∧ parentComment = parent ∧ true = true)) as [Hy|Hn],
               (decide (content = contentId ∧ type = contentType
                         ∧ parent = parentComment)) as [Hy'|Hn'];
        try lia; exfalso;
        [apply Hn'; by destruct Hy as (-> & -> & -> & _)
        | apply Hn; by destruct Hy' as (-> & -> & ->)].
    + unfold Cursor.skip_limit in *.
      destruct (_ && _); [discriminate | reflexivity].
  - unfold find_comments. rewrite sort_desc_perm.
    apply elem_of_map_to_list, map_lookup_filter_Some. split.
    + rewrite Hrows, lookup_alter_ne by done. apply lookup_insert_eq.
    + unfold comment_filter. cbn. done.
Qed.

Lemma created_comment_is_listed_witness :
  pg_total <$> (page_pagination <$>
    getComments db0_three_at "v1" "Video" None None None db0_comment) = Some 1%Z
  ∧ pg_total <$> (page_pagination <$>
      getComments db0_three_at "v1" "Video" None None None
        (db_after (CreateComment true "u2" "v1" "Video" (Some " second ") None "c2")
           db0_comment)) = Some 2%Z
  ∧ pg_total <$> (page_pagination <$>
      getComments db0_three_at "v1" "Video" (Some "c1") None None
        (db_after (CreateComment true "u2" "v1" "Video" (Some " second ") None "c2")
           db0_comment)) = Some 0%Z.
Proof.
  assert (H0 : pg_total <$> (page_pagination <$>
            getComments db0_three_at "v1" "Video" None None None db0_comment) = Some 1%Z)
    by (vm_compute; reflexivity).
  assert (H1 : pg_total <$> (page_pagination <$>
            getComments db0_three_at "v1" "Video" (Some "c1") None None db0_comment)
          = Some 0%Z)
    by (vm_compute; reflexivity).
  destruct (created_comment_is_listed db0_three_at true "u2" "v1" "Video" " second " None
              "c2" db0_comment) as [Htotal _].
  - left. split; [reflexivity | vm_compute; reflexivity].
  - exact I.
  - split; apply Nat.leb_le; vm_compute; reflexivity.
  - vm_compute. reflexivity.
  - split; [exact H0 |]. split.
    + rewrite Htotal, H0. reflexivity.
    + rewrite Htotal, H1. reflexivity.
Defined.

(** ** A deleted comment and the listings *)

Lemma size_filter_delete_present `{Countable K} {A : Type} (Q : K * A → Prop)
    `{!∀ x, Decision (Q x)} (m : gmap K A) k v :
  m !! k = Some v →
  size (filter Q m) = if decide (Q (k, v)) then S (size (filter Q (delete k m)))
                      else size (filter Q (delete k m)).
Proof.
  intros Hk. rewrite <- (insert_delete_id m k v Hk) at 1.
  apply size_filter_insert_fresh, lookup_delete_eq.
Qed.

(** X15. A comment that is deleted leaves its listing and no other.
    After a [deleteComment] by the author of an existing comment, the
    [total] that [getComments] reports is one lower than before for the
    listing the comment was in (its content, content type and parent, if it
    was active) and what it was for every other listing, for every page and
    page size asked for; and no listing holds a document with the deleted
    id. *)
Theorem deleted_comment_is_unlisted
    (commentedAt : ObjectId → Z)
    (io : bool) (userId commentId : ObjectId) (c : CommentDoc) (d : Db) :
  comments d !! commentId = Some c →
  c_user c = userId →
  let call := DeleteComment io userId commentId in
  (∀ (content : ObjectId) (type : string) (parent : option ObjectId)
     (pageQ limitQ : option string),
     pg_total <$> (page_pagination <$>
       getComments commentedAt content type parent pageQ limitQ (db_after call d))
     = (λ n, if decide (comment_filter content type parent (commentId, c))
             then (n - 1)%Z else n)
         <$> (pg_total <$> (page_pagination <$>
                getComments commentedAt content type parent pageQ limitQ d)))
  ∧ (∀ (content : ObjectId) (type : string) (parent : option ObjectId) (row : CommentDoc),
       (commentId, row) ∉ find_comments commentedAt content type parent (db_after call d)).
Proof.
  intros Hc Hu call.
  assert (Hrows : ∃ (f : CommentDoc → CommentDoc) (p : ObjectId),
    (∀ v, c_content (f v) = c_content v ∧ c_contentType (f v) = c_contentType v
          ∧ c_parentComment (f v) = c_parentComment v ∧ c_active (f v) = c_active v)
    ∧ comments (db_after call d) = delete commentId (alter f p (comments d))).
  { unfold call. rewrite (deleteComment_db io userId commentId c d Hc)
      by (subst userId; apply String.eqb_refl).
    destruct (c_parentComment c) as [p|]; cbn.
    - exists (Comment.inc_repliesCount (-1)), p. split; [by intros [] | reflexivity].
    - exists (λ v, v), commentId. split; [done |]. f_equal. symmetry. by apply alter_id. }
  destruct Hrows as (f & p & Hf & Hrows). split.
  - intros content type parent pageQ limitQ. unfold getComments.
    unfold Cursor.skip_limit. destruct (_ && _); [| reflexivity]. cbn.
    f_equal. rewrite Hrows.
    set (Q := comment_filter content type parent).
    assert (HQf : ∀ k v, Q (k, f v) ↔ Q (k, v)).
    { intros k v. unfold Q, comment_filter. cbn.
      by destruct (Hf v) as (-> & -> & -> & ->). }
    rewrite <- (size_filter_alter Q (comments d) f p) by (intros v; apply HQf).
    assert (Hk : ∃ c', alter f p (comments d) !! commentId = Some c'
                       ∧ (Q (commentId, c') ↔ Q (commentId, c))).
    { destruct (decide (p = commentId)) as [->|Hp].
      - exists (f c). rewrite lookup_alter_eq, Hc. split; [done | apply HQf].
      - exists c. by rewrite lookup_alter_ne. }
    destruct Hk as (c' & Hk & Hiff).
    rewrite (size_filter_delete_present Q (alter f p (comments d)) commentId c' Hk).
    destruct (decide (Q (commentId, c'))) as [H1|H1],
             (decide (Q (commentId, c))) as [H2|H2];
      try lia; exfalso; [apply H2 | apply H1]; by apply Hiff.
  - intros content type parent row Hin.
    unfold find_comments in Hin. rewrite sort_desc_perm in Hin.
    apply elem_of_map_to_list, map_lookup_filter_Some in Hin as [Hin _].
    rewrite Hrows, lookup_delete_eq in Hin. discriminate.
Qed.

Lemma deleted_comment_is_unlisted_witness :
  pg_total <$> (page_pagination <$>
    getComments db0_three_at "v1" "Video" None None None db0_three) = Some 3%Z
  ∧ pg_total <$> (page_pagination <$>
      getComments db0_three_at "v1" "Video" None None None
        (db_after (DeleteComment true "u2" "c2") db0_three)) = Some 2%Z.
Proof.
  assert (H0 : pg_total <$> (page_pagination <$>
            getComments db0_three_at "v1" "Video" None None None db0_three) = Some 3%Z)
    by (vm_compute; reflexivity).
  destruct (deleted_comment_is_unlisted db0_three_at true "u2" "c2"
              (mkComment "u2" "v1" "Video" "second" None 0 0 false true) db0_three)
    as [Htotal _].
  - vm_compute. reflexivity.
  - reflexivity.
  - split; [exact H0 |]. rewrite Htotal, H0. reflexivity.
Defined.

(** ** Who can change a comment *)

Lemma same_comment_refl (a : CommentDoc) : same_comment a a.
Proof. by repeat split. Qed.

Lemma same_comment_inc (n : Z) (a : CommentDoc) :
  same_comment (Comment.inc_repliesCount n a) a.
Proof. by repeat split. Qed.

Lemma foreign_call_keeps_the_comment
    (c : Call) (d : Db) (commentId : ObjectId) (row : CommentDoc) :
  comments d !! commentId = Some row →
  (∀ io text, c ≠ UpdateComment io (c_user row) commentId text) →
  (∀ io, c ≠ DeleteComment io (c_user row) commentId) →
  ∃ row', comments (db_after c d) !! commentId = Some row' ∧ same_comment row' row.
Proof.
  intros Hrow Hup Hdel.
  assert (Hsame : ∀ d', comments d' = comments d →
            ∃ row', comments d' !! commentId = Some row' ∧ same_comment row' row).
  { intros d' ->. exists row. split; [exact Hrow | apply same_comment_refl]. }
  destruct c as [io u cid ct | io u cid ct t par nid | io u cm t | io u cm | io u tg].
  - apply Hsame, toggleLike_keeps_comments.
  - unfold db_after.
    destruct (decide (commentable d ct cid)) as [Hc|Hnc]; last first.
    { rewrite createComment_missing_content by done. by apply Hsame. }
    assert (Hp : parent_ok d par ∨ ∃ p, par = Some p ∧ comments d !! p = None).
    { destruct par as [p|]; [| by left]. cbn.
      destruct (comments d !! p) eqn:Hp; [left; eauto | right; eauto]. }
    destruct Hp as [Hp | (p & -> & Hp)]; last first.
    { rewrite createComment_missing_parent by done. by apply Hsame. }
    rewrite createComment_past_the_checks by done.
    destruct (Comment.validate ct (Comment.setText t)); [| by apply Hsame].
    destruct (comments d !! nid) eqn:Hnid; [by apply Hsame |]. cbv zeta.
    assert (Hne : commentId ≠ nid) by (intros ->; congruence).
    cbn [snd db]. destruct par as [p|]; cbn.
    + destruct (decide (p = commentId)) as [->|Hpc].
      * exists (Comment.inc_repliesCount 1 row).
        rewrite lookup_alter_eq, lookup_insert_ne, Hrow by done.
        split; [reflexivity | apply same_comment_inc].
      * exists row. rewrite lookup_alter_ne, lookup_insert_ne by done.
        split; [exact Hrow | apply same_comment_refl].
    + exists row. rewrite lookup_insert_ne by done.
      split; [exact Hrow | apply same_comment_refl].
  - unfold db_after. rewrite updateComment_call.
    destruct (comments d !! cm) as [c0|] eqn:Hc0; [| by apply Hsame].
    destruct (String.eqb_spec (c_user c0) u) as [Hu|Hu]; [| by apply Hsame].
    assert (Hne : cm ≠ commentId).
    { intros ->. rewrite Hrow in Hc0. injection Hc0 as <-. subst u.
      by apply (Hup io t). }
    assert (Hkeep : ∃ row',
      comments (with_comments
                  (alter (Comment.set_text_isEdited (default "" (Comment.setText t))) cm) d)
        !! commentId = Some row' ∧ same_comment row' row).
    { exists row. cbn. rewrite lookup_alter_ne by done.
      split; [exact Hrow | apply same_comment_refl]. }
    destruct (Comment.validate (c_contentType c0) (Comment.setText t));
      [| by apply Hsame].
    cbv zeta. by destruct io.
  - assert (Hcall := deleteComment_call io u cm d). unfold db_after. rewrite Hcall.
    destruct (comments d !! cm) as [c0|] eqn:Hc0; [| by apply Hsame].
    destruct (String.eqb_spec (c_user c0) u) as [Hu|Hu]; [| by apply Hsame].
    assert (Hne : cm ≠ commentId).
    { intros ->. rewrite Hrow in Hc0. injection Hc0 as <-. subst u.
      by apply (Hdel io). }
    assert (Hkeep : ∃ row',
      comments (with_comments (delete cm)
                  match c_parentComment c0 with
                  | Some p => with_comments (alter (Comment.inc_repliesCount (-1)) p) d
                  | None => d
                  end) !! commentId = Some row' ∧ same_comment row' row).
    { cbn. rewrite lookup_delete_ne by done.
      destruct (c_parentComment c0) as [p|]; cbn.
      - destruct (decide (p = commentId)) as [->|Hpc].
        + exists (Comment.inc_repliesCount (-1) row). rewrite lookup_alter_eq, Hrow.
          split; [reflexivity | apply same_comment_inc].
        + exists row. rewrite lookup_alter_ne by done.
          split; [exact Hrow | apply same_comment_refl].
      - exists row. split; [exact Hrow | apply same_comment_refl]. }
    cbv zeta. by destruct io.
  - apply Hsame, toggleFollow_keeps_comments.
Qed.

Lemma same_comment_trans (a b c : CommentDoc) :
  same_comment a b → same_comment b c → same_comment a c.
Proof.
  intros (? & ? & ? & ? & ? & ? & ? & ?) (? & ? & ? & ? & ? & ? & ? & ?).
  repeat split; congruence.
Qed.

(** X16. Only its author rewrites or removes a comment.  Whatever
    requests are served one after the other, a stored comment is still
    there afterwards with the same author, content, content type, text,
    parent, [likesCount], [isEdited] and [active] (only [repliesCount] may
    have moved), as long as none of them is an [updateComment] or a
    [deleteComment] of that very comment made by its author. *)
Theorem only_the_author_rewrites_a_comment
    (cs : list Call) (d : Db) (commentId : ObjectId) (row : CommentDoc) :
  comments d !! commentId = Some row →
  (∀ c, c ∈ cs →
     (∀ io text, c ≠ UpdateComment io (c_user row) commentId text)
     ∧ (∀ io, c ≠ DeleteComment io (c_user row) commentId)) →
  ∃ row', comments (run cs d) !! commentId = Some row' ∧ same_comment row' row.
Proof.
  revert d row. induction cs as [|c cs IH]; intros d row Hrow Hcs.
  { exists row. split; [exact Hrow | apply same_comment_refl]. }
  destruct (Hcs c ltac:(apply list_elem_of_here)) as [Hup Hdel].
  destruct (foreign_call_keeps_the_comment c d commentId row Hrow Hup Hdel)
    as (row1 & Hrow1 & Hsame1).
  destruct (IH (db_after c d) row1 Hrow1) as (row' & Hrow' & Hsame').
  - intros c' Hc'. destruct Hsame1 as [Huser _]. rewrite Huser.
    apply Hcs. by apply list_elem_of_further.
  - exists row'. split; [exact Hrow' |]. by apply (same_comment_trans _ row1).
Qed.

Lemma only_the_author_rewrites_a_comment_witness :
  comments db0_comment !! "c1" = Some (mkComment "u1" "v1" "Video" "hello" None 0 0 false true)
  ∧ (c_text <$> comments (run [UpdateComment true "u2" "c1" (Some "mine now");
                                DeleteComment true "u2" "c1";
                                CreateComment true "u2" "v1" "Video" (Some "hi") (Some "c1")
                                  "c2"]
                            db0_comment) !! "c1") = Some "hello".
Proof.
  assert (Hrow : comments db0_comment !! "c1"
                 = Some (mkComment "u1" "v1" "Video" "hello" None 0 0 false true))
    by (vm_compute; reflexivity).
  split; [exact Hrow |].
  destruct (only_the_author_rewrites_a_comment
              [UpdateComment true "u2" "c1" (Some "mine now");
               DeleteComment true "u2" "c1";
               CreateComment true "u2" "v1" "Video" (Some "hi") (Some "c1") "c2"]
              db0_comment "c1" _ Hrow)
    as (row' & -> & Hsame).
  - intros c Hc.
    repeat (apply elem_of_cons in Hc as [->|Hc]; [split; intros; discriminate |]).
    by apply elem_of_nil in Hc.
  - cbn. f_equal. apply Hsame.
Defined.

(** ** Room ids *)

Lemma append_sep_inj (sep : ascii) (s1 s2 t1 t2 : string) :
  occurs sep s1 = false → occurs sep s2 = false →
  s1 +:+ String sep t1 = s2 +:+ String sep t2 → s1 = s2 ∧ t1 = t2.
Proof.
  revert s2. induction s1 as [|a s1 IH]; intros [|b s2]; cbn; intros H1 H2 Heq.
  - by injection Heq as ->.
  - injection Heq as <- _. by rewrite Ascii.eqb_refl in H2.
  - injection Heq as -> _. by rewrite Ascii.eqb_refl in H1.
  - injection Heq as -> Heq.
    apply orb_false_iff in H1 as [_ H1]. apply orb_false_iff in H2 as [_ H2].
    destruct (IH s2 H1 H2 Heq) as [-> ->]. done.
Qed.

(** X17. Room ids tell their subjects apart.  [getUserRoomId] gives
    different users different rooms; [getContentRoomId] gives different
    rooms to different (content type, content id) pairs as long as the
    content types hold no colon, which is so for Video, Article and
    Comment; and the room of content of one of these three types is never
    a user's room.  The room [getContentRoomId("user", id)] is the
    room of user [id]. *)
Theorem room_ids_tell_subjects_apart :
  (∀ u u', SocketEvents.getUserRoomId u = SocketEvents.getUserRoomId u' → u = u')
  ∧ (∀ ct ct' id id',
       occurs ":" ct = false → occurs ":" ct' = false →
       SocketEvents.getContentRoomId ct id = SocketEvents.getContentRoomId ct' id' →
       ct = ct' ∧ id = id')
  ∧ (∀ ct, ct ∈ Like.contentType_enum → occurs ":" ct = false)
  ∧ (∀ ct id u, ct ∈ Like.contentType_enum →
       SocketEvents.getContentRoomId ct id = SocketEvents.getUserRoomId u → False)
  ∧ (∀ id, SocketEvents.getContentRoomId "user" id = SocketEvents.getUserRoomId id).
Proof.
  unfold SocketEvents.getUserRoomId, SocketEvents.getContentRoomId, Like.contentType_enum.
  split; [| split; [| split; [| split]]].
  - intros u u' Heq. cbn in Heq. by injection Heq.
  - intros ct ct' id id' H1 H2 Heq. by apply (append_sep_inj ":" ct ct' id id').
  - intros ct Hct.
    repeat (apply elem_of_cons in Hct as [->|Hct]; [reflexivity |]).
    by apply elem_of_nil in Hct.
  - intros ct id u Hct Heq.
    repeat (apply elem_of_cons in Hct as [->|Hct]; [discriminate |]).
    by apply elem_of_nil in Hct.
  - reflexivity.
Qed.

(** ** Socket authentication *)

(** X18. [socketAuthMiddleware] lets a socket in exactly as a user of the
    database, in that user's room and no other.  Whatever [jwt.verify]
    does, the middleware either passes an error whose message starts with
    "Authentication error: " to [next], with no user attached and no room
    joined; or it calls [next] with no error, for a token that is not
    empty and verifies to the id of a stored user, with that user attached
    and the single room ["user:" + id] joined, so that [emitToUser(io, U,
    ...)] addresses a room of the socket exactly when U is that user. *)
Theorem socketAuthMiddleware_outcomes
    (jwt_verify : string → Exn + option ObjectId) (token : option string) (d : Db) :
  (∃ msg,
     socketAuthMiddleware jwt_verify token d
     = (mkSocket None [], Some (Error ("Authentication error: " +:+ msg))))
  ∨ (∃ tok _id u,
       token = Some tok ∧ tok ≠ ""
       ∧ jwt_verify tok = inr (Some _id)
       ∧ users d !! _id = Some u
       ∧ socketAuthMiddleware jwt_verify token d
         = (mkSocket (Some (_id, u)) [SocketEvents.getUserRoomId _id], None)
       ∧ ∀ U eventName data,
           ev_room (SocketEvents.emitToUser U eventName data)
             ∈ (Some <$> [SocketEvents.getUserRoomId _id])
           ↔ U = _id).
Proof.
  unfold socketAuthMiddleware.
  destruct token as [tok|]; [| left; by eexists].
  destruct (String.eqb_spec tok "") as [->|Htok]; [left; by eexists |].
  destruct (jwt_verify tok) as [error|[_id|]] eqn:Hv; [left; by eexists | | left; by eexists].
  cbn. destruct (users d !! _id) as [u|] eqn:Hu; [| left; by eexists].
  right. exists tok, _id, u. cbn. repeat (split; [done |]).
  intros U eventName data. cbn. rewrite list_elem_of_singleton.
  unfold SocketEvents.getUserRoomId. split; [| by intros ->].
  intros Heq. by injection Heq.
Qed.

(** ** The guards of middleware/authMiddleware.js *)

Lemma authorize_passes (roles : list string) (req_user : option Account) (u : option Account) :
  authorize roles req_user = Next u ↔
  ∃ user, req_user = Some user ∧ u = Some user ∧ acc_role user ∈ roles.
Proof.
  unfold authorize. destruct req_user as [user|]; [| split; [done | by intros (? & ? & _)]].
  destruct (existsb (String.eqb (acc_role user)) roles) eqn:Hex; cbn.
  - apply existsb_exists in Hex as (role & Hin & Heq).
    apply String.eqb_eq in Heq as <-. apply list_elem_of_In in Hin.
    split; [intros [= <-]; eauto | intros (? & [= <-] & -> & _); done].
  - split; [done |]. intros (? & [= <-] & _ & Hin). exfalso.
    apply list_elem_of_In in Hin.
    assert (existsb (String.eqb (acc_role user)) roles = true); [| congruence].
    apply existsb_exists. exists (acc_role user). split; [done | apply String.eqb_refl].
Qed.

Lemma protect_passes (a : Authenticated) (u : option Account) :
  protect a = Next u ↔ ∃ user, a = AuthUser user ∧ u = Some user ∧ acc_active user = true.
Proof.
  destruct a as [err| |user]; cbn; try (split; [done | by intros (? & ? & _)]).
  destruct (acc_active user) eqn:Ha; cbn.
  - split; [intros [= <-]; eauto | intros (? & [= <-] & -> & _); done].
  - split; [done |]. intros (? & [= <-] & _ & ?). congruence.
Qed.

(** X19. [protect] followed by [authorize(...roles)] calls [next()]
    exactly for an authenticated user who is active and whose role is one
    of [roles], with [req.user] set to that user.  After [protect] the
    answer 401 "Not authorized, no user found" of [authorize] cannot occur.
    Whoever passes for [roles] passes for any list that holds them all; in
    particular whoever passes [admin] passes [creator]. *)
Theorem guards_pass_active_users_by_role (a : Authenticated) (roles : list string) :
  (∀ u, and_then (protect a) (authorize roles) = Next u ↔
        ∃ user, a = AuthUser user ∧ u = Some user
                ∧ acc_active user = true ∧ acc_role user ∈ roles)
  ∧ (and_then (protect a) (authorize roles) = Respond 401 "Not authorized, no user found"
     → False)
  ∧ (∀ roles' u, roles ⊆ roles' →
       and_then (protect a) (authorize roles) = Next u →
       and_then (protect a) (restrictTo roles') = Next u)
  ∧ (∀ u, and_then (protect a) admin = Next u → and_then (protect a) creator = Next u).
Proof.
  assert (Hchain : ∀ roles0 u, and_then (protect a) (authorize roles0) = Next u ↔
            ∃ user, a = AuthUser user ∧ u = Some user
                    ∧ acc_active user = true ∧ acc_role user ∈ roles0).
  { intros roles0 u. split.
    - destruct (protect a) as [req_user| |] eqn:Hp; cbn; [| done | done].
      intros Hz. apply authorize_passes in Hz as (user & -> & -> & Hrole).
      apply protect_passes in Hp as (user' & -> & [= <-] & Hact). eauto.
    - intros (user & -> & -> & Hact & Hrole).
      assert (Hp : protect (AuthUser user) = Next (Some user))
        by (apply protect_passes; eauto).
      rewrite Hp. cbn [and_then]. apply authorize_passes. eauto. }
  assert (Hmono : ∀ roles1 roles2 u, roles1 ⊆ roles2 →
            and_then (protect a) (authorize roles1) = Next u →
            and_then (protect a) (authorize roles2) = Next u).
  { intros roles1 roles2 u Hsub Hz. apply Hchain in Hz as (user & -> & -> & Hact & Hrole).
    apply Hchain. exists user. repeat (split; [done |]). by apply Hsub. }
  split; [apply Hchain |]. split; [| split].
  - destruct a as [err| |user]; cbn; [done | done |].
    destruct (acc_active user); cbn; [| done].
    destruct (existsb _ roles); cbn; done.
  - intros roles' u Hsub. apply Hmono, Hsub.
  - intros u. apply Hmono. intros role Hin.
    apply list_elem_of_singleton in Hin as ->.
    apply elem_of_cons. right. apply elem_of_cons. by left.
Qed.

(** ** The engagement routes behind [protect] *)



(** ** streamVideo: the answers to a range request *)

Lemma split_cons (sep : ascii) (s : string) : ∃ x xs, JsString.split sep s = x :: xs.
Proof.
  induction s as [|c r (x & xs & IH)]; cbn; [eauto |].
  destruct (Ascii.eqb c sep); [eauto |]. rewrite IH. eauto.
Qed.

Lemma split_no_sep (sep : ascii) (s x : string) :
  x ∈ JsString.split sep s → occurs sep x = false.
Proof.
  revert x. induction s as [|c r IH]; cbn; intros x Hx.
  - apply list_elem_of_singleton in Hx as ->. reflexivity.
  - destruct (Ascii.eqb c sep) eqn:Hc.
    + apply elem_of_cons in Hx as [->|Hx]; [reflexivity | by apply IH].
    + destruct (split_cons sep r) as (y & ys & Hsplit). rewrite Hsplit in *.
      apply elem_of_cons in Hx as [->|Hx].
      * cbn. rewrite Hc. cbn. apply IH. apply list_elem_of_here.
      * apply IH. by apply list_elem_of_further.
Qed.

Lemma trimStart_no_occurrence (c : ascii) (s : string) :
  occurs c s = false → occurs c (Js.trimStart s) = false.
Proof.
  induction s as [|a r IH]; cbn; [done |]. intros H.
  apply orb_false_iff in H as [Ha Hr].
  destruct (Js.isWhiteSpace a); [by apply IH |]. cbn. by rewrite Ha, Hr.
Qed.

Lemma digit_value_nonneg (c : ascii) (v : Z) :
  JsNumber.digit_value c = Some v → (0 ≤ v)%Z.
Proof.
  unfold JsNumber.digit_value.
  repeat match goal with
         | |- context [(?a <=? ?b)%Z] => destruct (Z.leb_spec a b)
         end; cbn; intros [= <-]; lia.
Qed.

Lemma parse_digits_nonneg (radix : Z) (s : string) (acc : option Z) (v : Z) :
  (0 ≤ radix)%Z → (0 ≤ default 0 acc)%Z →
  JsNumber.parse_digits radix s acc = Some v → (0 ≤ v)%Z.
Proof.
  intros Hr. revert acc. induction s as [|c r IH]; cbn; intros acc Hacc Hv.
  - by subst acc.
  - destruct (JsNumber.digit_value c) as [dv|] eqn:Hd; [| by subst acc].
    destruct (dv <? radix)%Z; [| by subst acc].
    apply (IH (Some (radix * default 0%Z acc + dv)%Z)); [| exact Hv].
    pose proof (digit_value_nonneg c dv Hd) as Hdv.
    pose proof (Z.mul_nonneg_nonneg radix (default 0%Z acc) Hr Hacc) as Hmul.
    change (0 ≤ radix * default 0 acc + dv)%Z. lia.
Qed.

(** [parseInt(s, 10)] as a sign and a run of digits. *)
Lemma parseInt_10_sign (s : string) :
  ∃ sign s2,
    JsNumber.parseInt (Some s) (Some 10%Z)
    = (λ n, (sign * n)%Z) <$> JsNumber.parse_digits 10 s2 None
    ∧ (sign = 1%Z ∨ ∃ r, Js.trimStart s = String "-" r).
Proof.
  unfold JsNumber.parseInt. destruct (Js.trimStart s) as [|a r]; [by exists 1%Z, ""; eauto |].
  destruct a as [[] [] [] [] [] [] [] []]; cbn -[JsNumber.parse_digits];
    eexists _, _; (split; [reflexivity | first [by left | right; by eexists]]).
Qed.

Lemma parseInt_10_nonneg (s : string) (v : Z) :
  occurs "-" s = false → JsNumber.parseInt (Some s) (Some 10%Z) = Some v → (0 ≤ v)%Z.
Proof.
  intros Hs Hv. destruct (parseInt_10_sign s) as (sign & s2 & Heq & Hsign).
  rewrite Heq in Hv. destruct Hsign as [->|(r & Hr)].
  - destruct (JsNumber.parse_digits 10 s2 None) as [n|] eqn:Hn; [| done].
    injection Hv as <-. apply parse_digits_nonneg in Hn; cbn; lia.
  - apply (trimStart_no_occurrence "-") in Hs. rewrite Hr in Hs. discriminate.
Qed.

Lemma range_start_nonneg (range : string) (s : Z) :
  JsNumber.parseInt (range_parts range !! 0) (Some 10%Z) = Some s → (0 ≤ s)%Z.
Proof.
  unfold range_parts.
  destruct (split_cons "-" (JsString.remove_first "bytes=" range)) as (x & xs & Hsplit).
  rewrite Hsplit. cbn [lookup list_lookup]. apply parseInt_10_nonneg.
  apply (split_no_sep "-" (JsString.remove_first "bytes=" range)).
  rewrite Hsplit. apply list_elem_of_here.
Qed.

Lemma getContentType_known (extname : string → string) (filename : string) :
  getContentType extname filename
    ∈ ["video/mp4"; "video/webm"; "video/ogg"; "video/quicktime"].
Proof.
  unfold getContentType.
  repeat (destruct (String.eqb _ _);
          [repeat (first [apply list_elem_of_here | apply list_elem_of_further]) |]).
  apply list_elem_of_here.
Qed.

(** X21. What [streamVideo] answers, and when.  A file that does not
    exist is answered 404.  With no Range header (or an empty one) the
    answer is 200 with the file size as Content-Length.  With a Range
    header the answer is 416 exactly when the start does not parse or is
    not below the file size; otherwise it is 500 exactly when the end does
    not parse or lies before the start; otherwise it is 206 with a start
    from 0 to the file size minus 1 (a start is never negative), as end
    the lesser of the end asked for (the last byte of the file when none
    is) and the start plus 10 MiB, and a Content-Length of end minus start
    plus 1, between 1 and 10 MiB plus 1.  The content type is
    always one of video/mp4, video/webm, video/ogg and video/quicktime. *)
Theorem streamVideo_answers
    (extname : string → string) (join_videos_dir : string → string)
    (file_size : string → option Z) (range : option string) (filename : string) :
  let videoPath := join_videos_dir (sanitizeVideoFilename extname filename) in
  match streamVideo extname join_videos_dir file_size range filename with
  | VideoNotFound => file_size videoPath = None
  | WholeFile contentLength contentType =>
      file_size videoPath = Some contentLength
      ∧ (range = None ∨ range = Some "")
      ∧ contentType ∈ ["video/mp4"; "video/webm"; "video/ogg"; "video/quicktime"]
  | RangeNotSatisfiable r fileSize =>
      range = Some r ∧ r ≠ "" ∧ file_size videoPath = Some fileSize
      ∧ (JsNumber.parseInt (range_parts r !! 0) (Some 10%Z) = None
         ∨ ∃ start, JsNumber.parseInt (range_parts r !! 0) (Some 10%Z) = Some start
                    ∧ (fileSize ≤ start)%Z)
  | StreamError =>
      ∃ r fileSize start,
        range = Some r ∧ r ≠ "" ∧ file_size videoPath = Some fileSize
        ∧ JsNumber.parseInt (range_parts r !! 0) (Some 10%Z) = Some start
        ∧ (0 ≤ start < fileSize)%Z
        ∧ (range_end (range_parts r) fileSize = None
           ∨ ∃ e, range_end (range_parts r) fileSize = Some e ∧ (e < start)%Z)
  | PartialContent start end_ fileSize contentLength contentType =>
      (∃ r e, range = Some r ∧ r ≠ ""
              ∧ JsNumber.parseInt (range_parts r !! 0) (Some 10%Z) = Some start
              ∧ range_end (range_parts r) fileSize = Some e
              ∧ (start ≤ e)%Z
              ∧ end_ = Z.min e (start + maxChunk))
      ∧ file_size videoPath = Some fileSize
      ∧ (0 ≤ start < fileSize)%Z
      ∧ (start ≤ end_ ≤ start + maxChunk)%Z
      ∧ contentLength = (end_ - start + 1)%Z
      ∧ (1 ≤ contentLength ≤ maxChunk + 1)%Z
      ∧ contentType ∈ ["video/mp4"; "video/webm"; "video/ogg"; "video/quicktime"]
  end.
Proof.
  intros videoPath. unfold streamVideo. fold videoPath.
  destruct (file_size videoPath) as [fileSize|] eqn:Hsize; [| done].
  destruct range as [[|c r]|];
    [split; [done | split; [by right | apply getContentType_known]] | |
     split; [done | split; [by left | apply getContentType_known]]].
  set (rg := String c r).
  destruct (JsNumber.parseInt (range_parts rg !! 0) (Some 10%Z)) as [start|] eqn:Hstart;
    [| split; [done | split; [done | split; [done | by left]]]].
  pose proof (range_start_nonneg rg start Hstart) as H0.
  destruct (Z.leb_spec fileSize start) as [Hge|Hlt].
  { split; [done | split; [done | split; [done | right; eauto]]]. }
  destruct (range_end (range_parts rg) fileSize) as [e|] eqn:Hend; last first.
  { exists rg, fileSize, start. repeat (split; [done || lia |]). by left. }
  assert (Hmax : maxChunk = 10485760%Z) by reflexivity.
  destruct (Z.ltb_spec maxChunk (e - start)) as [Hbig|Hsmall].
  - destruct (Z.leb_spec 0 start); [| lia].
    destruct (Z.leb_spec start (start + maxChunk)); [| lia]. cbn.
    split; [exists rg, e; repeat (split; [done || lia |]); lia |]. split; [done |].
    repeat (split; [lia |]). apply getContentType_known.
  - destruct (Z.leb_spec 0 start); [| lia].
    destruct (Z.leb_spec start e) as [Hle|Hgt]; cbn.
    + split; [exists rg, e; repeat (split; [done || lia |]); lia |]. split; [done |].
      repeat (split; [lia |]). apply getContentType_known.
    + exists rg, fileSize, start. repeat (split; [done || lia |]). right. eauto.
Qed.

(** X22. Which end a range answer carries.  For a range whose start
    parses to a number below the file size: when the header gives no end
    ("bytes=START-" or no dash at all), the answer is 206 up to the last
    byte of the file or START plus 10 MiB, whichever is less, so the
    Content-Length never exceeds what is left of the file; when it gives
    an end that parses and is not before the start, the answer is 206 up
    to that end or START plus 10 MiB, whichever is less, whatever the file
    size is. *)
Theorem streamVideo_range_end
    (extname : string → string) (join_videos_dir : string → string)
    (file_size : string → option Z) (r filename : string) (fileSize start : Z) :
  let videoPath := join_videos_dir (sanitizeVideoFilename extname filename) in
  r ≠ "" →
  file_size videoPath = Some fileSize →
  JsNumber.parseInt (range_parts r !! 0) (Some 10%Z) = Some start →
  (start < fileSize)%Z →
  (range_parts r !! 1 = None ∨ range_parts r !! 1 = Some "" →
     streamVideo extname join_videos_dir file_size (Some r) filename
     = PartialContent start (Z.min (fileSize - 1) (start + maxChunk)) fileSize
         (Z.min (fileSize - start) (maxChunk + 1)) (getContentType extname videoPath))
  ∧ (∀ p1 e,
       range_parts r !! 1 = Some p1 → p1 ≠ "" →
       JsNumber.parseInt (Some p1) (Some 10%Z) = Some e →
       (start ≤ e)%Z →
       streamVideo extname join_videos_dir file_size (Some r) filename
       = PartialContent start (Z.min e (start + maxChunk)) fileSize
           (Z.min e (start + maxChunk) - start + 1) (getContentType extname videoPath)).
Proof.
  intros videoPath Hr Hsize Hstart Hlt.
  pose proof (range_start_nonneg r start Hstart) as H0.
  assert (Hmax : maxChunk = 10485760%Z) by reflexivity.
  assert (Hgo : ∀ e, range_end (range_parts r) fileSize = Some e → (start ≤ e)%Z →
            streamVideo extname join_videos_dir file_size (Some r) filename
            = PartialContent start (Z.min e (start + maxChunk)) fileSize
                (Z.min e (start + maxChunk) - start + 1)
                (getContentType extname videoPath)).
  { intros e Hend Hle. unfold streamVideo. fold videoPath. rewrite Hsize.
    destruct r as [|c r]; [done |]. rewrite Hstart, Hend.
    destruct (Z.leb_spec fileSize start); [lia |].
    destruct (Z.ltb_spec maxChunk (e - start)).
    - destruct (Z.leb_spec 0 start); [| lia].
      destruct (Z.leb_spec start (start + maxChunk)); [| lia]. cbn.
      by rewrite Z.min_r by lia.
    - destruct (Z.leb_spec 0 start); [| lia].
      destruct (Z.leb_spec start e); [| lia]. cbn.
      by rewrite Z.min_l by lia. }
  split.
  - intros Hnone.
    assert (Hend : range_end (range_parts r) fileSize = Some (fileSize - 1)%Z).
    { unfold range_end. by destruct Hnone as [-> | ->]. }
    rewrite (Hgo _ Hend ltac:(lia)). f_equal. lia.
  - intros p1 e Hp1 Hne Hparse Hle. apply Hgo; [| exact Hle].
    unfold range_end. rewrite Hp1.
    destruct (String.eqb_spec p1 ""); [done | exact Hparse].
Qed.

Lemma streamVideo_range_end_witness :
  streamVideo extname0 join_videos_dir0 file_size0 (Some "bytes=10-") "clip.mp4"
  = PartialContent 10 99 100 90 "video/mp4"
  ∧ streamVideo extname0 join_videos_dir0 file_size0 (Some "bytes=0-499") "clip .mp"
    = PartialContent 0 499 100 500 "video/mp4".
Proof.
  split.
  - destruct (streamVideo_range_end extname0 join_videos_dir0 file_size0
                "bytes=10-" "clip.mp4" 100 10) as [Hopen _].
    + discriminate.
    + vm_compute. reflexivity.
    + vm_compute. reflexivity.
    + lia.
    + rewrite Hopen; [vm_compute; reflexivity | right; vm_compute; reflexivity].
  - destruct (streamVideo_range_end extname0 join_videos_dir0 file_size0
                "bytes=0-499" "clip .mp" 100 0) as [_ Hclosed].
    + discriminate.
    + vm_compute. reflexivity.
    + vm_compute. reflexivity.
    + lia.
    + rewrite (Hclosed "499" 499%Z); [vm_compute; reflexivity | vm_compute; reflexivity
                                     | discriminate | vm_compute; reflexivity | lia].
Defined.

(** ** The socket middleware and the video stream on small inputs *)

Example scenario_socket_auth :
  socketAuthMiddleware jwt_verify0 (Some "t1") db0
    = (mkSocket (Some ("u1", mkUser "Ann" (mkStats 0 0 0 0))) ["user:u1"], None)
  ∧ socketAuthMiddleware jwt_verify0 (Some "old") db0
    = (mkSocket None [], Some (Error "Authentication error: jwt expired"))
  ∧ socketAuthMiddleware jwt_verify0 (Some "") db0
    = (mkSocket None [], Some (Error "Authentication error: Token missing"))
  ∧ socketAuthMiddleware jwt_verify0 (Some "t1") emptyDb
    = (mkSocket None [], Some (Error "Authentication error: User not found")).
Proof. repeat split; vm_compute; reflexivity. Qed.

Example scenario_streamVideo :
  streamVideo extname0 join_videos_dir0 file_size0 None "clip.mp4"
    = WholeFile 100 "video/mp4"
  ∧ streamVideo extname0 join_videos_dir0 file_size0 None "clip" = WholeFile 100 "video/mp4"
  ∧ streamVideo extname0 join_videos_dir0 file_size0 (Some "bytes=0-") "other.mp4"
    = VideoNotFound
  ∧ streamVideo extname0 join_videos_dir0 file_size0 (Some "bytes=-50") "clip.mp4"
    = RangeNotSatisfiable "bytes=-50" 100
  ∧ streamVideo extname0 join_videos_dir0 file_size0 (Some "bytes=100-") "clip.mp4"
    = RangeNotSatisfiable "bytes=100-" 100
  ∧ streamVideo extname0 join_videos_dir0 file_size0 (Some "bytes=50-20") "clip.mp4"
    = StreamError
  ∧ streamVideo extname0 join_videos_dir0 file_size0 (Some "bytes=5-x") "clip.mp4"
    = StreamError
  ∧ streamVideo extname0 join_videos_dir0 file_size0 (Some "bytes=0-99999999") "clip.mp4"
    = PartialContent 0 10485760 100 10485761 "video/mp4".
Proof. repeat split; vm_compute; reflexivity. Qed.

(** ** repliesCount and the replies of a comment *)

Lemma count_replies_insert (m : gmap string CommentDoc) k v P :
  m !! k = None →
  count_replies (<[k:=v]> m) P
  = if decide (c_parentComment v = Some P) then S (count_replies m P)
    else count_replies m P.
Proof. intros Hk. unfold count_replies. by rewrite size_filter_insert_fresh. Qed.

Lemma count_replies_alter (m : gmap string CommentDoc) f k P :
  (∀ v, c_parentComment (f v) = c_parentComment v) →
  count_replies (alter f k m) P = count_replies m P.
Proof.
  intros Hf. unfold count_replies. apply size_filter_alter.
  intros v. cbn. by rewrite Hf.
Qed.

Lemma count_replies_delete (m : gmap string CommentDoc) k v P :
  m !! k = Some v →
  count_replies m P
  = if decide (c_parentComment v = Some P) then S (count_replies (delete k m) P)
    else count_replies (delete k m) P.
Proof.
  intros Hk. unfold count_replies.
  by rewrite (size_filter_delete_present _ m k v Hk).
Qed.

Lemma count_replies_none (m : gmap string CommentDoc) P :
  (∀ id row, m !! id = Some row → c_parentComment row ≠ Some P) →
  count_replies m P = 0.
Proof.
  intros Hno. unfold count_replies. apply map_size_empty_iff, map_empty_filter_2.
  intros id row Hrow. cbn. by apply (Hno id row).
Qed.

Lemma replies_counted_frame (used : gset ObjectId) (d d' : Db) :
  comments d' = comments d → replies_counted used d → replies_counted used d'.
Proof. unfold replies_counted. by intros ->. Qed.

Lemma replies_counted_mono (used used' : gset ObjectId) (d : Db) :
  used ⊆ used' → replies_counted used d → replies_counted used' d.
Proof.
  intros Hsub H id row Hrow. destruct (H id row Hrow) as (Hid & Hp & Hn).
  split; [by apply Hsub |]. split; [| exact Hn]. intros p Hpar. by apply Hsub, Hp.
Qed.

Lemma replies_counted_create (used : gset ObjectId) (d : Db) newId row :
  newId ∉ used →
  c_repliesCount row = 0%Z →
  match c_parentComment row with
  | Some p => is_Some (comments d !! p)
  | None => True
  end →
  replies_counted used d →
  replies_counted ({[newId]} ∪ used)
    match c_parentComment row with
    | Some p => with_comments (alter (Comment.inc_repliesCount 1) p)
                  (with_comments (insert newId row) d)
    | None => with_comments (insert newId row) d
    end.
Proof.
  intros Hnew Hzero Hpar H.
  assert (Hfresh : comments d !! newId = None).
  { destruct (comments d !! newId) as [r|] eqn:Hr; [| done].
    destruct (H newId r Hr) as (Hin & _). done. }
  assert (Hnoref : count_replies (comments d) newId = 0).
  { apply count_replies_none. intros id r Hr Hp.
    destruct (H id r Hr) as (_ & Hpin & _). by apply Hnew, Hpin. }
  set (f := match c_parentComment row with
            | Some p => alter (Comment.inc_repliesCount 1) p
            | None => λ m : gmap string CommentDoc, m
            end).
  assert (Hcomments : comments match c_parentComment row with
                               | Some p => with_comments (alter (Comment.inc_repliesCount 1) p)
                                             (with_comments (insert newId row) d)
                               | None => with_comments (insert newId row) d
                               end = f (<[newId:=row]> (comments d))).
  { unfold f. by destruct (c_parentComment row). }
  intros id r. rewrite Hcomments. clear Hcomments.
  assert (Hcount : ∀ P, count_replies (f (<[newId:=row]> (comments d))) P
                        = if decide (c_parentComment row = Some P)
                          then S (count_replies (comments d) P)
                          else count_replies (comments d) P).
  { intros P. unfold f. destruct (c_parentComment row) as [p|] eqn:Hp.
    - rewrite count_replies_alter by done.
      rewrite count_replies_insert by done. by rewrite Hp.
    - rewrite count_replies_insert by done. by rewrite Hp. }
  assert (Hparent_in : ∀ p, c_parentComment row = Some p → p ∈ used ∧ p ≠ newId).
  { intros p Hp. rewrite Hp in Hpar. destruct Hpar as [r0 Hr0].
    destruct (H p r0 Hr0) as (Hin & _). split; [done | by intros ->]. }
  destruct (decide (id = newId)) as [->|Hne].
  - assert (Hlook : f (<[newId:=row]> (comments d)) !! newId = Some row).
    { unfold f. destruct (c_parentComment row) as [p|] eqn:Hp.
      - destruct (Hparent_in p eq_refl) as [_ Hpn].
        rewrite lookup_alter_ne by done. apply lookup_insert_eq.
      - apply lookup_insert_eq. }
    rewrite Hlook. intros [= <-].
    split; [apply elem_of_union; left; by apply elem_of_singleton |]. split.
    + intros p Hp. destruct (Hparent_in p Hp). apply elem_of_union. by right.
    + rewrite Hcount, Hzero, Hnoref.
      destruct (decide (c_parentComment row = Some newId)) as [Hself|]; [| done].
      by destruct (Hparent_in newId Hself).
  - intros Hr.
    assert (Hold : ∃ r0, comments d !! id = Some r0
                         ∧ c_parentComment r = c_parentComment r0
                         ∧ c_repliesCount r
                           = if decide (c_parentComment row = Some id)
                             then (c_repliesCount r0 + 1)%Z else c_repliesCount r0).
    { revert Hr. unfold f. destruct (c_parentComment row) as [p|] eqn:Hp.
      - destruct (decide (p = id)) as [->|Hpid].
        + rewrite lookup_alter_eq, lookup_insert_ne by done.
          destruct (comments d !! id) as [r0|]; [| done]. cbn. intros [= <-].
          exists r0. rewrite decide_True by done. done.
        + rewrite lookup_alter_ne, lookup_insert_ne by done. intros Hr.
          exists r. rewrite decide_False by congruence. done.
      - rewrite lookup_insert_ne by done. intros Hr. exists r.
        rewrite decide_False by done. done. }
    destruct Hold as (r0 & Hr0 & Hpeq & Hceq).
    destruct (H id r0 Hr0) as (Hin & Hpin & Hn).
    split; [apply elem_of_union; by right |]. split.
    + intros p Hp. rewrite Hpeq in Hp. specialize (Hpin p Hp).
      apply elem_of_union. by right.
    + rewrite Hceq, Hcount, Hn. destruct (decide _); lia.
Qed.

Lemma replies_counted_update (used : gset ObjectId) (d : Db) cm text :
  replies_counted used d →
  replies_counted used (with_comments (alter (Comment.set_text_isEdited text) cm) d).
Proof.
  intros H id r. cbn. rewrite count_replies_alter by done.
  destruct (decide (cm = id)) as [->|Hne].
  - rewrite lookup_alter_eq. destruct (comments d !! id) as [r0|] eqn:Hr0; [| done].
    cbn. intros [= <-]. by destruct (H id r0 Hr0) as (? & ? & ?).
  - rewrite lookup_alter_ne by done. apply H.
Qed.

Lemma replies_counted_delete (used : gset ObjectId) (d : Db) cm c :
  comments d !! cm = Some c →
  replies_counted used d →
  replies_counted used
    (with_comments (delete cm)
       match c_parentComment c with
       | Some p => with_comments (alter (Comment.inc_repliesCount (-1)) p) d
       | None => d
       end).
Proof.
  intros Hc H.
  set (f := match c_parentComment c with
            | Some p => alter (Comment.inc_repliesCount (-1)) p
            | None => λ m : gmap string CommentDoc, m
            end).
  assert (Hcomments : comments (with_comments (delete cm)
                         match c_parentComment c with
                         | Some p => with_comments (alter (Comment.inc_repliesCount (-1)) p) d
                         | None => d
                         end) = delete cm (f (comments d))).
  { unfold f. by destruct (c_parentComment c). }
  intros id r. rewrite Hcomments. clear Hcomments.
  destruct (decide (id = cm)) as [->|Hne]; [by rewrite lookup_delete_eq |].
  rewrite lookup_delete_ne by done. intros Hr.
  assert (Hf : ∀ P, count_replies (f (comments d)) P = count_replies (comments d) P).
  { intros P. unfold f. destruct (c_parentComment c); [| done].
    by apply count_replies_alter. }
  assert (Hcm : ∃ c', f (comments d) !! cm = Some c'
                      ∧ c_parentComment c' = c_parentComment c).
  { unfold f. destruct (c_parentComment c) as [p|] eqn:Hp; [| by exists c].
    destruct (decide (p = cm)) as [->|Hpc].
    - rewrite lookup_alter_eq, Hc. by eexists.
    - rewrite lookup_alter_ne by done. by exists c. }
  destruct Hcm as (c' & Hcm & Hpc').
  assert (Hold : ∃ r0, comments d !! id = Some r0
                       ∧ c_parentComment r = c_parentComment r0
                       ∧ c_repliesCount r
                         = if decide (c_parentComment c = Some id)
                           then (c_repliesCount r0 - 1)%Z else c_repliesCount r0).
  { revert Hr. unfold f. destruct (c_parentComment c) as [p|] eqn:Hp.
    - destruct (decide (p = id)) as [->|Hpid].
      + rewrite lookup_alter_eq. destruct (comments d !! id) as [r0|]; [| done].
        cbn. intros [= <-]. exists r0. rewrite decide_True by done.
        repeat split.
      + rewrite lookup_alter_ne by done. intros Hr. exists r.
        rewrite decide_False by congruence. done.
    - intros Hr. exists r. rewrite decide_False by done. done. }
  destruct Hold as (r0 & Hr0 & Hpeq & Hceq).
  destruct (H id r0 Hr0) as (Hin & Hpin & Hn).
  split; [done |]. split; [intros p Hp; rewrite Hpeq in Hp; by apply Hpin |].
  pose proof (count_replies_delete (f (comments d)) cm c' id Hcm) as Hdel.
  rewrite Hf, Hpc' in Hdel. rewrite Hceq, Hn, Hdel.
  destruct (decide _); lia.
Qed.

Lemma replies_counted_call (used : gset ObjectId) (c : Call) (d : Db) :
  replies_counted used d →
  ids_fresh used [c] →
  ∃ used', used ⊆ used' ∧ replies_counted used' (db_after c d)
           ∧ ∀ cs, ids_fresh
                     match c with
                     | CreateComment _ _ _ _ _ _ newId => {[newId]} ∪ used
                     | _ => used
                     end cs → ids_fresh used' cs.
Proof.
  intros H Hfresh.
  destruct c as [io u cid ct | io u cid ct t par nid | io u cm t | io u cm | io u tg].
  - exists used. split; [done |]. split; [| done].
    apply (replies_counted_frame used d); [apply toggleLike_keeps_comments | done].
  - destruct Hfresh as [Hnid _]. exists ({[nid]} ∪ used).
    split; [apply union_subseteq_r |]. split; [| done].
    assert (Hsame : replies_counted ({[nid]} ∪ used) d)
      by (apply (replies_counted_mono used); [apply union_subseteq_r | done]).
    unfold db_after.
    destruct (decide (commentable d ct cid)) as [Hc|Hnc]; last first.
    { by rewrite createComment_missing_content. }
    assert (Hp : parent_ok d par ∨ ∃ p, par = Some p ∧ comments d !! p = None).
    { destruct par as [p|]; [| by left]. cbn.
      destruct (comments d !! p) eqn:Hp; [left; eauto | right; eauto]. }
    destruct Hp as [Hp | (p & -> & Hp)]; last first.
    { by rewrite createComment_missing_parent. }
    rewrite createComment_past_the_checks by done.
    destruct (Comment.validate ct (Comment.setText t)); [| done].
    destruct (comments d !! nid) eqn:Hnid'; [done |]. cbv zeta. cbn [snd db].
    apply (replies_counted_create used d nid
             (mkComment u cid ct (default "" (Comment.setText t)) par 0 0 false true));
      [done | done | | done].
    cbn. by destruct par.
  - exists used. split; [done |]. split; [| done].
    unfold db_after. rewrite updateComment_call.
    destruct (comments d !! cm) as [c0|]; [| done].
    destruct (String.eqb (c_user c0) u); [| done].
    destruct (Comment.validate (c_contentType c0) (Comment.setText t)); [| done].
    cbv zeta. destruct io; cbn [snd db]; by apply replies_counted_update.
  - exists used. split; [done |]. split; [| done].
    unfold db_after. rewrite deleteComment_call.
    destruct (comments d !! cm) as [c0|] eqn:Hc0; [| done].
    destruct (String.eqb (c_user c0) u); [| done].
    cbv zeta. destruct io; cbn [snd db]; by apply replies_counted_delete.
  - exists used. split; [done |]. split; [| done].
    apply (replies_counted_frame used d); [apply toggleFollow_keeps_comments | done].
Qed.

Lemma replies_counted_run (cs : list Call) : ∀ (used : gset ObjectId) (d : Db),
  replies_counted used d → ids_fresh used cs →
  ∃ used', replies_counted used' (run cs d).
Proof.
  induction cs as [|c cs IH]; intros used d H Hfresh; [by exists used |].
  cbn [run].
  assert (Hhead : ids_fresh used [c]).
  { destruct c; cbn in *; try done. by destruct Hfresh. }
  destruct (replies_counted_call used c d H Hhead) as (used' & _ & H' & Hrest).
  apply (IH used' _ H'). apply Hrest.
  destruct c; cbn in *; try done. by destruct Hfresh.
Qed.

(** X23. [repliesCount] is the number of replies.  Start from a database
    without comments and serve any requests one after the other, each new
    comment getting an id that was never used before.  Then every stored
    comment has a [repliesCount] equal to the number of stored comments
    whose [parentComment] it is, and every comment in an answer of
    [getComments] carries a [repliesCount] equal to the number of
    [replies] populated with it. *)
Theorem repliesCount_is_the_number_of_replies
    (commentedAt : ObjectId → Z) (cs : list Call) (d : Db) :
  comments d = ∅ →
  ids_fresh ∅ cs →
  (∀ id row, comments (run cs d) !! id = Some row →
     c_repliesCount row = Z.of_nat (count_replies (comments (run cs d)) id))
  ∧ (∀ contentId contentType parentComment pageQ limitQ item,
       item ∈ from_option page_items []
                (getComments commentedAt contentId contentType parentComment pageQ limitQ
                   (run cs d)) →
       c_repliesCount (item_doc item) = Z.of_nat (length (item_replies item))).
Proof.
  intros Hempty Hfresh.
  assert (H0 : replies_counted ∅ d).
  { intros id row. rewrite Hempty, lookup_empty. done. }
  destruct (replies_counted_run cs ∅ d H0 Hfresh) as (used & H).
  assert (Hrows : ∀ id row, comments (run cs d) !! id = Some row →
            c_repliesCount row = Z.of_nat (count_replies (comments (run cs d)) id)).
  { intros id row Hrow. by destruct (H id row Hrow) as (_ & _ & ?). }
  split; [exact Hrows |].
  intros contentId contentType parentComment pageQ limitQ item. unfold getComments.
  destruct (Cursor.skip_limit _ _ _) as [found|] eqn:Hfound; cbn;
    [| by intros ?%elem_of_nil].
  intros Hitem. apply list_elem_of_fmap in Hitem as ([id row] & -> & Hin).
  unfold Cursor.skip_limit in Hfound. destruct (_ && _); [| done].
  injection Hfound as <-.
  apply subseteq_take, subseteq_drop in Hin.
  unfold find_comments in Hin. rewrite sort_desc_perm in Hin.
  apply elem_of_map_to_list, map_lookup_filter_Some in Hin as [Hrow _].
  cbn. rewrite length_fmap, length_map_to_list. by apply Hrows.
Qed.

Lemma repliesCount_is_the_number_of_replies_witness :
  (c_repliesCount <$> comments db0_thread !! "c1") = Some 1%Z
  ∧ count_replies (comments db0_thread) "c1" = 1.
Proof.
  assert (Hrow : comments db0_thread !! "c1"
                 = Some (mkComment "u1" "v1" "Video" "hello" None 0 1 false true))
    by (vm_compute; reflexivity).
  destruct (repliesCount_is_the_number_of_replies (λ _, 0%Z)
              [CreateComment true "u1" "v1" "Video" (Some "hello") None "c1";
               CreateComment true "u2" "v1" "Video" (Some "hi") (Some "c1") "c2"] db0)
    as [Hrows _].
  - reflexivity.
  - cbn. split; [apply not_elem_of_empty |]. split; [| done].
    intros Hin. apply elem_of_union in Hin as [Hin|Hin];
      [| by apply elem_of_empty in Hin].
    apply elem_of_singleton in Hin. discriminate.
  - specialize (Hrows "c1" _ Hrow).
    split; [by rewrite Hrow |]. apply Nat2Z.inj. symmetry. exact Hrows.
Defined.

(** * The handlers on the raw request: properties *)

Example castObjectId_examples :
  Mongoose.castObjectId "64B0000000000000000000A1" = Some clip
  ∧ Mongoose.castObjectId clip = Some clip
  ∧ Mongoose.castObjectId "" = None
  ∧ Mongoose.castObjectId "c9" = None
  ∧ Mongoose.castObjectId "64b0000000000000000000g1" = None
  ∧ nat_of_ascii "034" = 34.
Proof. repeat split; vm_compute; reflexivity. Qed.

(** ** What a handler can answer *)

Lemma returns_ret {A} (Q : A → Prop) (a : A) : Q a → returns Q (mret a).
Proof. intros Ha w. exact Ha. Qed.

Lemma returns_throw {A} (Q : A → Prop) (e : Exn) : returns Q (throw e).
Proof. intros w. exact I. Qed.

Lemma returns_bind {A B} (P : A → Prop) (Q : B → Prop) (m : Async A) (k : A → Async B) :
  returns P m → (∀ a, P a → returns Q (k a)) → returns Q (m ≫= k).
Proof.
  intros Hm Hk w. unfold mbind, async_bind. specialize (Hm w).
  destruct (m w) as [[a|e] w']; cbn in *; [by apply Hk | done].
Qed.

Lemma returns_bind_any {A B} (Q : B → Prop) (m : Async A) (k : A → Async B) :
  (∀ a, returns Q (k a)) → returns Q (m ≫= k).
Proof.
  intros Hk. apply (returns_bind (λ _, True)); [| by intros a _].
  intros w. by destruct (fst (m w)).
Qed.

Lemma returns_req_io_emit io eventName data :
  returns (λ _, io = true) (req_io_emit io eventName data).
Proof. destruct io; intros w; done. Qed.

(** The handler-wide [catch]: an answer in every case, 500 for what was
    thrown. *)
Lemma catch500_answers (Q : Reply → Prop) (m : Async Reply) (w : World) :
  returns Q m →
  (∀ msg, Q (next (createError 500 msg))) →
  ∃ reply, fst (catch500 m w) = Normal reply ∧ Q reply.
Proof.
  intros Hm H500. unfold catch500, tryCatch. specialize (Hm w).
  destruct (m w) as [[r|e] w']; cbn in *; eauto.
Qed.

Ltac returns_steps :=
  repeat match goal with
         | |- returns _ (if ?b then _ else _) => destruct b
         | |- returns _ (match ?x with _ => _ end) => destruct x
         | |- returns _ (_ ≫= _) => apply returns_bind_any; intros ?
         | |- returns _ (mret _) => apply returns_ret
         | |- returns _ (throw _) => apply returns_throw
         end.

Ltac status_in_list :=
  cbn; repeat first [apply list_elem_of_here | apply list_elem_of_further].

(** X5. Every handler answers every request, whatever strings it
    carries: no exception escapes, and the status is one of a fixed few.
    [toggleLike] answers 200, 201, 404 or 500; [createComment] 201, 404 or
    500; [toggleFollow] 200, 201, 400, 404 or 500.  With a socket server
    attached [updateComment] and [deleteComment] answer 200, 403, 404 or
    500; without one neither can answer 200. *)
Theorem handlers_answer_with_known_status
    (castObjectId : string → option ObjectId) (CastError : string → string → Exn)
    (io : bool) (userId newId : ObjectId) (r : Route) (d : Db) :
  ∃ status,
    Http.status_of castObjectId CastError io userId newId r d = Some status
    ∧ status ∈ match r with
               | PostLikesToggle _ _ => [200; 201; 404; 500]
               | PostComments _ _ _ _ => [201; 404; 500]
               | PutComment _ _ | DeleteCommentRoute _ =>
                   if io then [200; 403; 404; 500] else [403; 404; 500]
               | PostFollow _ => [200; 201; 400; 404; 500]
               end.
Proof.
  unfold Http.status_of, Http.call.
  assert (H : ∃ reply,
    fst (Http.handle castObjectId CastError io userId newId r (mkWorld d []))
      = Normal reply
    ∧ http_status reply ∈ match r with
                          | PostLikesToggle _ _ => [200; 201; 404; 500]
                          | PostComments _ _ _ _ => [201; 404; 500]
                          | PutComment _ _ | DeleteCommentRoute _ =>
                              if io then [200; 403; 404; 500] else [403; 404; 500]
                          | PostFollow _ => [200; 201; 400; 404; 500]
                          end).
  { destruct r as [cid ct | cid ct t par | cm t | cm | tg]; cbn [Http.handle];
      unfold Http.toggleLike, Http.createComment, Http.updateComment,
        Http.deleteComment, Http.toggleFollow;
      (apply catch500_answers; [| intros msg; destruct io; status_in_list]).
    - unfold when. returns_steps; status_in_list.
    - unfold when. returns_steps; status_in_list.
    - apply returns_bind_any; intros _id. apply returns_bind_any; intros [c|].
      + destruct (negb _); [apply returns_ret; destruct io; status_in_list |].
        apply returns_bind_any; intros _. apply returns_bind_any; intros populated.
        apply (returns_bind (λ _, io = true)); [apply returns_req_io_emit |].
        intros _ ->. apply returns_ret. status_in_list.
      + apply returns_ret. destruct io; status_in_list.
    - apply returns_bind_any; intros _id. apply returns_bind_any; intros [c|].
      + destruct (negb _); [apply returns_ret; destruct io; status_in_list |].
        apply returns_bind_any; intros _. apply returns_bind_any; intros _.
        apply (returns_bind (λ _, io = true)); [apply returns_req_io_emit |].
        intros _ ->. apply returns_ret. status_in_list.
      + apply returns_ret. destruct io; status_in_list.
    - unfold when. returns_steps; status_in_list. }
  destruct H as (reply & -> & Hin). by exists (http_status reply).
Qed.

(** ** The casts *)

Section HttpCalls.
Context (castObjectId : string → option ObjectId) (CastError : string → string → Exn).

Abbreviation http_call := (Http.call castObjectId CastError).

Lemma Http_cast_Some value path _id (w : World) :
  castObjectId value = Some _id →
  Http.cast castObjectId CastError value path w = (Normal _id, w).
Proof. intros H. unfold Http.cast. by rewrite H. Qed.

Lemma Http_cast_None value path (w : World) :
  castObjectId value = None →
  Http.cast castObjectId CastError value path w = (Thrown (CastError value path), w).
Proof. intros H. unfold Http.cast. by rewrite H. Qed.

(** ** updateComment and deleteComment *)

(** Once the id of the URL has been cast, [updateComment] is the handler
    on ObjectIds. *)
Lemma Http_updateComment_call io userId newId commentId text d :
  http_call io userId newId (PutComment commentId text) d
  = match castObjectId commentId with
    | Some _id => call (UpdateComment io userId _id text) d
    | None =>
        (Normal (next (createError 500 (message (CastError commentId "_id")))),
         mkWorld d [])
    end.
Proof.
  unfold Http.call, Http.handle, Http.updateComment, Http.cast, call, handle,
    updateComment, catch500, tryCatch, mbind, async_bind.
  destruct (castObjectId commentId); reflexivity.
Qed.

(** [deleteComment] puts the id as the URL spelled it into the event. *)
Lemma Http_deleteComment_call io userId newId commentId d :
  http_call io userId newId (DeleteCommentRoute commentId) d
  = match castObjectId commentId with
    | None =>
        (Normal (next (createError 500 (message (CastError commentId "_id")))),
         mkWorld d [])
    | Some _id =>
        match comments d !! _id with
        | None => (Normal (next (createError 404 "Comment not found")), mkWorld d [])
        | Some c =>
            if String.eqb (c_user c) userId
            then
              let d' := with_comments (delete _id)
                          match c_parentComment c with
                          | Some p =>
                              with_comments (alter (Comment.inc_repliesCount (-1)) p) d
                          | None => d
                          end in
              if io
              then (Normal (json 200 (MessageBody "Comment deleted successfully")),
                    mkWorld d' [mkEmit None ("comment:" +:+ c_content c)
                                  (CommentIdPayload "delete" commentId)])
              else (Normal (next (createError 500
                      "Cannot read properties of undefined (reading 'emit')")),
                    mkWorld d' [])
            else (Normal (next (createError 403 "Not authorized to delete this comment")),
                  mkWorld d [])
        end
    end.
Proof.
  unfold Http.call, Http.handle, Http.deleteComment, Http.cast.
  destruct (castObjectId commentId) as [_id|]; [| reflexivity].
  step_async. cbn.
  destruct (comments d !! _id) as [c|]; [| reflexivity].
  destruct (String.eqb (c_user c) userId); cbn; [| reflexivity].
  destruct (c_parentComment c); destruct io; reflexivity.
Qed.

End HttpCalls.

(** X2. [updateComment] and [deleteComment] check the target before they
    write.  When the id in the URL does not cast to an ObjectId, both
    answer 500 with the message of the cast error; when it casts to an id
    under which no comment is stored, both answer 404 "Comment not found";
    when it casts to the id of a comment of another user, both answer 403.
    In each case the database is left as it was and nothing is emitted,
    whatever the text and whether or not a socket server is attached. *)
Theorem comment_edit_guards
    (castObjectId : string → option ObjectId) (CastError : string → string → Exn) :
  (∀ io userId newId commentId text d,
     castObjectId commentId = None →
     Http.call castObjectId CastError io userId newId (PutComment commentId text) d
       = (Normal (next (createError 500 (message (CastError commentId "_id")))),
          mkWorld d [])
     ∧ Http.call castObjectId CastError io userId newId (DeleteCommentRoute commentId) d
       = (Normal (next (createError 500 (message (CastError commentId "_id")))),
          mkWorld d []))
  ∧ (∀ io userId newId commentId _id text d,
       castObjectId commentId = Some _id →
       comments d !! _id = None →
       Http.call castObjectId CastError io userId newId (PutComment commentId text) d
         = (Normal (next (createError 404 "Comment not found")), mkWorld d [])
       ∧ Http.call castObjectId CastError io userId newId (DeleteCommentRoute commentId) d
         = (Normal (next (createError 404 "Comment not found")), mkWorld d []))
  ∧ (∀ io userId newId commentId _id text c d,
       castObjectId commentId = Some _id →
       comments d !! _id = Some c →
       c_user c ≠ userId →
       Http.call castObjectId CastError io userId newId (PutComment commentId text) d
         = (Normal (next (createError 403 "Not authorized to update this comment")),
            mkWorld d [])
       ∧ Http.call castObjectId CastError io userId newId (DeleteCommentRoute commentId) d
         = (Normal (next (createError 403 "Not authorized to delete this comment")),
            mkWorld d [])).
Proof.
  split; [| split].
  - intros io u nid cm t d Hcast.
    by rewrite Http_updateComment_call, Http_deleteComment_call, Hcast.
  - intros io u nid cm _id t d Hcast Hc.
    by rewrite Http_updateComment_call, Http_deleteComment_call, Hcast,
      updateComment_call, Hc.
  - intros io u nid cm _id t c d Hcast Hc Hu.
    by rewrite Http_updateComment_call, Http_deleteComment_call, Hcast,
      updateComment_call, Hc, (eqb_false_of_ne _ _ Hu).
Qed.

Lemma comment_edit_guards_witness :
  Http.status_of Mongoose.castObjectId Mongoose.CastError true bob reply1
    (DeleteCommentRoute "c9") db1_comment = Some 500
  ∧ Http.status_of Mongoose.castObjectId Mongoose.CastError true bob reply1
      (DeleteCommentRoute reply1) db1_comment = Some 404
  ∧ Http.call Mongoose.castObjectId Mongoose.CastError true bob reply1
      (PutComment "64B0000000000000000000C1" (Some "mine now")) db1_comment
    = (Normal (next (createError 403 "Not authorized to update this comment")),
       mkWorld db1_comment []).
Proof.
  destruct (comment_edit_guards Mongoose.castObjectId Mongoose.CastError)
    as (Hcast & Hmissing & Hother).
  destruct (Hcast true bob reply1 "c9" None db1_comment) as [_ H500];
    [vm_compute; reflexivity |].
  destruct (Hmissing true bob reply1 reply1 reply1 None db1_comment) as [_ H404];
    [vm_compute; reflexivity | vm_compute; reflexivity |].
  destruct (Hother true bob reply1 "64B0000000000000000000C1" note (Some "mine now")
              (mkComment ann clip "Video" "hello" None 0 0 false true) db1_comment)
    as [H403 _]; [vm_compute; reflexivity | vm_compute; reflexivity | discriminate |].
  unfold Http.status_of. rewrite H500, H404. split; [reflexivity |].
  split; [reflexivity | exact H403].
Defined.

(** ** createComment: the checks in order *)

Section HttpCreateComment.
Context (castObjectId : string → option ObjectId) (CastError : string → string → Exn).

Abbreviation http_call' := (Http.call castObjectId CastError).

Lemma Http_commentContentExists_spec contentType contentId (w : World) :
  Http.commentContentExists castObjectId CastError contentType contentId w
  = if String.eqb contentType "Video" || String.eqb contentType "Article"
    then match castObjectId contentId with
         | Some _id => commentContentExists contentType _id w
         | None => (Thrown (CastError contentId "_id"), w)
         end
    else (Normal false, w).
Proof.
  unfold Http.commentContentExists, commentContentExists, Http.cast, mbind, async_bind.
  destruct (String.eqb contentType "Video"); cbn;
    [by destruct (castObjectId contentId) |].
  destruct (String.eqb contentType "Article"); cbn;
    [by destruct (castObjectId contentId) | reflexivity].
Qed.

Lemma commentable_type d contentType _id :
  commentable d contentType _id →
  String.eqb contentType "Video" || String.eqb contentType "Article" = true.
Proof. intros [[-> _]|[-> _]]; reflexivity. Qed.

Lemma Http_content_found contentType contentId _id (w : World) :
  castObjectId contentId = Some _id →
  commentable (db w) contentType _id →
  Http.commentContentExists castObjectId CastError contentType contentId w
  = (Normal true, w).
Proof.
  intros Hcast Hc. rewrite Http_commentContentExists_spec, (commentable_type _ _ _ Hc), Hcast.
  destruct (commentContentExists_spec contentType _id w) as (b & -> & Hb).
  by rewrite (proj2 Hb Hc).
Qed.

Lemma Http_parent_found d parentComment (ws : list Emit) :
  parent_passes castObjectId d parentComment →
  (if Http.truthy parentComment
   then Http.cast castObjectId CastError (default "" parentComment) "_id"
        ≫= λ _id, Comment.exists_ _id
   else mret true) (mkWorld d ws)
  = (Normal true, mkWorld d ws).
Proof.
  destruct parentComment as [[|a r]|]; cbn; [done | | done].
  intros (_id & Hcast & Hsome).
  unfold mbind, async_bind. rewrite (Http_cast_Some _ _ _ _ _ _ Hcast).
  unfold Comment.exists_, getDb, mbind, async_bind, mret, async_ret. cbn.
  by rewrite bool_decide_eq_true_2.
Qed.

Lemma Http_Comment_create_refused newId userId contentId _id contentType text
    parentComment e errors (w : World) :
  castObjectId contentId = Some _id →
  Http.castErrors castObjectId CastError "parentComment" parentComment
    ++ Comment.validate contentType (Comment.setText text) = e :: errors →
  Http.Comment_create castObjectId CastError newId userId contentId contentType text
    parentComment w
  = (Thrown (ValidationError "Comment" (e :: errors)), w).
Proof.
  intros Hcast Herr. unfold Http.Comment_create. rewrite Hcast.
  destruct (Http.castErrors castObjectId CastError "parentComment" parentComment)
    as [|e0 l0] eqn:Hce.
  - cbn in Herr. unfold Comment.create. by rewrite Herr.
  - unfold Http.castErrors at 1. rewrite Hcast. cbn [app]. by rewrite <- Herr.
Qed.

Lemma Http_Comment_create_taken newId userId contentId _id contentType text
    parentComment c (w : World) :
  castObjectId contentId = Some _id →
  Http.castErrors castObjectId CastError "parentComment" parentComment
    ++ Comment.validate contentType (Comment.setText text) = [] →
  comments (db w) !! newId = Some c →
  Http.Comment_create castObjectId CastError newId userId contentId contentType text
    parentComment w
  = (Thrown (E11000 "comments" "_id_"), w).
Proof.
  intros Hcast Herr Hc. apply app_eq_nil in Herr as [Hce Hv].
  unfold Http.Comment_create. rewrite Hcast, Hce.
  unfold Comment.create. rewrite Hv. step_async. cbn. by rewrite Hc.
Qed.

Lemma Http_createComment_unknown_type io userId newId contentId contentType text
    parentComment d :
  contentType ≠ "Video" → contentType ≠ "Article" →
  http_call' io userId newId (PostComments contentId contentType text parentComment) d
  = (Normal (next (createError 404 (contentType +:+ " not found"))), mkWorld d []).
Proof.
  intros HV HA.
  unfold Http.call, Http.handle, Http.createComment, catch500, tryCatch, mbind, async_bind.
  rewrite Http_commentContentExists_spec,
    (eqb_false_of_ne _ _ HV), (eqb_false_of_ne _ _ HA).
  reflexivity.
Qed.

Lemma Http_createComment_content_cast io userId newId contentId contentType text
    parentComment d :
  contentType = "Video" ∨ contentType = "Article" →
  castObjectId contentId = None →
  http_call' io userId newId (PostComments contentId contentType text parentComment) d
  = (Normal (next (createError 500 (message (CastError contentId "_id")))), mkWorld d []).
Proof.
  intros Hct Hcast.
  unfold Http.call, Http.handle, Http.createComment, catch500, tryCatch, mbind, async_bind.
  rewrite Http_commentContentExists_spec, Hcast.
  by destruct Hct as [-> | ->].
Qed.

Lemma Http_createComment_missing_content io userId newId contentId _id contentType text
    parentComment d :
  castObjectId contentId = Some _id →
  ¬ commentable d contentType _id →
  http_call' io userId newId (PostComments contentId contentType text parentComment) d
  = (Normal (next (createError 404 (contentType +:+ " not found"))), mkWorld d []).
Proof.
  intros Hcast Hc.
  unfold Http.call, Http.handle, Http.createComment, catch500, tryCatch, mbind, async_bind.
  rewrite Http_commentContentExists_spec, Hcast.
  destruct (String.eqb contentType "Video" || String.eqb contentType "Article");
    [| reflexivity].
  destruct (commentContentExists_spec contentType _id (mkWorld d [])) as (b & -> & Hb).
  destruct b; [exfalso; apply Hc; by apply Hb | reflexivity].
Qed.

Lemma Http_createComment_parent_cast io userId newId contentId _id contentType text
    a r d :
  castObjectId contentId = Some _id →
  commentable d contentType _id →
  castObjectId (String a r) = None →
  http_call' io userId newId
    (PostComments contentId contentType text (Some (String a r))) d
  = (Normal (next (createError 500 (message (CastError (String a r) "_id")))),
     mkWorld d []).
Proof.
  intros Hcast Hc Hp.
  unfold Http.call, Http.handle, Http.createComment, catch500, tryCatch, mbind, async_bind.
  rewrite (Http_content_found _ _ _ (mkWorld d []) Hcast Hc). cbn.
  by rewrite (Http_cast_None _ _ _ _ _ Hp).
Qed.

Lemma Http_createComment_missing_parent io userId newId contentId _id contentType text
    a r parent d :
  castObjectId contentId = Some _id →
  commentable d contentType _id →
  castObjectId (String a r) = Some parent →
  comments d !! parent = None →
  http_call' io userId newId
    (PostComments contentId contentType text (Some (String a r))) d
  = (Normal (next (createError 404 "Parent comment not found")), mkWorld d []).
Proof.
  intros Hcast Hc Hp Hnone.
  unfold Http.call, Http.handle, Http.createComment, catch500, tryCatch, mbind, async_bind.
  rewrite (Http_content_found _ _ _ (mkWorld d []) Hcast Hc). cbn.
  rewrite (Http_cast_Some _ _ _ _ _ _ Hp).
  unfold Comment.exists_, getDb, mbind, async_bind, mret, async_ret. cbn.
  rewrite bool_decide_eq_false_2; [reflexivity |].
  rewrite Hnone. by intros [? ?].
Qed.

Lemma Http_createComment_refused io userId newId contentId _id contentType text
    parentComment e errors d :
  castObjectId contentId = Some _id →
  commentable d contentType _id →
  parent_passes castObjectId d parentComment →
  Http.castErrors castObjectId CastError "parentComment" parentComment
    ++ Comment.validate contentType (Comment.setText text) = e :: errors →
  http_call' io userId newId (PostComments contentId contentType text parentComment) d
  = (Normal (next (createError 500 (message (ValidationError "Comment" (e :: errors))))),
     mkWorld d []).
Proof.
  intros Hcast Hc Hp Herr.
  unfold Http.call, Http.handle, Http.createComment, catch500, tryCatch.
  unfold mbind at 1, async_bind at 1.
  rewrite (Http_content_found _ _ _ (mkWorld d []) Hcast Hc). cbn [negb].
  unfold mbind at 1, async_bind at 1.
  rewrite (Http_parent_found _ _ _ Hp). cbn [negb].
  unfold mbind at 1, async_bind at 1.
  by rewrite (Http_Comment_create_refused _ _ _ _ _ _ _ _ _ _ Hcast Herr).
Qed.

Lemma Http_createComment_id_taken io userId newId contentId _id contentType text
    parentComment c d :
  castObjectId contentId = Some _id →
  commentable d contentType _id →
  parent_passes castObjectId d parentComment →
  Http.castErrors castObjectId CastError "parentComment" parentComment
    ++ Comment.validate contentType (Comment.setText text) = [] →
  comments d !! newId = Some c →
  http_call' io userId newId (PostComments contentId contentType text parentComment) d
  = (Normal (next (createError 500 (message (E11000 "comments" "_id_")))), mkWorld d []).
Proof.
  intros Hcast Hc Hp Herr Hid.
  unfold Http.call, Http.handle, Http.createComment, catch500, tryCatch.
  unfold mbind at 1, async_bind at 1.
  rewrite (Http_content_found _ _ _ (mkWorld d []) Hcast Hc). cbn [negb].
  unfold mbind at 1, async_bind at 1.
  rewrite (Http_parent_found _ _ _ Hp). cbn [negb].
  unfold mbind at 1, async_bind at 1.
  by rewrite (Http_Comment_create_taken _ _ _ _ _ _ _ _ (mkWorld d []) Hcast Herr Hid).
Qed.

End HttpCreateComment.

(** X4. The failures of [createComment] come in a fixed order and none of
    them writes or emits.  A content type other than Video and Article is
    answered 404 "<contentType> not found" whatever the rest of the
    request.  For Video and Article, a content id that does not cast to an
    ObjectId is answered 500 with the message of the cast error, and one
    that casts to the id of no stored content 404.  With the content
    there, a parent that is given (and not the empty string) is answered
    500 when it does not cast and 404 "Parent comment not found" when it
    casts to the id of no stored comment.  With content and parent in
    order, a text the schema refuses, or an empty string for a parent, is
    answered 500 with the validation message; and with all of that in
    order, an id already in use is answered 500 with the duplicate-key
    message of the [_id] index. *)
Theorem createComment_failures_in_order
    (castObjectId : string → option ObjectId) (CastError : string → string → Exn)
    (io : bool) (userId newId : ObjectId) (contentId contentType : string)
    (text parentComment : option string) (d : Db) :
  let answer :=
    Http.call castObjectId CastError io userId newId
      (PostComments contentId contentType text parentComment) d in
  let refused (status : nat) (msg : string) :=
    answer = (Normal (next (createError status msg)), mkWorld d []) in
  let errors :=
    Http.castErrors castObjectId CastError "parentComment" parentComment
    ++ Comment.validate contentType (Comment.setText text) in
  (contentType ≠ "Video" → contentType ≠ "Article" →
   refused 404 (contentType +:+ " not found"))
  ∧ (contentType = "Video" ∨ contentType = "Article" →
     castObjectId contentId = None →
     refused 500 (message (CastError contentId "_id")))
  ∧ (∀ _id, castObjectId contentId = Some _id →
       (¬ commentable d contentType _id → refused 404 (contentType +:+ " not found"))
       ∧ (commentable d contentType _id →
          (∀ a r, parentComment = Some (String a r) →
             (castObjectId (String a r) = None →
              refused 500 (message (CastError (String a r) "_id")))
             ∧ (∀ parent, castObjectId (String a r) = Some parent →
                  comments d !! parent = None →
                  refused 404 "Parent comment not found"))
          ∧ (parent_passes castObjectId d parentComment →
             (errors ≠ [] → refused 500 (message (ValidationError "Comment" errors)))
             ∧ (errors = [] → is_Some (comments d !! newId) →
                refused 500 (message (E11000 "comments" "_id_")))))).
Proof.
  intros answer refused errors. subst answer refused. cbv beta.
  split; [| split].
  - intros HV HA. by apply Http_createComment_unknown_type.
  - intros Hct Hcast. by apply Http_createComment_content_cast.
  - intros _id Hcast. split.
    + intros Hc. by apply (Http_createComment_missing_content _ _ _ _ _ _ _id).
    + intros Hc. split.
      * intros a r ->. split.
        -- intros Hp. by apply (Http_createComment_parent_cast _ _ _ _ _ _ _id).
        -- intros parent Hp Hnone.
           by apply (Http_createComment_missing_parent _ _ _ _ _ _ _id _ _ _ _ parent).
      * intros Hp. split.
        -- intros Hne. destruct errors as [|e l] eqn:Herr; [done |].
           by apply (Http_createComment_refused _ _ _ _ _ _ _id).
        -- intros Herr [c Hid].
           by apply (Http_createComment_id_taken _ _ _ _ _ _ _id _ _ _ c).
Qed.

Lemma createComment_failures_in_order_witness :
  Http.status_of Mongoose.castObjectId Mongoose.CastError true bob reply1
    (PostComments "v1" "Video" None (Some "c7")) db1_comment = Some 500
  ∧ Http.status_of Mongoose.castObjectId Mongoose.CastError true bob reply1
      (PostComments "v1" "Podcast" None (Some "c7")) db1_comment = Some 404
  ∧ Http.status_of Mongoose.castObjectId Mongoose.CastError true bob reply1
      (PostComments clip "Video" None (Some "c7")) db1_comment = Some 500
  ∧ Http.status_of Mongoose.castObjectId Mongoose.CastError true bob reply1
      (PostComments clip "Video" None (Some reply1)) db1_comment = Some 404
  ∧ Http.call Mongoose.castObjectId Mongoose.CastError true bob reply1
      (PostComments clip "Video" None (Some note)) db1_comment
    = (Normal (next (createError 500
         "Comment validation failed: text: Comment text is required")),
       mkWorld db1_comment [])
  ∧ Http.status_of Mongoose.castObjectId Mongoose.CastError true bob note
      (PostComments clip "Video" (Some "hi") (Some note)) db1_comment = Some 500.
Proof.
  assert (Hc : commentable db1_comment "Video" clip).
  { left. split; [reflexivity | vm_compute; reflexivity]. }
  assert (Hclip : Mongoose.castObjectId clip = Some clip) by (vm_compute; reflexivity).
  assert (Hnote : Mongoose.castObjectId note = Some note) by (vm_compute; reflexivity).
  assert (Hpass : parent_passes Mongoose.castObjectId db1_comment (Some note)).
  { exists note. split; [exact Hnote | vm_compute; eauto]. }
  pose proof (createComment_failures_in_order Mongoose.castObjectId Mongoose.CastError
                true bob reply1 "v1" "Video" None (Some "c7") db1_comment) as H1.
  pose proof (createComment_failures_in_order Mongoose.castObjectId Mongoose.CastError
                true bob reply1 "v1" "Podcast" None (Some "c7") db1_comment) as H2.
  pose proof (createComment_failures_in_order Mongoose.castObjectId Mongoose.CastError
                true bob reply1 clip "Video" None (Some "c7") db1_comment) as H3.
  pose proof (createComment_failures_in_order Mongoose.castObjectId Mongoose.CastError
                true bob reply1 clip "Video" None (Some reply1) db1_comment) as H4.
  pose proof (createComment_failures_in_order Mongoose.castObjectId Mongoose.CastError
                true bob reply1 clip "Video" None (Some note) db1_comment) as H5.
  pose proof (createComment_failures_in_order Mongoose.castObjectId Mongoose.CastError
                true bob note clip "Video" (Some "hi") (Some note) db1_comment) as H6.
  cbv zeta in H1, H2, H3, H4, H5, H6.
  destruct H1 as (_ & H1 & _). destruct H2 as (H2 & _).
  destruct H3 as (_ & _ & H3). destruct H4 as (_ & _ & H4).
  destruct H5 as (_ & _ & H5). destruct H6 as (_ & _ & H6).
  specialize (H1 ltac:(by left) ltac:(vm_compute; reflexivity)).
  specialize (H2 ltac:(discriminate) ltac:(discriminate)).
  destruct (H3 clip Hclip) as [_ H3']. destruct (H3' Hc) as [H3'' _].
  destruct (H3'' "c"%char "7" eq_refl) as [H3c _].
  specialize (H3c ltac:(vm_compute; reflexivity)).
  destruct (H4 clip Hclip) as [_ H4']. destruct (H4' Hc) as [H4'' _].
  destruct (H4'' "6"%char "4b0000000000000000000c2" eq_refl) as [_ H4c].
  specialize (H4c reply1 ltac:(vm_compute; reflexivity) ltac:(vm_compute; reflexivity)).
  destruct (H5 clip Hclip) as [_ H5']. destruct (H5' Hc) as [_ H5''].
  destruct (H5'' Hpass) as [H5e _]. specialize (H5e ltac:(discriminate)).
  destruct (H6 clip Hclip) as [_ H6']. destruct (H6' Hc) as [_ H6''].
  destruct (H6'' Hpass) as [_ H6e].
  specialize (H6e ltac:(vm_compute; reflexivity) ltac:(vm_compute; eauto)).
  unfold Http.status_of. rewrite H1, H2, H3c, H4c, H5e, H6e.
  repeat split.
Defined.

(** ** toggleFollow on one's own id *)

Section HttpSelfFollow.
Context (castObjectId : string → option ObjectId) (CastError : string → string → Exn).

Lemma Http_toggleFollow_self io userId newId d :
  Http.call castObjectId CastError io userId newId (PostFollow userId) d
  = (Normal (next (createError 400 "Users cannot follow themselves")), mkWorld d []).
Proof.
  unfold Http.call, Http.handle, Http.toggleFollow, catch500, tryCatch.
  by rewrite String.eqb_refl.
Qed.

(** The caller's own id in another spelling passes the comparison of
    strings, is found by [User.exists], and is refused by the hook of
    [Follow.create]; the handler's [catch] makes that a 500. *)
Lemma Http_toggleFollow_respelled io userId newId targetUserId d :
  targetUserId ≠ userId →
  castObjectId targetUserId = Some userId →
  is_Some (users d !! userId) →
  follows d !! (userId, userId) = None →
  Http.call castObjectId CastError io userId newId (PostFollow targetUserId) d
  = (Normal (next (createError 500 "Users cannot follow themselves")), mkWorld d []).
Proof.
  intros Hne Hcast Huser Hrow.
  unfold Http.call, Http.handle, Http.toggleFollow, catch500, tryCatch.
  rewrite (eqb_false_of_ne _ _ Hne).
  unfold mbind at 1, async_bind at 1. unfold mbind at 1, async_bind at 1.
  rewrite (Http_cast_Some _ _ _ _ _ _ Hcast).
  unfold User.exists_ at 1, getDb, mbind at 1, async_bind at 1, mret at 1, async_ret at 1.
  cbn [db fst snd]. rewrite bool_decide_eq_true_2 by done. cbn [negb].
  unfold mbind at 1, async_bind at 1.
  rewrite (Http_cast_Some _ _ _ _ _ _ Hcast).
  unfold mbind at 1, async_bind at 1.
  unfold Follow.findOne at 1, getDb, mbind at 1, async_bind at 1, mret at 1, async_ret at 1.
  cbn [db fst snd]. rewrite Hrow. cbn [fmap option_fmap option_map].
  unfold mbind at 1, async_bind at 1.
  by rewrite Follow_create_self.
Qed.

Lemma nsf_Http_handle io userId newId (r : Route) :
  preserves (on_db no_self_follow) (Http.handle castObjectId CastError io userId newId r).
Proof.
  destruct r; cbn [Http.handle];
    unfold Http.toggleLike, Http.createComment, Http.updateComment, Http.deleteComment,
      Http.toggleFollow, Http.likeContentExists, Http.commentContentExists,
      Http.Comment_create, Http.cast, Video.exists_, Article.exists_, User.exists_,
      Comment.exists_, Comment.findById, Comment.findById_populated, Like.findOne,
      Follow.findOne;
    preserves_steps.
Qed.

Lemma Http_reachable_no_self_follow (d : Db) :
  Http.reachable castObjectId CastError d → no_self_follow d.
Proof.
  induction 1 as [us vs ars | io u nid r d _ IH | us vs ars d _ IH].
  - intros u. apply lookup_empty.
  - unfold Http.call. by apply (nsf_Http_handle io u nid r (mkWorld d [])).
  - exact IH.
Qed.

End HttpSelfFollow.

(** C8.  [toggleFollow] on the caller's own id.  When the URL spells the
    target exactly as [userId.toString()], the answer is
    [next(createError(400, "Users cannot follow themselves"))] and nothing
    is written or emitted.  When it spells the same ObjectId otherwise (in
    capitals, say), the comparison of strings misses it: for a caller who
    is a stored user the request reaches [Follow.create], the pre-save hook
    throws, and the answer is status 500 with the hook's message, nothing
    written or emitted.  Either way no Follow row with equal ends comes to
    be: none is in any reachable database. *)
Theorem toggleFollow_own_id_by_spelling
    (castObjectId : string → option ObjectId) (CastError : string → string → Exn) :
  (∀ io userId newId d,
     Http.call castObjectId CastError io userId newId (PostFollow userId) d
     = (Normal (next (createError 400 "Users cannot follow themselves")), mkWorld d []))
  ∧ (∀ io userId newId targetUserId d,
       targetUserId ≠ userId →
       castObjectId targetUserId = Some userId →
       is_Some (users d !! userId) →
       follows d !! (userId, userId) = None →
       Http.call castObjectId CastError io userId newId (PostFollow targetUserId) d
       = (Normal (next (createError 500 "Users cannot follow themselves")), mkWorld d []))
  ∧ (∀ d, Http.reachable castObjectId CastError d →
          ∀ userId, follows d !! (userId, userId) = None).
Proof.
  split; [| split].
  - intros io u nid d. apply Http_toggleFollow_self.
  - intros io u nid tg d. apply Http_toggleFollow_respelled.
  - intros d Hd. by apply (Http_reachable_no_self_follow castObjectId CastError).
Qed.

(** The caller 64b000000000000000000001 follows
    64B000000000000000000001: status 500, where the id as the caller's
    token has it gets 400. *)
Lemma toggleFollow_own_id_in_capitals :
  Mongoose.castObjectId "64B000000000000000000001" = Some ann
  ∧ Http.status_of Mongoose.castObjectId Mongoose.CastError true ann note
      (PostFollow "64B000000000000000000001") db1 = Some 500
  ∧ Http.call Mongoose.castObjectId Mongoose.CastError true ann note
      (PostFollow "64B000000000000000000001") db1
    = (Normal (next (createError 500 "Users cannot follow themselves")), mkWorld db1 [])
  ∧ Http.status_of Mongoose.castObjectId Mongoose.CastError true ann note
      (PostFollow ann) db1 = Some 400.
Proof.
  assert (Hcast : Mongoose.castObjectId "64B000000000000000000001" = Some ann)
    by (vm_compute; reflexivity).
  destruct (toggleFollow_own_id_by_spelling Mongoose.castObjectId Mongoose.CastError)
    as (Hsame & Hother & _).
  pose proof (Hother true ann note "64B000000000000000000001" db1
                ltac:(discriminate) Hcast ltac:(vm_compute; eauto)
                ltac:(vm_compute; reflexivity)) as H500.
  pose proof (Hsame true ann note db1) as H400.
  split; [exact Hcast |]. unfold Http.status_of. rewrite H500, H400.
  repeat split.
Defined.

(** ** The two layers *)

(** On a request whose ids are spelled as ObjectIds print, the handler on
    the raw request is the handler on ObjectIds. *)
Lemma Http_handle_canonical
    (castObjectId : string → option ObjectId) (CastError : string → string → Exn)
    (io : bool) (userId newId : ObjectId) (r : Route) (w : World) :
  canonical castObjectId r →
  Http.handle castObjectId CastError io userId newId r w
  = handle (route_call io userId newId r) w.
Proof.
  destruct r as [cid ct | cid ct t par | cm t | cm | tg]; cbn [canonical Http.handle
    route_call handle].
  - intros Hcast.
    unfold Http.toggleLike, toggleLike, toggleLike_write, Http.likeContentExists,
      likeContentExists, Http.cast. rewrite Hcast.
    unfold catch500, tryCatch, mbind, async_bind, mret, async_ret.
    destruct (String.eqb ct "Video"); [reflexivity |].
    destruct (String.eqb ct "Article"); [reflexivity |].
    destruct (String.eqb ct "Comment"); reflexivity.
  - intros [Hcast Hpar].
    unfold Http.createComment, createComment, Http.commentContentExists,
      commentContentExists, Http.Comment_create, Http.castErrors, Http.cast.
    rewrite Hcast.
    destruct par as [[|a r]|]; [by destruct Hpar | |].
    + destruct Hpar as [_ Hp]. cbn [Http.truthy default from_option]. unfold id.
      unfold catch500, tryCatch, mbind, async_bind, mret, async_ret.
      cbn [option_bind]. rewrite !Hp.
      destruct (String.eqb ct "Video"); [reflexivity |].
      destruct (String.eqb ct "Article"); reflexivity.
    + cbn [Http.truthy]. unfold catch500, tryCatch, mbind, async_bind, mret, async_ret.
      cbn [option_bind].
      destruct (String.eqb ct "Video"); [reflexivity |].
      destruct (String.eqb ct "Article"); reflexivity.
  - intros Hcast. unfold Http.updateComment, updateComment, Http.cast.
    rewrite Hcast. unfold catch500, tryCatch, mbind, async_bind, mret, async_ret.
    reflexivity.
  - intros Hcast. unfold Http.deleteComment, deleteComment, Http.cast.
    rewrite Hcast. unfold catch500, tryCatch, mbind, async_bind, mret, async_ret.
    reflexivity.
  - intros Hcast. unfold Http.toggleFollow, toggleFollow, Http.cast.
    rewrite Hcast. unfold catch500, tryCatch, mbind, async_bind, mret, async_ret.
    destruct (String.eqb tg userId); reflexivity.
Qed.
